(** * curveball: the command-line front end ([curveball/scripts/cli.py])

    A shallow embedding of the orchestration layer of curveball's command-line
    interface: plate resolution and loading, discovery of the data files,
    background correction, the per-strain fitting loop and the assembly of the
    result records.  The numerical routines, the parsers and the plotting
    calls belong to other libraries; they are taken as an interface
    ([Library]) whose calls either return a value or raise. *)

From Stdlib Require Import ZArith Floats Uint63 Zpower Ascii String.
From stdpp Require Import base option list strings pretty gmap.

Local Open Scope Z_scope.

(** ** Python values and exceptions *)

(** The values stored in a result record: [res[...]] holds text, numbers and
    flags. *)
Inductive pyval :=
  | PyInt (n : Z)
  | PyFloat (x : float)
  | PyStr (s : string)
  | PyBool (b : bool)
  | PyNone.

(** The exceptions that the script raises, catches or lets through. *)
Inductive exn :=
  | IOError (filename message : string)
  | XLRDError (arg0 : string)
  | CParserError (arg0 : string)
  | FileError (filename hint : string)      (* click.FileError *)
  | ClickException (message : string)       (* click.ClickException *)
  | Abort                                   (* click.Abort *)
  | KeyError (key : string)
  | IndexError
  | ValueError (message : string)
  | UnboundLocalError (name : string)
  | ImportError (name : string)
  | LibraryError (what : string).           (* anything else raised by a library *)

Inductive outcome (A : Type) :=
  | Ok (a : A)
  | Raise (e : exn).
Arguments Ok {A} a.
Arguments Raise {A} e.

(** ** The slice of [posixpath] and [str] that the script calls *)

Module Py.

Definition slash : ascii := "/"%char.
Definition dot : ascii := "."%char.

(** [s.rfind(c)] for a one-character [c]: the highest index, or [-1]. *)
Fixpoint rfind_from (c : ascii) (s : string) (i last : Z) : Z :=
  match s with
  | EmptyString => last
  | String a s' => rfind_from c s' (i + 1) (if Ascii.eqb a c then i else last)
  end.
Definition rfind (c : ascii) (s : string) : Z := rfind_from c s 0 (-1).

(** [s[:i]] and [s[i:]] for [0 <= i]. *)
Fixpoint take (n : nat) (s : string) : string :=
  match n, s with
  | S n', String a s' => String a (take n' s')
  | _, _ => EmptyString
  end.
Fixpoint drop (n : nat) (s : string) : string :=
  match n, s with
  | S n', String _ s' => drop n' s'
  | _, _ => s
  end.
Definition upto (i : Z) (s : string) : string := take (Z.to_nat i) s.
Definition from (i : Z) (s : string) : string := drop (Z.to_nat i) s.

(** [s.startswith('/')], [s.endswith('/')] *)
Definition startswith_slash (s : string) : bool :=
  match s with
  | String a _ => Ascii.eqb a slash
  | EmptyString => false
  end.
Fixpoint endswith_slash (s : string) : bool :=
  match s with
  | EmptyString => false
  | String a EmptyString => Ascii.eqb a slash
  | String _ s' => endswith_slash s'
  end.

(** [s == '/' * len(s)] *)
Fixpoint all_slashes (s : string) : bool :=
  match s with
  | EmptyString => true
  | String a s' => Ascii.eqb a slash && all_slashes s'
  end.

(** [s.rstrip('/')] *)
Fixpoint rstrip_slash (s : string) : string :=
  match s with
  | EmptyString => EmptyString
  | String a s' =>
      match rstrip_slash s' with
      | EmptyString => if Ascii.eqb a slash then EmptyString else String a EmptyString
      | t => String a t
      end
  end.

(** [s.lower()] on a byte string: only [A]..[Z] change. *)
Definition lower_char (a : ascii) : ascii :=
  let n := nat_of_ascii a in
  if ((65 <=? n) && (n <=? 90))%nat then ascii_of_nat (n + 32) else a.
Fixpoint lower (s : string) : string :=
  match s with
  | EmptyString => EmptyString
  | String a s' => String (lower_char a) (lower s')
  end.

(** [posixpath.join(a, b)]
<<
    if b.startswith('/'):                  path = b
    elif path == '' or path.endswith('/'): path += b
    else:                                  path += '/' + b
>> *)
Definition join (a b : string) : string :=
  if startswith_slash b then b
  else if String.eqb a "" || endswith_slash a then a +:+ b
  else a +:+ "/" +:+ b.

(** [posixpath.split(p)] *)
Definition split (p : string) : string * string :=
  let i := rfind slash p + 1 in
  let head := upto i p in
  let tail := from i p in
  let head :=
    if negb (String.eqb head "") && negb (all_slashes head)
    then rstrip_slash head else head in
  (head, tail).

Definition dirname (p : string) : string := fst (split p).
Definition basename (p : string) : string := from (rfind slash p + 1) p.

(** The loop of [genericpath._splitext]: is some character of the slice
    [p[filenameIndex:dotIndex]] not a dot? *)
Fixpoint has_non_dot (s : string) : bool :=
  match s with
  | EmptyString => false
  | String a s' => if Ascii.eqb a dot then has_non_dot s' else true
  end.

(** [posixpath.splitext(p)] *)
Definition splitext (p : string) : string * string :=
  let sepIndex := rfind slash p in
  let dotIndex := rfind dot p in
  if (sepIndex <? dotIndex)
     && has_non_dot (from (sepIndex + 1) (upto dotIndex p))
  then (upto dotIndex p, from dotIndex p)
  else (p, "").

End Py.

(** ** Tables *)

(** A label cell of the plate file as [pandas.read_csv] types it: a column of
    integers stays numeric, anything else is text. *)
Inductive cell :=
  | CInt (n : Z)
  | CStr (s : string).

(** [unicode(c)] *)
Definition unicode (c : cell) : string :=
  match c with
  | CInt n => pretty n
  | CStr s => s
  end.

(** One row of the plate table; [L] is the type of the strain label. *)
Record PlateRow (L : Type) := mkPlateRow {
  pl_Row : string;
  pl_Col : Z;
  pl_Strain : L;
  pl_Color : string
}.
Arguments mkPlateRow {L} _ _ _ _.
Arguments pl_Row {L} _.
Arguments pl_Col {L} _.
Arguments pl_Strain {L} _.
Arguments pl_Color {L} _.

(** The plate as loaded, and the plate after [analyse] has turned the labels
    into text. *)
Abbreviation RawPlate := (list (PlateRow cell)).
Abbreviation Plate := (list (PlateRow string)).

(** One row of the readings table [df] of a data file. *)
Record Reading := mkReading {
  Well : string;
  Strain : string;
  Time : float;
  OD : float
}.
Abbreviation DataFrame := (list Reading).

Definition set_OD (x : float) (r : Reading) : Reading :=
  {| Well := Well r; Strain := Strain r; Time := Time r; OD := x |}.

(** [df[df.Strain == strain]] *)
Definition rows_of (strain : string) (df : DataFrame) : DataFrame :=
  List.filter (fun r => String.eqb (Strain r) strain) df.

(** [Series.unique().tolist()]: the distinct values in order of appearance. *)
Fixpoint unique (l : list string) : list string :=
  match l with
  | [] => []
  | x :: l' => x :: filter (fun y => y <> x) (unique l')
  end.

(** [x in l] *)
Definition py_in (x : string) (l : list string) : bool := bool_decide (x ∈ l).

(** [l.remove(x)]: drops the first occurrence; [ValueError] when there is none. *)
Fixpoint remove_first (x : string) (l : list string) : option (list string) :=
  match l with
  | [] => None
  | y :: l' => if String.eqb y x then Some l' else cons y <$> remove_first x l'
  end.

(** Reductions of a float column; pandas skips NaN and gives NaN when nothing
    is left. *)
Definition notnan (x : float) : bool := negb (is_nan x).

Definition nanmin (l : list float) : float :=
  match List.filter notnan l with
  | [] => nan
  | x :: xs => fold_left (fun m y => if (y <? m)%float then y else m) xs x
  end.

Definition nanmax (l : list float) : float :=
  match List.filter notnan l with
  | [] => nan
  | x :: xs => fold_left (fun m y => if (m <? y)%float then y else m) xs x
  end.

Definition float_of_nat (n : nat) : float := of_uint63 (Uint63.of_Z (Z.of_nat n)).

(** [ndarray.sum()] of a float column is numpy's pairwise summation
    ([DOUBLE_pairwise_sum], block size 128, unrolled eight times):
<<
    if (n < 8) {
        res = 0.;
        for (i = 0; i < n; i++) res += a[i];
        return res;
    }
    else if (n <= PW_BLOCKSIZE) {
        r[0] = a[0]; ...; r[7] = a[7];
        for (i = 8; i < n - (n % 8); i += 8) { r[0] += a[i + 0]; ...; r[7] += a[i + 7]; }
        res = ((r[0] + r[1]) + (r[2] + r[3])) + ((r[4] + r[5]) + (r[6] + r[7]));
        for (; i < n; i++) res += a[i];
        return res;
    }
    else {
        n2 = n / 2;  n2 -= n2 % 8;
        return pairwise_sum(a, n2) + pairwise_sum(a + n2, n - n2);
    }
>> *)
Definition sum_from (res : float) (a : list float) : float :=
  fold_left PrimFloat.add a res.

(** The unrolled loop: [blocks] times, the next eight values are added to
    the eight accumulators [r]. *)
Fixpoint accumulate (blocks : nat) (r a : list float) : list float * list float :=
  match blocks with
  | O => (r, a)
  | S blocks => accumulate blocks (zip_with PrimFloat.add r (take 8 a)) (drop 8 a)
  end.

Definition block_sum (a : list float) : float :=
  let '(r, rest) := accumulate (length a / 8 - 1) (take 8 a) (drop 8 a) in
  match r with
  | [r0; r1; r2; r3; r4; r5; r6; r7] =>
      sum_from (((r0 + r1) + (r2 + r3)) + ((r4 + r5) + (r6 + r7)))%float rest
  | _ => nan                               (* not reached: [8 <= n] *)
  end.

(** [fuel] bounds the depth of the recursion; the length of [a] is enough
    ([pairwise_sum_fuel]). *)
Fixpoint pairwise_sum (fuel : nat) (a : list float) : float :=
  let n := length a in
  if (n <? 8)%nat then sum_from 0%float a
  else if (n <=? 128)%nat then block_sum a
  else
    match fuel with
    | O => nan                             (* not reached *)
    | S fuel =>
        let n2 := (n / 2)%nat in
        let n2 := (n2 - n2 mod 8)%nat in
        (pairwise_sum fuel (take n2 a) + pairwise_sum fuel (drop n2 a))%float
    end.

(** The reduction starts from the identity of the addition. *)
Definition np_sum (a : list float) : float :=
  (0 + pairwise_sum (length a) a)%float.

(** [Series.mean()] ([pandas.core.nanops.nanmean]): the missing values are
    replaced by zero and the column is summed; the sum is divided by the
    number of values that are not missing.
<<
    values, mask, ... = _get_values(values, skipna, fill_value=0)
    count = _get_counts(values.shape, mask, axis, dtype=dtype_count)
    the_sum = _ensure_numeric(values.sum(axis, dtype=dtype_sum))
    the_mean = the_sum / count if count > 0 else np.nan
>> *)
Definition nanmean (l : list float) : float :=
  let values := map (fun x => if is_nan x then 0%float else x) l in
  let count := length (List.filter notnan l) in
  if (0 <? count)%nat then (np_sum values / float_of_nat count)%float else nan.

(** ** Fits *)

(** An [lmfit] parameter and a model fit, as far as the script reads them. *)
Record Param := mkParam { value : float }.

Record Fit := mkFit {
  model_name : string;                 (* fit.model.name *)
  chisqr : float;
  bic : float;
  aic : float;
  params : gmap string Param
}.

(** A result record [res]: a dictionary from column name to value. *)
Abbreviation Result := (gmap string pyval).

(** ** Effects: the console, the written tables, exceptions *)

(** A line of the console.  [ProgressBar label] is the bar that
    [click.progressbar] draws for a loop: click redraws it in place as the
    loop advances, showing the current item, and prints only its label when
    the output is not a terminal; either way it is one line. *)
Inductive Line :=
  | Echo (text : string)                   (* click.echo(text) *)
  | Secho (text fg : string)               (* click.secho(text, fg=fg) *)
  | ProgressBar (label : string).          (* with click.progressbar(..., label=label) *)

(** What [to_csv(output_file, index=False)] is handed. *)
Inductive Table :=
  | PlateTable (rows : RawPlate)
  | ResultTable (rows : list Result).

(** The observable state of a run: the lines printed so far and the tables
    written so far, each with the name of the file it went to ([-] is the
    standard output).  The image files that the plotting calls write are the
    libraries' own and are not recorded. *)
Record World := mkWorld {
  console : list Line;
  written : list (string * Table)
}.

Definition M (A : Type) : Type := World -> outcome A * World.

#[global] Instance M_ret : MRet M := fun A a w => (Ok a, w).
#[global] Instance M_bind : MBind M := fun A B f m w =>
  match m w with
  | (Ok a, w') => f a w'
  | (Raise e, w') => (Raise e, w')
  end.

Definition raise {A} (e : exn) : M A := fun w => (Raise e, w).

(** A call into a library: it returns or raises, and prints nothing of ours. *)
Definition call {A} (o : outcome A) : M A := fun w => (o, w).

(** [try: m  except ...: h e]; [h e = None] when no clause matches [e]. *)
Definition try_except {A} (m : M A) (h : exn -> option (M A)) : M A := fun w =>
  match m w with
  | (Ok a, w') => (Ok a, w')
  | (Raise e, w') =>
      match h e with
      | Some k => k w'
      | None => (Raise e, w')
      end
  end.

Definition print (l : Line) : M unit := fun w =>
  (Ok tt, {| console := console w ++ [l]; written := written w |}).

Definition to_csv (output_file : string) (t : Table) : M unit := fun w =>
  (Ok tt, {| console := console w; written := written w ++ [(output_file, t)] |}).

(** [with click.progressbar(items, label=label, ...) as bar: body]: the bar
    is drawn when the block is entered, before the first item, and stays on
    its line while [body] runs. *)
Definition progressbar {A} (label : string) (body : M A) : M A :=
  print (ProgressBar label);; body.

(** ** The process-wide toggles, the operating system, the libraries *)

Record Config := mkConfig {
  VERBOSE : bool;
  PLOT : bool;
  PROMPT : bool
}.

Definition ERROR_COLOR : string := "red".
Definition INFO_COLOR : string := "white".

(** What the run asks of the operating system and of the user. *)
Record OS := mkOS {
  path_exists : string -> bool;            (* os.path.exists *)
  isdir : string -> bool;                  (* os.path.isdir *)
  glob : string -> list string;            (* glob.glob *)
  confirm : string -> bool;                (* the answer to click.confirm *)
  format_2f : float -> string              (* '%.2f' % x *)
}.

(** The return value of [fit_model] and of [compete] has one more component,
    the figure, when they are called with [PLOT=True]. *)
Definition with_figure (Figure A : Type) (plot : bool) : Type :=
  if plot then (A * Figure)%type else A.

(** pandas, pkg_resources, matplotlib and curveball's own modules. *)
Record Library := mkLibrary {
  Figure : Type;
  Curve : Type;                            (* the [y] that [compete] returns *)
  read_csv : string -> outcome RawPlate;
  resource_filename : string -> string -> outcome string;
  read_tecan_mat : string -> Plate -> option float -> outcome DataFrame;
  read_tecan_xlsx : string -> Plate -> option float -> outcome DataFrame;
  plot_plate : Plate -> outcome Figure;
  show : Figure -> outcome unit;
  savefig : Figure -> string -> outcome unit;
  plot_wells : DataFrame -> string -> outcome unit;
  plot_strains : DataFrame -> string -> outcome unit;
  fit_model :
    DataFrame -> forall plot : bool, bool -> outcome (with_figure Figure (list Fit) plot);
  benchmark : list Fit -> outcome pyval;
  find_max_growth : Fit -> bool -> outcome (list pyval);
  find_lag : Fit -> bool -> outcome pyval;
  has_lag : list Fit -> outcome pyval;
  has_nu : list Fit -> bool -> outcome pyval;
  compete :
    Fit -> Fit -> float -> list string -> forall plot : bool,
    outcome (with_figure Figure Curve plot);
  fitness_LTEE : Curve -> Z -> Z -> outcome pyval
}.

(** Line 257: [plate[plate.Strain.isin([strain, ref_strain])].Color.unique()] *)
Definition colors_of (plate : Plate) (strain ref_strain : string) : list string :=
  unique (map pl_Color
    (List.filter (fun r => py_in (pl_Strain r) [strain; ref_strain]) plate)).

(** Lines 182-185: the parser is handed [max_time] only when it is finite
    ([np.isfinite]). *)
Definition parsed
    (handler : string -> Plate -> option float -> outcome DataFrame)
    (filepath : string) (plate : Plate) (max_time : float) : outcome DataFrame :=
  if is_finite max_time then handler filepath plate (Some max_time)
  else handler filepath plate None.

Section Cli.

Variable cfg : Config.
Variable os : OS.
Variable L : Library.

Definition file_extension_handlers
  : gmap string (string -> Plate -> option float -> outcome DataFrame) :=
  {[ ".mat" := read_tecan_mat L; ".xlsx" := read_tecan_xlsx L ]}.

Definition echo_error (message : string) : M unit :=
  print (Secho ("Error: " +:+ message) ERROR_COLOR).

Definition echo_info (message : string) : M unit :=
  if VERBOSE cfg then print (Secho message INFO_COLOR) else mret tt.

Definition ioerror_to_click_exception {A} (filename message : string) : M A :=
  raise (FileError filename message).

(** Lines 48-54; it labels the items of the bar of the files
    ([item_show_func]). *)
Definition get_filename (filepath : option string) : string :=
  match filepath with
  | None => ""
  | Some filepath => snd (Py.split filepath)
  end.

Definition find_plate_file (plate_folder plate_file : string) : M string :=
  let plate_path := Py.join plate_folder plate_file in
  plate_path ←
    (if negb (path_exists os plate_path)
     then call (resource_filename L plate_folder plate_file)
     else mret plate_path);
  if negb (path_exists os plate_path)
  then raise (FileError plate_path "can't find file.")
  else mret plate_path.

Definition load_plate (plate_path : string) : M RawPlate :=
  try_except (call (read_csv L plate_path)) (fun e =>
    match e with
    | IOError filename message => Some (ioerror_to_click_exception filename message)
    | CParserError arg0 =>
        Some (raise (FileError plate_path
                ("parser error, probably not a CSV file, " +:+ arg0)))
    | _ => None
    end).

Definition plate (plate_folder plate_file output_file : string) : M unit :=
  plate_path ← find_plate_file plate_folder plate_file;
  plate ← load_plate plate_path;
  to_csv output_file (PlateTable plate);;
  if VERBOSE cfg && negb (String.eqb output_file "-")
  then print (Secho ("Wrote output to " +:+ output_file) "green")
  else mret tt.

(** *** [process_file] *)

(** Lines 181-189: an [IOError] and an [XLRDError] of the parser become a
    [click.FileError]. *)
Definition read_data
    (handler : string -> Plate -> option float -> outcome DataFrame)
    (filepath ext : string) (plate : Plate) (max_time : float) : M DataFrame :=
  try_except
    (call (parsed handler filepath plate max_time))
    (fun e =>
      match e with
      | IOError filename message => Some (ioerror_to_click_exception filename message)
      | XLRDError arg0 =>
          Some (raise (FileError filepath
                  ("parser error, probably not a " +:+ ext +:+ " file, " +:+ arg0)))
      | _ => None
      end).

(** [df[(df.Strain == blank_strain) & (df.Time == df.Time.min())].OD.mean()] *)
Definition background (df : DataFrame) (blank_strain : string) : float :=
  let tmin := nanmin (map Time df) in
  nanmean (map OD
    (List.filter (fun r => String.eqb (Strain r) blank_strain && (Time r =? tmin)%float) df)).

(** [df.OD -= bg] and [df.loc[df.OD < 0, 'OD'] = 0] *)
Definition subtract (bg : float) (df : DataFrame) : DataFrame :=
  map (fun r => set_OD (OD r - bg)%float r) df.

Definition clamp (df : DataFrame) : DataFrame :=
  map (fun r => if (OD r <? 0)%float then set_OD 0%float r else r) df.

(** Lines 193-200. *)
Definition correct_background
    (df : DataFrame) (blank_strain : option string) (strains : list string)
    : M DataFrame :=
  match blank_strain with
  | Some blank =>
      if py_in blank strains then
        let bg := background df blank in
        let df := subtract bg df in
        mret (clamp df)
      else
        echo_error ("Warning! Blank strain '" +:+ blank +:+ "' doesn't exist");;
        mret df
  | None => mret df
  end.

(** Lines 202-209. *)
Definition plot_file (fn : string) (df : DataFrame) : M unit :=
  if PLOT cfg then
    let wells_plot_fn := fn +:+ "_wells.png" in
    call (plot_wells L df wells_plot_fn);;
    echo_info ("Wrote wells plot to " +:+ wells_plot_fn);;
    let strains_plot_fn := fn +:+ "_strains.png" in
    call (plot_strains L df strains_plot_fn);;
    echo_info ("Wrote strains plot to " +:+ strains_plot_fn)
  else mret tt.

Definition remove (x : string) (l : list string) : M (list string) :=
  match remove_first x l with
  | Some l' => mret l'
  | None => raise (ValueError "list.remove(x): x not in list")
  end.

(** Lines 211-217: the blank strain leaves the list, the reference strain
    moves to its front. *)
Definition iteration_order
    (strains : list string) (blank_strain : option string) (ref_strain : string)
    : M (list string) :=
  strains ←
    (match blank_strain with
     | Some blank => if py_in blank strains then remove blank strains else mret strains
     | None => mret strains
     end);
  if py_in ref_strain strains then
    strains ← remove ref_strain strains;
    mret (ref_strain :: strains)
  else
    echo_error ("Warning, reference strains '" +:+ ref_strain +:+ "' doesn't exist!");;
    mret strains.

(** [params[key].value], [fit_results[0]], [t[-1]] and the read of a local
    variable that may not have been assigned. *)
Definition param_value (params : gmap string Param) (key : string) : M float :=
  match params !! key with
  | Some p => mret (value p)
  | None => raise (KeyError key)
  end.

Definition first_item {A} (l : list A) : M A :=
  match l with
  | x :: _ => mret x
  | [] => raise IndexError
  end.

Definition last_item {A} (l : list A) : M A :=
  match last l with
  | Some x => mret x
  | None => raise IndexError
  end.

Definition local {A} (name : string) (v : option A) : M A :=
  match v with
  | Some x => mret x
  | None => raise (UnboundLocalError name)
  end.

(** Lines 222-229: the fit of one strain, and its figure when plotting. *)
Definition fit_and_plot (fn strain : string) (strain_df : DataFrame) : M (list Fit) :=
  out ← call (fit_model L strain_df (PLOT cfg) (VERBOSE cfg));
  (match PLOT cfg as b return with_figure (Figure L) (list Fit) b -> M (list Fit) with
   | true => fun '(fit_results, fig) =>
       let strain_plot_fn := fn +:+ "_strain_" +:+ strain +:+ ".png" in
       call (savefig L fig strain_plot_fn);;
       echo_info ("Wrote strain " +:+ strain +:+ " plot to " +:+ strain_plot_fn);;
       mret fit_results
   | false => fun fit_results => mret fit_results
   end) out.

(** Lines 231-251: the record of one strain, before its fitness. *)
Definition summary (fn filepath strain : string) (fit_results : list Fit) (fit : Fit)
    : M Result :=
  let res : Result := ∅ in
  let res := <["folder" := PyStr (Py.dirname filepath)]> res in
  let res := <["filename" := PyStr (fst (Py.splitext (Py.basename fn)))]> res in
  let res := <["strain" := PyStr strain]> res in
  let res := <["model" := PyStr (model_name fit)]> res in
  let res := <["RSS" := PyFloat (chisqr fit)]> res in
  let res := <["bic" := PyFloat (bic fit)]> res in
  let res := <["aic" := PyFloat (aic fit)]> res in
  b ← call (benchmark L fit_results);
  let res := <["benchmark" := b]> res in
  let params := params fit in
  y0 ← param_value params "y0";
  let res := <["y0" := PyFloat y0]> res in
  K ← param_value params "K";
  let res := <["K" := PyFloat K]> res in
  r ← param_value params "r";
  let res := <["r" := PyFloat r]> res in
  let res := <["nu" := match params !! "nu" with
                       | Some p => PyFloat (value p)
                       | None => PyInt 1
                       end]> res in
  let res := <["q0" := match params !! "q0" with
                       | Some p => PyFloat (value p)
                       | None => PyInt 0
                       end]> res in
  let res := <["v" := match params !! "v" with
                      | Some p => PyFloat (value p)
                      | None => PyInt 0
                      end]> res in
  g ← call (find_max_growth L fit false);
  g ← last_item g;
  let res := <["max_growth_rate" := g]> res in
  lag ← call (find_lag L fit false);
  let res := <["lag" := lag]> res in
  hl ← call (has_lag L fit_results);
  let res := <["has_lag" := hl]> res in
  hn ← call (has_nu L fit_results (VERBOSE cfg));
  let res := <["has_nu" := hn]> res in
  mret res.

(** Lines 257-266: the competition of a strain against the reference. *)
Definition competition
    (fn strain ref_strain : string) (plate : Plate) (df : DataFrame)
    (fit : Fit) (ref_fit : option Fit) : M pyval :=
  let colors := colors_of plate strain ref_strain in
  ref_fit ← local "ref_fit" ref_fit;
  out ← call (compete L fit ref_fit (nanmax (map Time df)) colors (PLOT cfg));
  y ← (match PLOT cfg as b return with_figure (Figure L) (Curve L) b -> M (Curve L) with
       | true => fun '(y, fig) =>
           let competition_plot_fn :=
             fn +:+ "_" +:+ strain +:+ "_vs_" +:+ ref_strain +:+ ".png" in
           let strain_plot_fn := fn +:+ "_strain_" +:+ strain +:+ ".png" in
           call (savefig L fig competition_plot_fn);;
           echo_info ("Wrote competition " +:+ strain +:+ " vs " +:+ ref_strain
                      +:+ " plot to " +:+ strain_plot_fn);;
           mret y
       | false => fun y => mret y
       end) out;
  call (fitness_LTEE L y 0 1).

(** Lines 221-268: the body of the loop over the strains.  It returns the
    record and the reference fit as it stands after this strain. *)
Definition fit_strain
    (fn filepath : string) (plate : Plate) (df : DataFrame)
    (strains : list string) (ref_strain strain : string) (ref_fit : option Fit)
    : M (Result * option Fit) :=
  let strain_df := rows_of strain df in
  fit_results ← fit_and_plot fn strain strain_df;
  fit ← first_item fit_results;
  res ← summary fn filepath strain fit_results fit;
  if String.eqb strain ref_strain then
    mret (<["w" := PyInt 1]> res, Some fit)
  else if py_in ref_strain strains then
    w ← competition fn strain ref_strain plate df fit ref_fit;
    mret (<["w" := w]> res, ref_fit)
  else
    mret (res, ref_fit).

(** Lines 220-268: [for strain in bar], with [results.append(res)]; the
    bar of line 219 is drawn by [process_file], around this loop. *)
Fixpoint fit_strains
    (fn filepath : string) (plate : Plate) (df : DataFrame)
    (strains : list string) (ref_strain : string)
    (todo : list string) (ref_fit : option Fit) (results : list Result)
    : M (list Result) :=
  match todo with
  | [] => mret results
  | strain :: todo =>
      '(res, ref_fit) ← fit_strain fn filepath plate df strains ref_strain strain ref_fit;
      fit_strains fn filepath plate df strains ref_strain todo ref_fit (results ++ [res])
  end.

Definition process_file
    (filepath : string) (plate : Plate) (blank_strain : option string)
    (ref_strain : string) (max_time : float) : M (list Result) :=
  let results : list Result := [] in
  let '(fn, ext) := Py.splitext filepath in
  match file_extension_handlers !! ext with
  | None =>
      echo_info ("No handler found for file " +:+ filepath);;
      mret results
  | Some handler =>
      df ← read_data handler filepath ext plate max_time;
      let strains := unique (map pl_Strain plate) in
      df ← correct_background df blank_strain strains;
      plot_file fn df;;
      strains ← iteration_order strains blank_strain ref_strain;
      progressbar "Fitting strain growth curves"
        (fit_strains fn filepath plate df strains ref_strain strains None results)
  end.

(** *** [analyse] *)

(** Lines 153-157. *)
Definition discover (path : string) : list string :=
  if isdir os path then
    let files := glob os (Py.join path "*") in
    map (fun fn => Py.join path fn) files
  else
    glob os path.

(** Line 159: the extension, in lower case, is a key of the handlers. *)
Definition has_handler (fn : string) : bool :=
  bool_decide (Py.lower (snd (Py.splitext fn)) ∈ dom file_extension_handlers).

Definition data_files (path : string) : list string :=
  List.filter has_handler (discover path).

(** Lines 164-166: [for filepath in bar], with [results.extend(file_results)];
    the bar of line 163 is drawn by [analyse], around this loop. *)
Fixpoint process_files
    (files : list string) (plate : Plate) (blank_strain ref_strain : string)
    (max_time : float) (results : list Result) : M (list Result) :=
  match files with
  | [] => mret results
  | filepath :: files =>
      file_results ← process_file filepath plate (Some blank_strain) ref_strain max_time;
      process_files files plate blank_strain ref_strain max_time (results ++ file_results)
  end.

Definition text_labels (plate : RawPlate) : Plate :=
  map (fun r => mkPlateRow (pl_Row r) (pl_Col r) (unicode (pl_Strain r)) (pl_Color r)) plate.

(** Lines 137-142. *)
Definition announce (path plate_path blank_strain ref_strain : string) (max_time : float)
    : M unit :=
  if VERBOSE cfg then
    print (Echo ("- Processing " +:+ path));;
    print (Echo ("- Using plate template from " +:+ plate_path));;
    print (Echo ("- Blank strain: " +:+ blank_strain
                 +:+ "; Reference strain: " +:+ ref_strain));;
    print (Echo ("- Omitting data after " +:+ format_2f os max_time +:+ " hours"));;
    print (Echo "----------------------------------------")
  else mret tt.

(** Lines 147-151: the plate is shown and the user is asked; a refusal
    aborts the command. *)
Definition confirm_plate (plate : Plate) (plate_strains : list string) : M unit :=
  if PROMPT cfg then
    fig ← call (plot_plate L plate);
    call (show L fig);;
    print (Echo ("Plate with " +:+ pretty (length plate_strains) +:+ " strains: "
                 +:+ String.concat ", " plate_strains));;
    if confirm os "Is this the plate you wanted?" then mret tt else raise Abort
  else mret tt.

Definition analyse
    (path output_file plate_folder plate_file blank_strain ref_strain : string)
    (max_time : float) : M unit :=
  let results : list Result := [] in
  plate_path ← find_plate_file plate_folder plate_file;
  announce path plate_path blank_strain ref_strain max_time;;
  plate ← load_plate plate_path;
  let plate := text_labels plate in
  let plate_strains := unique (map pl_Strain plate) in
  confirm_plate plate plate_strains;;
  let files := data_files path in
  match files with
  | [] => raise (ClickException ("No data files found in folder " +:+ path))
  | _ =>
      results ← progressbar "Processing files:"
                  (process_files files plate blank_strain ref_strain max_time results);
      let output_table := ResultTable results in
      to_csv output_file output_table;;
      if VERBOSE cfg && negb (String.eqb output_file "-")
      then print (Secho ("Wrote output to " +:+ output_file) "green")
      else mret tt
  end.

End Cli.

(** ** Vocabulary of the statements *)

(** A binary64 number that is finite and not zero, or infinite, of sign [s]. *)
Definition nonzero_of_sign (s : bool) (x : spec_float) : Prop :=
  (exists m e, x = S754_finite s m e) \/ x = S754_infinity s.

(** A key of the binary64 numbers other than NaN, whose lexicographic order
    ([lex3]) is their order ([SFcompare]). *)
Definition SFkey (x : spec_float) : Z * Z * Z :=
  match x with
  | S754_zero _ | S754_nan => (0, 0, 0)
  | S754_infinity s => (if s then -2 else 2, 0, 0)
  | S754_finite s m e => if s then (-1, - e, - Z.pos m) else (1, e, Z.pos m)
  end.

Definition lex3 (a b : Z * Z * Z) : comparison :=
  let '(a1, a2, a3) := a in
  let '(b1, b2, b3) := b in
  match a1 ?= b1 with
  | Eq => match a2 ?= b2 with
          | Eq => a3 ?= b3
          | c => c
          end
  | c => c
  end.

(** The background in the words of the specification.  [t0] is the minimum
    observed time of the table: it is the time of one of its rows, and no
    row has an earlier time. *)
Definition minimum_time (df : DataFrame) (t0 : float) : Prop :=
  t0 ∈ map Time df
  /\ is_nan t0 = false
  /\ forall r : Reading, r ∈ df -> (Time r <? t0)%float = false.

(** The optical densities of the wells of the strain [blank] that were read
    at the time [t0], in the order of the table. *)
Definition blank_readings (df : DataFrame) (blank : string) (t0 : float) : list float :=
  map OD (filter (fun r : Reading => Strain r = blank /\ (Time r =? t0)%float = true) df).

(** The run has only printed since [w]: it has written no table. *)
Definition grows (w w' : World) : Prop :=
  console w `prefix_of` console w' /\ written w' = written w.

(** [m] returns [a] from the state [w], leaving the state [w']. *)
Definition returns {A} (m : M A) (w : World) (Q : A -> World -> Prop) : Prop :=
  exists a w', m w = (Ok a, w') /\ Q a w'.

(** [m] raises from the state [w]. *)
Definition raises {A} (m : M A) (w : World) (Q : exn -> World -> Prop) : Prop :=
  exists e w', m w = (Raise e, w') /\ Q e w'.

(** The fits in the return value of [fit_model], with or without a figure. *)
Definition fits {F : Type} {plot : bool} : with_figure F (list Fit) plot -> list Fit :=
  match plot with
  | true => fst
  | false => fun frs => frs
  end.

(** The parameters that every growth model has. *)
Definition has_basic_params (fit : Fit) : Prop :=
  is_Some (params fit !! "y0") /\ is_Some (params fit !! "K") /\ is_Some (params fit !! "r").

(** Every call into the plotting and fitting libraries returns, and what it
    returns has the shape that the script reads: a non-empty list of fits
    whose best fit has the basic parameters, a non-empty tuple of growth
    figures. *)
Record library_returns (L : Library) : Prop := {
  plot_wells_returns : forall d f, plot_wells L d f = Ok tt;
  plot_strains_returns : forall d f, plot_strains L d f = Ok tt;
  savefig_returns : forall fig f, savefig L fig f = Ok tt;
  fit_model_returns : forall d plot v,
    exists out fit rest,
      fit_model L d plot v = Ok out /\ fits out = fit :: rest /\ has_basic_params fit;
  benchmark_returns : forall frs, exists b, benchmark L frs = Ok b;
  find_max_growth_returns : forall fit p,
    exists gs g, find_max_growth L fit p = Ok gs /\ last gs = Some g;
  find_lag_returns : forall fit p, exists x, find_lag L fit p = Ok x;
  has_lag_returns : forall frs, exists x, has_lag L frs = Ok x;
  has_nu_returns : forall frs v, exists x, has_nu L frs v = Ok x;
  compete_returns : forall f rf h c plot, exists out, compete L f rf h c plot = Ok out;
  fitness_LTEE_returns : forall y a b, exists x, fitness_LTEE L y a b = Ok x
}.

(** The table that [correct_background] hands on. *)
Definition corrected
    (df : DataFrame) (blank_strain : option string) (strains : list string) : DataFrame :=
  match blank_strain with
  | Some blank =>
      if py_in blank strains then clamp (subtract (background df blank) df) else df
  | None => df
  end.

(** The list that [iteration_order] hands on. *)
Definition without (x : string) (l : list string) : list string :=
  default l (remove_first x l).

(** The strains left once the blank strain has been taken out. *)
Definition candidates (strains : list string) (blank_strain : option string) : list string :=
  match blank_strain with
  | Some blank => without blank strains
  | None => strains
  end.

Definition order_of
    (strains : list string) (blank_strain : option string) (ref_strain : string)
    : list string :=
  let strains := candidates strains blank_strain in
  if py_in ref_strain strains then ref_strain :: without ref_strain strains else strains.

(** What the record [res] of [strain] says of its fitness: it is [1] for
    the reference strain; for another strain it is set when the reference
    strain is in the list [strains], and not set otherwise. *)
Definition fitness_entry
    (strains : list string) (ref_strain strain : string) (res : Result) : Prop :=
  res !! "strain" = Some (PyStr strain)
  /\ (strain = ref_strain -> res !! "w" = Some (PyInt 1))
  /\ (strain <> ref_strain -> ref_strain ∈ strains -> is_Some (res !! "w"))
  /\ (strain <> ref_strain -> ref_strain ∉ strains -> res !! "w" = None).

(** The best fit of a strain: the first of the fits that [fit_model] returns
    for the rows of that strain. *)
Definition first_fit (cfg : Config) (L : Library) (df : DataFrame) (strain : string)
    : option Fit :=
  match fit_model L (rows_of strain df) (PLOT cfg) (VERBOSE cfg) with
  | Ok out => head (fits out)
  | Raise _ => None
  end.

(** The figure in the return value of a call made with [PLOT=True]. *)
Definition figure_of {F A : Type} {plot : bool} : with_figure F A plot -> option F :=
  match plot with
  | true => fun out => Some (snd out)
  | false => fun _ => None
  end.

(** The entry [key] of the record is the value of the fit's parameter
    [key] when the fit has it, and the number [dflt] when it has not. *)
Definition entry_or_default (fit : Fit) (res : Result) (key : string) (dflt : Z) : Prop :=
  (params fit !! key = None -> res !! key = Some (PyInt dflt))
  /\ (forall p, params fit !! key = Some p -> res !! key = Some (PyFloat (value p))).

Definition uses_defaults (fit : Fit) (res : Result) : Prop :=
  entry_or_default fit res "nu" 1
  /\ entry_or_default fit res "q0" 0
  /\ entry_or_default fit res "v" 0.

(** What a returned record [res] of [strain] tells of the calls made for
    it: the fit returned, its figure (if any) was saved, the record holds
    the higher-order parameters or their defaults, and when the strain
    competed against the reference the competition returned and its figure
    (if any) was saved. *)
Definition strain_fitted
    (cfg : Config) (L : Library) (fn : string) (plate : Plate) (df : DataFrame)
    (strains : list string) (ref_strain strain : string) (res : Result) : Prop :=
  exists out fit,
    fit_model L (rows_of strain df) (PLOT cfg) (VERBOSE cfg) = Ok out
    /\ head (fits out) = Some fit
    /\ (forall fig, figure_of out = Some fig ->
        savefig L fig (fn +:+ "_strain_" +:+ strain +:+ ".png") = Ok tt)
    /\ res !! "strain" = Some (PyStr strain)
    /\ uses_defaults fit res
    /\ (strain <> ref_strain -> ref_strain ∈ strains ->
        exists ref_fit cout,
          first_fit cfg L df ref_strain = Some ref_fit
          /\ compete L fit ref_fit (nanmax (map Time df))
               (colors_of plate strain ref_strain) (PLOT cfg) = Ok cout
          /\ forall fig, figure_of cout = Some fig ->
               savefig L fig (fn +:+ "_" +:+ strain +:+ "_vs_" +:+ ref_strain +:+ ".png")
               = Ok tt).

(** One of the plotting calls of [process_file] raises: the wells plot, the
    strains plot, the saving of the figure of a strain's fit, or the saving
    of the figure of a competition. *)
Definition plot_call_fails
    (cfg : Config) (L : Library) (fn : string) (plate : Plate) (df : DataFrame)
    (order : list string) (ref_strain : string) : Prop :=
  (exists e, plot_wells L df (fn +:+ "_wells.png") = Raise e)
  \/ (exists e, plot_strains L df (fn +:+ "_strains.png") = Raise e)
  \/ (exists strain frs fig e,
        strain ∈ order
        /\ fit_model L (rows_of strain df) true (VERBOSE cfg) = Ok (frs, fig)
        /\ savefig L fig (fn +:+ "_strain_" +:+ strain +:+ ".png") = Raise e)
  \/ (exists strain fit ref_fit y fig e,
        strain ∈ order /\ strain <> ref_strain /\ ref_strain ∈ order
        /\ first_fit cfg L df strain = Some fit
        /\ first_fit cfg L df ref_strain = Some ref_fit
        /\ compete L fit ref_fit (nanmax (map Time df))
             (colors_of plate strain ref_strain) true = Ok (y, fig)
        /\ savefig L fig (fn +:+ "_" +:+ strain +:+ "_vs_" +:+ ref_strain +:+ ".png")
           = Raise e).

(** The warning of line 217, as it appears on the console. *)
Definition missing_reference_warning (ref_strain : string) : Line :=
  Secho ("Error: Warning, reference strains '" +:+ ref_strain +:+ "' doesn't exist!") "red".

(** The outcome of [find_plate_file] as a value: the path under the working
    directory when it exists; else what [resource_filename] gives, which is
    passed on when it is an exception, returned when it is a path that
    exists, and reported by a [FileError] when it is a path that does not. *)
Definition resolve_plate (os : OS) (L : Library) (plate_folder plate_file : string)
    : outcome string :=
  let local_path := Py.join plate_folder plate_file in
  if path_exists os local_path then Ok local_path
  else
    match resource_filename L plate_folder plate_file with
    | Ok resource_path =>
        if path_exists os resource_path then Ok resource_path
        else Raise (FileError resource_path "can't find file.")
    | Raise e => Raise e
    end.

(** ** A small run, used to exercise the definitions *)

Module Demo.

(** The fit of a table: the three basic parameters, and [nu] as well for
    the rows of strain [2]. *)
Definition fit_of (d : DataFrame) : Fit :=
  {| model_name := "logistic";
     chisqr := 0.5%float; bic := (-10)%float; aic := (-12)%float;
     params :=
       if existsb (fun r => String.eqb (Strain r) "2") d
       then {[ "y0" := mkParam 0.125%float; "K" := mkParam 1%float;
               "r" := mkParam 0.25%float; "nu" := mkParam 2%float ]}
       else {[ "y0" := mkParam 0.125%float; "K" := mkParam 1%float;
               "r" := mkParam 0.25%float ]} |}.

Definition table : DataFrame :=
  [ mkReading "A1" "0" 0%float 0.0625%float;
    mkReading "A2" "1" 0%float 0.03125%float;
    mkReading "A3" "2" 0%float 0.1875%float;
    mkReading "A1" "0" 1%float 0.0625%float;
    mkReading "A2" "1" 1%float 0.25%float;
    mkReading "A3" "2" 1%float 0.5%float ].

Definition raw_plate : RawPlate :=
  [ mkPlateRow "A" 1 (CInt 0) "#ffffff";
    mkPlateRow "A" 2 (CInt 1) "#ff0000";
    mkPlateRow "A" 3 (CInt 2) "#0000ff" ].

Definition plate : Plate := text_labels raw_plate.

(** A library whose every call returns. *)
Definition lib : Library :=
  {| Figure := unit;
     Curve := float;
     read_csv := fun _ =>
       Ok [ mkPlateRow "A" 1 (CInt 0) "#ffffff";
            mkPlateRow "A" 2 (CInt 1) "#ff0000";
            mkPlateRow "A" 3 (CInt 2) "#0000ff" ];
     resource_filename := fun folder file => Ok ("/pkg/" +:+ folder +:+ "/" +:+ file);
     read_tecan_mat := fun _ _ _ => Ok table;
     read_tecan_xlsx := fun _ _ _ => Ok table;
     plot_plate := fun _ => Ok tt;
     show := fun _ => Ok tt;
     savefig := fun _ _ => Ok tt;
     plot_wells := fun _ _ => Ok tt;
     plot_strains := fun _ _ => Ok tt;
     fit_model := fun d plot _ =>
       Ok (match plot as b return with_figure unit (list Fit) b with
           | true => ([fit_of d], tt)
           | false => [fit_of d]
           end);
     benchmark := fun _ => Ok (PyFloat 0.75%float);
     find_max_growth := fun _ _ => Ok [PyFloat 2%float; PyFloat 0.25%float];
     find_lag := fun _ _ => Ok (PyFloat 1.5%float);
     has_lag := fun _ => Ok (PyBool false);
     has_nu := fun _ _ => Ok (PyBool false);
     compete := fun _ _ _ _ plot =>
       Ok (match plot as b return with_figure unit float b with
           | true => (1.25%float, tt)
           | false => 1.25%float
           end);
     fitness_LTEE := fun y _ _ => Ok (PyFloat y) |}.

(** The same library, except that drawing the wells fails. *)
Definition lib_wells_fail : Library :=
  {| Figure := Figure lib; Curve := Curve lib;
     read_csv := read_csv lib; resource_filename := resource_filename lib;
     read_tecan_mat := read_tecan_mat lib; read_tecan_xlsx := read_tecan_xlsx lib;
     plot_plate := plot_plate lib; show := show lib; savefig := savefig lib;
     plot_wells := fun _ _ => Raise (LibraryError "plot_wells");
     plot_strains := plot_strains lib;
     fit_model := fit_model lib; benchmark := benchmark lib;
     find_max_growth := find_max_growth lib; find_lag := find_lag lib;
     has_lag := has_lag lib; has_nu := has_nu lib;
     compete := compete lib; fitness_LTEE := fitness_LTEE lib |}.

(** A working directory that holds the folder [data] with two entries and
    the plate [plate_templates/checkerboard.csv]; the package holds one more
    plate, [G-RG-R.csv]. *)
Definition os : OS :=
  {| path_exists := fun p => bool_decide (p ∈ ["plate_templates/checkerboard.csv"; "data";
                                               "data/a.xlsx"; "data/notes.txt";
                                               "/pkg/plate_templates/G-RG-R.csv"]);
     isdir := fun p => bool_decide (p ∈ ["data"; "plate_templates"]);
     glob := fun pat => if String.eqb pat "data/*" then ["data/a.xlsx"; "data/notes.txt"]
                        else if bool_decide (pat ∈ ["data"; "data/a.xlsx"; "data/notes.txt"])
                             then [pat] else [];
     confirm := fun _ => true;
     format_2f := fun _ => "inf" |}.

(** The run of the file [data/a.xlsx] with blank [0] and reference [1]. *)
Definition run : outcome (list Result) * World :=
  process_file (mkConfig false true false) lib "data/a.xlsx" plate (Some "0") "1"
    infinity (mkWorld [] []).

Definition records : list Result :=
  match fst run with
  | Ok rs => rs
  | Raise _ => []
  end.

End Demo.

(** ** The command group, and further vocabulary *)

(** Lines 93-103: the flags become the process-wide toggles, and a banner
    is printed when the run is verbose.  [version] is
    [curveball.__version__]. *)
Definition cli (version : string) (verbose plot prompt : bool) : M Config :=
  let cfg := {| VERBOSE := verbose; PLOT := plot; PROMPT := prompt |} in
  (if VERBOSE cfg then
     print (Secho "========================================" "cyan");;
     print (Secho ("Curveball " +:+ version) "cyan");;
     print (Secho "========================================" "cyan")
   else mret tt);;
  mret cfg.

(** Whatever the outcome of [m], the state it leaves is related by [R] to
    the state it started from. *)
Definition keeps {A} (R : World -> World -> Prop) (m : M A) : Prop :=
  forall w r w', m w = (r, w') -> R w w'.

Definition same_written (w w' : World) : Prop := written w' = written w.

(** The value in the return value of a call, with or without a figure. *)
Definition value_of {F A : Type} {plot : bool} : with_figure F A plot -> A :=
  match plot with
  | true => fst
  | false => fun a => a
  end.

(** The columns that every record has; [w] comes on top for some. *)
Definition base_columns : gset string :=
  list_to_set
    [ "folder"; "filename"; "strain"; "model"; "RSS"; "bic"; "aic"; "benchmark";
      "y0"; "K"; "r"; "nu"; "q0"; "v"; "max_growth_rate"; "lag"; "has_lag"; "has_nu" ].

(** The library [L] with other plotting functions. *)
Definition with_plots (L : Library)
    (wells strains : DataFrame -> string -> outcome unit)
    (save : Figure L -> string -> outcome unit) : Library :=
  {| Figure := Figure L; Curve := Curve L;
     read_csv := read_csv L; resource_filename := resource_filename L;
     read_tecan_mat := read_tecan_mat L; read_tecan_xlsx := read_tecan_xlsx L;
     plot_plate := plot_plate L; show := show L;
     savefig := save; plot_wells := wells; plot_strains := strains;
     fit_model := fit_model L; benchmark := benchmark L;
     find_max_growth := find_max_growth L; find_lag := find_lag L;
     has_lag := has_lag L; has_nu := has_nu L;
     compete := compete L; fitness_LTEE := fitness_LTEE L |}.

(** The bars of lines 219 and 163, as they appear on the console. *)
Definition strains_bar : Line := ProgressBar "Fitting strain growth curves".
Definition files_bar : Line := ProgressBar "Processing files:".

(** The lines of lines 179 and 200, as they appear on the console. *)
Definition no_handler_line (filepath : string) : Line :=
  Secho ("No handler found for file " +:+ filepath) "white".

Definition missing_blank_warning (blank_strain : string) : Line :=
  Secho ("Error: Warning! Blank strain '" +:+ blank_strain +:+ "' doesn't exist") "red".

(** The exception that leaves [process_file] when the parser raises [e]
    (lines 186-189). *)
Definition parser_error (filepath ext : string) (e : exn) : exn :=
  match e with
  | IOError filename message => FileError filename message
  | XLRDError arg0 =>
      FileError filepath ("parser error, probably not a " +:+ ext +:+ " file, " +:+ arg0)
  | _ => e
  end.

(** The exception that leaves [load_plate] when [read_csv] raises [e]
    (lines 81-84). *)
Definition plate_error (plate_path : string) (e : exn) : exn :=
  match e with
  | IOError filename message => FileError filename message
  | CParserError arg0 =>
      FileError plate_path ("parser error, probably not a CSV file, " +:+ arg0)
  | _ => e
  end.

(** The reference fit held by the loop is the best fit of the reference
    strain, if it is set at all. *)
Definition reference_fit_ok
    (cfg : Config) (L : Library) (df : DataFrame) (ref_strain : string)
    (ref_fit : option Fit) : Prop :=
  forall f, ref_fit = Some f -> first_fit cfg L df ref_strain = Some f.

(** [res] is the record that the body of the loop returned for [strain],
    from some state of the loop in which the reference fit was right. *)
Definition body_returned
    (cfg : Config) (L : Library) (fn filepath : string) (plate : Plate) (df : DataFrame)
    (strains : list string) (ref_strain strain : string) (res : Result) : Prop :=
  exists (ref_fit ref_fit' : option Fit) (w w' : World),
    reference_fit_ok cfg L df ref_strain ref_fit
    /\ fit_strain cfg L fn filepath plate df strains ref_strain strain ref_fit w
       = (Ok (res, ref_fit'), w').

(** The first of the basic parameters that a fit lacks, in the order in
    which lines 242-244 read them. *)
Definition first_missing (fit : Fit) : option string :=
  match params fit !! "y0", params fit !! "K", params fit !! "r" with
  | None, _, _ => Some "y0"
  | Some _, None, _ => Some "K"
  | Some _, Some _, None => Some "r"
  | Some _, Some _, Some _ => None
  end.

(** The system with another answer to the prompt, and the library [L]
    with other functions to draw and show the plate. *)
Definition with_answer (os : OS) (answer : string -> bool) : OS :=
  {| path_exists := path_exists os; isdir := isdir os; glob := glob os;
     confirm := answer; format_2f := format_2f os |}.

Definition with_plate_plot (L : Library)
    (draw : Plate -> outcome (Figure L)) (display : Figure L -> outcome unit) : Library :=
  {| Figure := Figure L; Curve := Curve L;
     read_csv := read_csv L; resource_filename := resource_filename L;
     read_tecan_mat := read_tecan_mat L; read_tecan_xlsx := read_tecan_xlsx L;
     plot_plate := draw; show := display;
     savefig := savefig L; plot_wells := plot_wells L; plot_strains := plot_strains L;
     fit_model := fit_model L; benchmark := benchmark L;
     find_max_growth := find_max_growth L; find_lag := find_lag L;
     has_lag := has_lag L; has_nu := has_nu L;
     compete := compete L; fitness_LTEE := fitness_LTEE L |}.

(** ** Further scenarios *)

Module Scenario.

(** [Demo.lib] with another plate reader, another spreadsheet parser and
    another fitting routine. *)
Definition lib_with
    (csv : string -> outcome RawPlate)
    (xlsx : string -> Plate -> option float -> outcome DataFrame)
    (fit : DataFrame -> forall plot : bool, bool ->
           outcome (with_figure unit (list Fit) plot)) : Library :=
  {| Figure := unit; Curve := float;
     read_csv := csv; resource_filename := resource_filename Demo.lib;
     read_tecan_mat := read_tecan_mat Demo.lib; read_tecan_xlsx := xlsx;
     plot_plate := plot_plate Demo.lib; show := show Demo.lib;
     savefig := savefig Demo.lib;
     plot_wells := plot_wells Demo.lib; plot_strains := plot_strains Demo.lib;
     fit_model := fit; benchmark := benchmark Demo.lib;
     find_max_growth := find_max_growth Demo.lib; find_lag := find_lag Demo.lib;
     has_lag := has_lag Demo.lib; has_nu := has_nu Demo.lib;
     compete := compete Demo.lib; fitness_LTEE := fitness_LTEE Demo.lib |}.

(** The plate file is not a CSV file. *)
Definition lib_bad_csv : Library :=
  lib_with (fun _ => Raise (CParserError "Error tokenizing data"))
    (read_tecan_xlsx Demo.lib) (fit_model Demo.lib).

(** The data file is not a spreadsheet. *)
Definition lib_bad_xlsx : Library :=
  lib_with (read_csv Demo.lib) (fun _ _ _ => Raise (XLRDError "Unsupported format"))
    (fit_model Demo.lib).

(** No model could be fitted. *)
Definition lib_no_fit : Library :=
  lib_with (read_csv Demo.lib) (read_tecan_xlsx Demo.lib)
    (fun _ plot _ =>
       Ok (match plot as b return with_figure unit (list Fit) b with
           | true => ([], tt)
           | false => []
           end)).

(** The best fit has no parameter [K]. *)
Definition fit_without_K : Fit :=
  {| model_name := "exponential";
     chisqr := 0.5%float; bic := (-10)%float; aic := (-12)%float;
     params := {[ "y0" := mkParam 0.125%float; "r" := mkParam 0.25%float ]} |}.

Definition lib_no_K : Library :=
  lib_with (read_csv Demo.lib) (read_tecan_xlsx Demo.lib)
    (fun _ plot _ =>
       Ok (match plot as b return with_figure unit (list Fit) b with
           | true => ([fit_without_K], tt)
           | false => [fit_without_K]
           end)).

(** A table in which the blank strain [0] is first read at time 1, after
    the first readings of the other strains. *)
Definition late_blank : DataFrame :=
  [ mkReading "A2" "1" 0%float 0.25%float;
    mkReading "A3" "2" 0%float 0.5%float;
    mkReading "A1" "0" 1%float 0.0625%float;
    mkReading "A2" "1" 1%float 0.75%float ].


(** Ten blank readings of one tenth ([0x1.999999999999ap-4]) at time 0 and
    one that is missing, a reading of a strain, and a later blank reading. *)
Definition ten_blanks : DataFrame :=
  replicate 10 (mkReading "A1" "0" 0%float 0x1.999999999999ap-4%float)
  ++ [ mkReading "B1" "0" 0%float nan;
       mkReading "A2" "1" 0%float 0x1.999999999999ap-4%float;
       mkReading "A1" "0" 1%float 0.5%float ].

(** The user declines the plate. *)
Definition os_decline : OS :=
  {| path_exists := path_exists Demo.os; isdir := isdir Demo.os; glob := glob Demo.os;
     confirm := fun _ => false; format_2f := format_2f Demo.os |}.

(** A working directory that holds the folder [/srv/runs] with three
    entries, the relative folder [runs] with the same, and the folder
    [/srv/upper] with the one entry [B.XLSX]. *)
Definition os_runs : OS :=
  {| path_exists := fun p =>
       bool_decide (p ∈ ["plate_templates/checkerboard.csv"; "/srv/runs"; "runs";
                         "/srv/runs/a.xlsx"; "/srv/runs/B.XLSX"; "/srv/runs/c.txt";
                         "runs/a.xlsx"; "runs/B.XLSX"; "runs/c.txt";
                         "/srv/upper"; "/srv/upper/B.XLSX"]);
     isdir := fun p => bool_decide (p ∈ ["/srv/runs"; "runs"; "/srv/upper"]);
     glob := fun pat =>
       if String.eqb pat "/srv/runs/*"
       then ["/srv/runs/a.xlsx"; "/srv/runs/B.XLSX"; "/srv/runs/c.txt"]
       else if String.eqb pat "runs/*" then ["runs/a.xlsx"; "runs/B.XLSX"; "runs/c.txt"]
       else if String.eqb pat "/srv/upper/*" then ["/srv/upper/B.XLSX"]
       else [];
     confirm := fun _ => true;
     format_2f := fun _ => "inf" |}.

(** The loop over three files, the second of which is skipped. *)
Definition three_files : list string := ["data/a.xlsx"; "data/b.XLSX"; "data/a.xlsx"].

Definition three_run : outcome (list Result) * World :=
  process_files (mkConfig false true false) Demo.lib three_files Demo.plate "0" "1"
    infinity [] (mkWorld [] []).

Definition three_records : list Result :=
  match fst three_run with
  | Ok rs => rs
  | Raise _ => []
  end.

(** The run of a file with a numbered name. *)
Definition numbered_run : outcome (list Result) * World :=
  process_file (mkConfig false true false) Demo.lib "data/a.1.xlsx" Demo.plate (Some "0") "1"
    infinity (mkWorld [] []).

Definition numbered_records : list Result :=
  match fst numbered_run with
  | Ok rs => rs
  | Raise _ => []
  end.

(** The loop over one file that parses, with a library whose spreadsheet
    parser fails. *)
Definition mat_run : outcome (list Result) * World :=
  process_files (mkConfig false true false) lib_bad_xlsx ["data/c.mat"] Demo.plate "0" "1"
    infinity [] (mkWorld [] []).

Definition mat_records : list Result :=
  match fst mat_run with
  | Ok rs => rs
  | Raise _ => []
  end.

End Scenario.

(** * Properties *)

(** ** Binary64 subtraction never rounds a difference to zero *)

Section Binary64.

Local Abbreviation emin := (SpecFloat.emin prec emax).
Local Abbreviation fexp := (SpecFloat.fexp prec emax).

Lemma digits2_pos_size (m : positive) : digits2_pos m = Pos.size m.
Proof. induction m; simpl; congruence. Qed.

Lemma digits2_pos_bounds (m : positive) :
  2 ^ (Z.pos (digits2_pos m) - 1) <= Z.pos m < 2 ^ Z.pos (digits2_pos m).
Proof.
  rewrite digits2_pos_size. split.
  - pose proof (Pos.size_le m) as H.
    assert (H0 : Z.pos (2 ^ Pos.size m) <= Z.pos m~0) by (apply Pos2Z.pos_le_pos; exact H).
    rewrite Pos2Z.inj_pow in H0.
    replace (Z.pos (Pos.size m)) with (Z.pos (Pos.size m) - 1 + 1) in H0 by lia.
    rewrite Z.pow_add_r in H0 by lia. lia.
  - pose proof (Pos.size_gt m) as H.
    assert (H0 : Z.pos m < Z.pos (2 ^ Pos.size m)) by (apply Pos2Z.pos_lt_pos; exact H).
    now rewrite Pos2Z.inj_pow in H0.
Qed.

Lemma iter_pos_invariant {A} (f : A -> A) (P : Z -> A -> Prop) :
  (forall k x, P k x -> P (k + 1) (f x)) ->
  forall p k x, P k x -> P (k + Z.pos p) (SpecFloat.iter_pos f p x).
Proof.
  intros Hf. induction p as [p IH | p IH |]; intros k x Hx; simpl.
  - replace (k + Z.pos p~1) with (k + 1 + Z.pos p + Z.pos p) by lia.
    apply IH, IH, Hf, Hx.
  - replace (k + Z.pos p~0) with (k + Z.pos p + Z.pos p) by lia.
    apply IH, IH, Hx.
  - apply Hf, Hx.
Qed.

Lemma shr_1_m (mrs : shr_record) :
  0 <= shr_m mrs -> shr_m (shr_1 mrs) = shr_m mrs / 2.
Proof.
  destruct mrs as [m r s]. unfold shr_1, shr_m. intros Hm.
  destruct m as [| [p | p |] | p]; try lia; try reflexivity.
  - apply Z.div_unique with (r := 1); lia.
  - apply Z.div_unique with (r := 0); lia.
Qed.

Lemma iter_shr_1_m (p : positive) (mrs : shr_record) :
  0 <= shr_m mrs ->
  shr_m (SpecFloat.iter_pos shr_1 p mrs) = shr_m mrs / 2 ^ Z.pos p.
Proof.
  intros Hm.
  pose (P := fun k x => 0 <= k /\ shr_m x = shr_m mrs / 2 ^ k).
  assert (H : P (0 + Z.pos p) (SpecFloat.iter_pos shr_1 p mrs)).
  { apply iter_pos_invariant.
    - intros k x [Hk Hx]. split; [lia |].
      rewrite shr_1_m.
      + rewrite Hx, Z.pow_add_r, Z.pow_1_r by lia.
        rewrite Z.div_div by lia. reflexivity.
      + rewrite Hx. apply Z.div_pos; [lia | apply Z.pow_pos_nonneg; lia].
    - split; [lia |]. now rewrite Z.pow_0_r, Z.div_1_r. }
  destruct H as [_ H]. exact H.
Qed.

Lemma shr_m_of_loc (m : Z) (l : location) : shr_m (shr_record_of_loc m l) = m.
Proof. destruct l as [| []]; reflexivity. Qed.

Lemma Zdigits2_pos (m : positive) : Zdigits2 (Z.pos m) = Z.pos (digits2_pos m).
Proof. reflexivity. Qed.

(** Shifting a positive mantissa to its format exponent leaves it positive. *)
Lemma shr_fexp_positive (m : positive) (e : Z) (l : location) :
  emin <= e ->
  0 < shr_m (fst (shr_fexp prec emax (Z.pos m) e l))
  /\ emin <= snd (shr_fexp prec emax (Z.pos m) e l).
Proof.
  intros He. unfold shr_fexp, shr. rewrite Zdigits2_pos.
  pose proof (digits2_pos_bounds m) as [Hlo _].
  set (d := Z.pos (digits2_pos m)) in *.
  destruct (fexp (d + e) - e) as [| p | p] eqn:Hn; simpl;
    rewrite ?shr_m_of_loc; try (split; [lia | exact He]).
  split.
  - rewrite iter_shr_1_m by (rewrite shr_m_of_loc; lia).
    rewrite shr_m_of_loc.
    unfold SpecFloat.fexp in Hn.
    assert (Hp : Z.pos p = d - prec) by lia.
    apply Z.lt_le_trans with (2 ^ (prec - 1)); [reflexivity |].
    apply Z.div_le_lower_bound; [apply Z.pow_pos_nonneg; lia |].
    rewrite <- Z.pow_add_r by (unfold prec; lia).
    replace (Z.pos p + (prec - 1)) with (d - 1) by lia. exact Hlo.
  - lia.
Qed.

Lemma round_nearest_even_positive (m : Z) (l : location) :
  0 < m -> 0 < round_nearest_even m l.
Proof.
  intros Hm. unfold round_nearest_even.
  destruct l as [| []]; try destruct (Z.even m); lia.
Qed.

(** Rounding a non-zero value whose exponent is not below [emin] keeps it
    away from zero. *)
Lemma binary_round_aux_nonzero (s : bool) (m : positive) (e : Z) (l : location) :
  emin <= e -> nonzero_of_sign s (binary_round_aux prec emax s (Z.pos m) e l).
Proof.
  intros He. unfold binary_round_aux.
  destruct (shr_fexp_positive m e l He) as [Hm1 He1].
  destruct (shr_fexp prec emax (Z.pos m) e l) as [mrs1 e1]; simpl in Hm1, He1.
  pose proof (round_nearest_even_positive _ (loc_of_shr_record mrs1) Hm1) as Hm2.
  destruct (round_nearest_even (shr_m mrs1) (loc_of_shr_record mrs1)) as [| m2 | m2];
    try lia.
  destruct (shr_fexp_positive m2 e1 loc_Exact He1) as [Hm3 _].
  destruct (shr_fexp prec emax (Z.pos m2) e1 loc_Exact) as [mrs3 e3]; simpl in Hm3.
  destruct (shr_m mrs3) as [| m3 | m3]; try lia.
  destruct (e3 <=? emax - prec); [left; eauto | right; reflexivity].
Qed.

Lemma shl_align_exponent (m : positive) (e e' : Z) :
  emin <= e -> emin <= e' -> emin <= snd (shl_align m e e').
Proof. intros. unfold shl_align. destruct (e' - e); simpl; lia. Qed.

Lemma binary_round_nonzero (s : bool) (m : positive) (e : Z) :
  emin <= e -> nonzero_of_sign s (binary_round prec emax s m e).
Proof.
  intros He. unfold binary_round.
  pose proof (shl_align_exponent m e (fexp (Z.pos (digits2_pos m) + e)) He) as H.
  destruct (shl_align m e (fexp (Z.pos (digits2_pos m) + e))) as [mz ez].
  apply binary_round_aux_nonzero. apply H. unfold SpecFloat.fexp. lia.
Qed.

Lemma binary_normalize_negative (p : positive) (e : Z) (z : bool) :
  emin <= e -> nonzero_of_sign true (binary_normalize prec emax (Z.neg p) e z).
Proof. apply binary_round_nonzero. Qed.

Lemma nonzero_negative_ltb (x : spec_float) :
  nonzero_of_sign true x -> SFltb x (S754_zero false) = true.
Proof. intros [(m & e & ->) | ->]; reflexivity. Qed.

(** What [valid_binary] says of a finite number. *)
Lemma bounded_canonical (m : positive) (e : Z) :
  bounded prec emax m e = true ->
  emin <= e /\ Z.pos (digits2_pos m) <= prec
  /\ (emin < e -> Z.pos (digits2_pos m) = prec).
Proof.
  unfold bounded, canonical_mantissa, SpecFloat.fexp.
  intros H. apply andb_true_iff in H as [H _]. apply Z.eqb_eq in H.
  unfold prec in *. lia.
Qed.

Lemma shl_align_mantissa (m : positive) (e e' : Z) :
  e' <= e -> Z.pos (fst (shl_align m e e')) = Z.pos m * 2 ^ (e - e').
Proof.
  intros H. unfold shl_align.
  destruct (e' - e) as [| d | d] eqn:Hd; cbn [fst]; try lia.
  - replace (e - e') with 0 by lia. rewrite Z.pow_0_r. lia.
  - change (Pos.iter xO m d) with (shift_pos d m).
    rewrite shift_pos_correct, Z.pow_pos_fold.
    replace (e - e') with (Z.pos d) by lia. lia.
Qed.

(** Of two canonical mantissas, the one with the larger exponent is the
    larger number. *)
Lemma canonical_lt (mx my : positive) (ex ey : Z) :
  bounded prec emax mx ex = true -> bounded prec emax my ey = true ->
  ex < ey -> Z.pos mx < Z.pos my * 2 ^ (ey - ex).
Proof.
  intros Hx Hy Hlt.
  apply bounded_canonical in Hx as (Hex & Hdx & _).
  apply bounded_canonical in Hy as (_ & _ & Hdy).
  pose proof (digits2_pos_bounds mx) as [_ Hmx].
  pose proof (digits2_pos_bounds my) as [Hmy _].
  rewrite Hdy in Hmy by lia.
  assert (Hpx : 2 ^ Z.pos (digits2_pos mx) <= 2 ^ prec)
    by (apply Z.pow_le_mono_r; lia).
  assert (Hk : 2 ^ 1 <= 2 ^ (ey - ex)) by (apply Z.pow_le_mono_r; lia).
  change (2 ^ 1) with 2 in Hk.
  change (2 ^ prec) with 9007199254740992 in Hpx.
  change (2 ^ (prec - 1)) with 4503599627370496 in Hmy.
  nia.
Qed.

(** The sign of a difference: when [x < y], the rounded [x - y] is
    negative; it is never rounded to a zero. *)
Lemma SFsub_negative (x y : spec_float) :
  valid_binary x = true -> valid_binary y = true ->
  SFltb x y = true ->
  SFltb (SFsub prec emax x y) (S754_zero false) = true.
Proof.
  intros Vx Vy Hlt.
  destruct x as [sx | sx | | sx mx ex], y as [sy | sy | | sy my ey];
    try discriminate Hlt;
    try (destruct sx; try destruct sy; try discriminate Hlt; reflexivity);
    try (destruct sy; try discriminate Hlt; reflexivity).
  simpl in Vx, Vy. unfold SFsub.
  pose proof (bounded_canonical _ _ Vx) as (Hex & _).
  pose proof (bounded_canonical _ _ Vy) as (Hey & _).
  set (ez := Z.min ex ey).
  assert (Hx' := shl_align_mantissa mx ex ez ltac:(lia)).
  assert (Hy' := shl_align_mantissa my ey ez ltac:(lia)).
  set (mx' := fst (shl_align mx ex ez)) in *.
  set (my' := fst (shl_align my ey ez)) in *.
  assert (HD : cond_Zopp sx (Z.pos mx') - cond_Zopp sy (Z.pos my') < 0).
  { unfold SFltb, SFcompare in Hlt.
    destruct sx, sy; unfold cond_Zopp; try discriminate Hlt; try lia.
    - destruct (Z.compare_spec ex ey) as [He | He | He]; try discriminate Hlt.
      + change (Pos.compare_cont Eq mx my) with (Pos.compare mx my) in Hlt.
        destruct (Pos.compare_spec mx my) as [Hm | Hm | Hm]; try discriminate Hlt.
        subst ey. replace (ex - ez) with 0 in * by lia.
        rewrite Z.pow_0_r in *. lia.
      + pose proof (canonical_lt my mx ey ex Vy Vx He).
        replace (ey - ez) with 0 in * by lia.
        replace (ex - ez) with (ex - ey) in * by lia.
        rewrite Z.pow_0_r in *. lia.
    - destruct (Z.compare_spec ex ey) as [He | He | He]; try discriminate Hlt.
      + change (Pos.compare_cont Eq mx my) with (Pos.compare mx my) in Hlt.
        destruct (Pos.compare_spec mx my) as [Hm | Hm | Hm]; try discriminate Hlt.
        subst ey. replace (ex - ez) with 0 in * by lia.
        rewrite Z.pow_0_r in *. lia.
      + pose proof (canonical_lt mx my ex ey Vx Vy He).
        replace (ex - ez) with 0 in * by lia.
        replace (ey - ez) with (ey - ex) in * by lia.
        rewrite Z.pow_0_r in *. lia. }
  destruct (cond_Zopp sx (Z.pos mx') - cond_Zopp sy (Z.pos my')) as [| p | p];
    try lia.
  apply nonzero_negative_ltb, binary_normalize_negative. lia.
Qed.

(** The same on primitive floats. *)
Lemma sub_negative (x y : float) :
  (x <? y)%float = true -> (x - y <? 0)%float = true.
Proof.
  rewrite !FloatAxioms.ltb_spec, FloatAxioms.sub_spec. intros H.
  change (Prim2SF 0) with (S754_zero false).
  apply SFsub_negative; auto using Prim2SF_valid.
Qed.

End Binary64.

(** ** The order of the binary64 numbers *)

Lemma lex3_refl (a : Z * Z * Z) : lex3 a a = Eq.
Proof. destruct a as [[a1 a2] a3]. unfold lex3. now rewrite !Z.compare_refl. Qed.

Lemma lex3_eq (a b : Z * Z * Z) : lex3 a b = Eq -> a = b.
Proof.
  destruct a as [[a1 a2] a3], b as [[b1 b2] b3]. unfold lex3.
  destruct (Z.compare_spec a1 b1); try discriminate.
  destruct (Z.compare_spec a2 b2); try discriminate.
  destruct (Z.compare_spec a3 b3); try discriminate.
  intros _. congruence.
Qed.

Lemma lex3_antisym (a b : Z * Z * Z) : lex3 b a = CompOpp (lex3 a b).
Proof.
  destruct a as [[a1 a2] a3], b as [[b1 b2] b3]. unfold lex3.
  rewrite (Z.compare_antisym a1 b1), (Z.compare_antisym a2 b2), (Z.compare_antisym a3 b3).
  destruct (a1 ?= b1), (a2 ?= b2), (a3 ?= b3); reflexivity.
Qed.

Lemma lex3_trans (a b c : Z * Z * Z) :
  lex3 a b = Lt -> lex3 b c = Lt -> lex3 a c = Lt.
Proof.
  destruct a as [[a1 a2] a3], b as [[b1 b2] b3], c as [[c1 c2] c3]. unfold lex3.
  destruct (Z.compare_spec a1 b1), (Z.compare_spec b1 c1), (Z.compare_spec a1 c1);
    try discriminate; try lia; try reflexivity;
    destruct (Z.compare_spec a2 b2), (Z.compare_spec b2 c2), (Z.compare_spec a2 c2);
    try discriminate; try lia; try reflexivity;
    destruct (Z.compare_spec a3 b3), (Z.compare_spec b3 c3), (Z.compare_spec a3 c3);
    try discriminate; try lia; reflexivity.
Qed.

Lemma SFcompare_key (x y : spec_float) :
  x <> S754_nan -> y <> S754_nan -> SFcompare x y = Some (lex3 (SFkey x) (SFkey y)).
Proof.
  intros Hx Hy.
  destruct x as [sx | sx | | sx mx ex]; [| | contradiction |];
    (destruct y as [sy | sy | | sy my ey]; [| | contradiction |]);
    try (destruct sx); try (destruct sy); try reflexivity.
  cbn [SFcompare SFkey]. unfold lex3.
  change (-1 ?= -1) with Eq. rewrite !Z.compare_opp.
  rewrite (Z.compare_antisym ex ey).
  change (Z.pos my ?= Z.pos mx) with (Pos.compare my mx).
  rewrite (Pos.compare_antisym mx my).
  change (Pos.compare_cont Eq mx my) with (Pos.compare mx my).
  destruct (ex ?= ey); reflexivity.
Qed.

Lemma is_nan_SF (x : float) : is_nan x = false -> Prim2SF x <> S754_nan.
Proof.
  unfold is_nan. rewrite FloatAxioms.eqb_spec. intros H E. rewrite E in H. discriminate H.
Qed.

Lemma ltb_key (x y : float) :
  is_nan x = false -> is_nan y = false ->
  (x <? y)%float = match lex3 (SFkey (Prim2SF x)) (SFkey (Prim2SF y)) with
                   | Lt => true
                   | _ => false
                   end.
Proof.
  intros Hx Hy. rewrite FloatAxioms.ltb_spec. unfold SFltb.
  now rewrite (SFcompare_key _ _ (is_nan_SF x Hx) (is_nan_SF y Hy)).
Qed.

Lemma eqb_key (x y : float) :
  is_nan x = false -> is_nan y = false ->
  (x =? y)%float = match lex3 (SFkey (Prim2SF x)) (SFkey (Prim2SF y)) with
                   | Eq => true
                   | _ => false
                   end.
Proof.
  intros Hx Hy. rewrite FloatAxioms.eqb_spec. unfold SFeqb.
  now rewrite (SFcompare_key _ _ (is_nan_SF x Hx) (is_nan_SF y Hy)).
Qed.

Lemma eqb_nan_l (x y : float) : is_nan x = true -> (x =? y)%float = false.
Proof.
  unfold is_nan. rewrite !FloatAxioms.eqb_spec. unfold SFeqb.
  destruct (Prim2SF x) as [s | s | | s m e]; cbn; try discriminate; try reflexivity.
  - destruct s; discriminate.
  - rewrite Z.compare_refl, Pos.compare_cont_refl. destruct s; discriminate.
Qed.

Lemma eqb_nan_r (x y : float) : is_nan y = true -> (x =? y)%float = false.
Proof.
  intros Hy. rewrite FloatAxioms.eqb_spec. unfold SFeqb.
  assert (E : Prim2SF y = S754_nan).
  { revert Hy. unfold is_nan. rewrite FloatAxioms.eqb_spec. unfold SFeqb.
    destruct (Prim2SF y) as [s | s | | s m e]; cbn; try discriminate; try reflexivity.
    - destruct s; discriminate.
    - rewrite Z.compare_refl, Pos.compare_cont_refl. destruct s; discriminate. }
  rewrite E. now destruct (Prim2SF x).
Qed.

Lemma ltb_nan_l (x y : float) : is_nan x = true -> (x <? y)%float = false.
Proof.
  intros Hx. destruct (x <? y)%float eqn:E; [| reflexivity].
  rewrite FloatAxioms.ltb_spec in E. unfold SFltb in E.
  assert (Ex : Prim2SF x = S754_nan).
  { revert Hx. unfold is_nan. rewrite FloatAxioms.eqb_spec. unfold SFeqb.
    destruct (Prim2SF x) as [s | s | | s m e]; cbn; try discriminate; try reflexivity.
    - destruct s; discriminate.
    - rewrite Z.compare_refl, Pos.compare_cont_refl. destruct s; discriminate. }
  rewrite Ex in E. discriminate E.
Qed.

(** Two numbers neither of which is before the other are equal. *)
Lemma eqb_of_not_ltb (x y : float) :
  is_nan x = false -> is_nan y = false ->
  (x <? y)%float = false -> (y <? x)%float = false -> (x =? y)%float = true.
Proof.
  intros Hx Hy. rewrite (ltb_key x y Hx Hy), (ltb_key y x Hy Hx), (eqb_key x y Hx Hy).
  rewrite (lex3_antisym (SFkey (Prim2SF x)) (SFkey (Prim2SF y))).
  destruct (lex3 (SFkey (Prim2SF x)) (SFkey (Prim2SF y))); cbn; congruence.
Qed.

Lemma ltb_trans (x y z : float) :
  (x <? y)%float = true -> (y <? z)%float = true -> (x <? z)%float = true.
Proof.
  intros Hxy Hyz.
  assert (Hx : is_nan x = false)
    by (destruct (is_nan x) eqn:E; [now rewrite (ltb_nan_l x y E) in Hxy | reflexivity]).
  assert (Hy : is_nan y = false)
    by (destruct (is_nan y) eqn:E; [now rewrite (ltb_nan_l y z E) in Hyz | reflexivity]).
  assert (Hz : is_nan z = false).
  { destruct (is_nan z) eqn:E; [| reflexivity].
    rewrite FloatAxioms.ltb_spec in Hyz. unfold SFltb in Hyz.
    assert (Ez : Prim2SF z = S754_nan).
    { revert E. unfold is_nan. rewrite FloatAxioms.eqb_spec. unfold SFeqb.
      destruct (Prim2SF z) as [s | s | | s m e]; cbn; try discriminate; try reflexivity.
      - destruct s; discriminate.
      - rewrite Z.compare_refl, Pos.compare_cont_refl. destruct s; discriminate. }
    rewrite Ez in Hyz. now destruct (Prim2SF y). }
  rewrite (ltb_key x y Hx Hy) in Hxy. rewrite (ltb_key y z Hy Hz) in Hyz.
  rewrite (ltb_key x z Hx Hz).
  destruct (lex3 (SFkey (Prim2SF x)) (SFkey (Prim2SF y))) eqn:E1; try discriminate.
  destruct (lex3 (SFkey (Prim2SF y)) (SFkey (Prim2SF z))) eqn:E2; try discriminate.
  now rewrite (lex3_trans _ _ _ E1 E2).
Qed.

Lemma ltb_irrefl (x : float) : (x <? x)%float = false.
Proof.
  destruct (is_nan x) eqn:E; [now apply ltb_nan_l |].
  rewrite (ltb_key x x E E). now rewrite lex3_refl.
Qed.

(** Numbers that are equal compare alike with any third. *)
Lemma eqb_compat (x y z : float) :
  (x =? y)%float = true -> (z =? x)%float = (z =? y)%float.
Proof.
  intros Hxy.
  assert (Hx : is_nan x = false)
    by (destruct (is_nan x) eqn:E; [now rewrite (eqb_nan_l x y E) in Hxy | reflexivity]).
  assert (Hy : is_nan y = false)
    by (destruct (is_nan y) eqn:E; [now rewrite (eqb_nan_r x y E) in Hxy | reflexivity]).
  destruct (is_nan z) eqn:Hz; [now rewrite !(eqb_nan_l z _ Hz) |].
  rewrite (eqb_key x y Hx Hy) in Hxy.
  rewrite (eqb_key z x Hz Hx), (eqb_key z y Hz Hy).
  destruct (lex3 (SFkey (Prim2SF x)) (SFkey (Prim2SF y))) eqn:E; try discriminate.
  now rewrite (lex3_eq _ _ E).
Qed.

(** ** The least time of a column *)

Lemma ltb_of_eqb (x m y : float) :
  (x =? m)%float = true -> is_nan y = false -> (y <? m)%float = (y <? x)%float.
Proof.
  intros Heq Hy.
  assert (Hx : is_nan x = false)
    by (destruct (is_nan x) eqn:E; [now rewrite (eqb_nan_l x m E) in Heq | reflexivity]).
  assert (Hm : is_nan m = false)
    by (destruct (is_nan m) eqn:E; [now rewrite (eqb_nan_r x m E) in Heq | reflexivity]).
  rewrite (eqb_key x m Hx Hm) in Heq.
  rewrite (ltb_key y m Hy Hm), (ltb_key y x Hy Hx).
  destruct (lex3 (SFkey (Prim2SF x)) (SFkey (Prim2SF m))) eqn:Ek; try discriminate.
  now rewrite (lex3_eq _ _ Ek).
Qed.

Lemma fold_min_spec (xs : list float) :
  forall x : float,
    is_nan x = false -> Forall (fun t => is_nan t = false) xs ->
    fold_left (fun m y => if (y <? m)%float then y else m) xs x ∈ x :: xs
    /\ forall t, t ∈ x :: xs ->
         (t <? fold_left (fun m y => if (y <? m)%float then y else m) xs x)%float = false.
Proof.
  induction xs as [| y xs IH]; intros x Hx Hxs; cbn [fold_left].
  - split; [apply list_elem_of_here |].
    intros t Ht. apply list_elem_of_singleton in Ht as ->. apply ltb_irrefl.
  - apply Forall_cons in Hxs as [Hy Hxs].
    destruct (y <? x)%float eqn:Hlt.
    + destruct (IH y Hy Hxs) as [Hin Hmin].
      remember (fold_left (fun m y0 => if (y0 <? m)%float then y0 else m) xs y) as m.
      split; [now apply list_elem_of_further |].
      intros t Ht. apply elem_of_cons in Ht as [-> | Ht]; [| now apply Hmin].
      destruct (x <? m)%float eqn:E; [| reflexivity].
      pose proof (ltb_trans _ _ _ Hlt E) as H.
      rewrite (Hmin y (list_elem_of_here _ _)) in H. discriminate H.
    + destruct (IH x Hx Hxs) as [Hin Hmin].
      remember (fold_left (fun m y0 => if (y0 <? m)%float then y0 else m) xs x) as m.
      assert (Hm : is_nan m = false).
      { apply elem_of_cons in Hin as [-> | Hin]; [exact Hx |].
        now apply (proj1 (Forall_forall _ _) Hxs). }
      assert (Hxm : (x <? m)%float = false) by apply Hmin, list_elem_of_here.
      split.
      * apply elem_of_cons in Hin as [-> | Hin];
          [apply list_elem_of_here | now do 2 apply list_elem_of_further].
      * intros t Ht. apply elem_of_cons in Ht as [-> | Ht]; [exact Hxm |].
        apply elem_of_cons in Ht as [-> | Ht]; [| now apply Hmin, list_elem_of_further].
        destruct (m <? x)%float eqn:Hmx.
        -- destruct (y <? m)%float eqn:E; [| reflexivity].
           rewrite (ltb_trans _ _ _ E Hmx) in Hlt. discriminate Hlt.
        -- rewrite (ltb_of_eqb x m y (eqb_of_not_ltb x m Hx Hm Hxm Hmx) Hy). exact Hlt.
Qed.

Lemma nanmin_spec (l : list float) (t0 : float) :
  t0 ∈ l -> is_nan t0 = false ->
  nanmin l ∈ l /\ is_nan (nanmin l) = false
  /\ forall t, t ∈ l -> (t <? nanmin l)%float = false.
Proof.
  intros Hin Hnan. unfold nanmin.
  assert (Hf : t0 ∈ List.filter notnan l).
  { apply list_elem_of_In, filter_In. split; [now apply list_elem_of_In |].
    unfold notnan. now rewrite Hnan. }
  assert (Hall : Forall (fun t => is_nan t = false) (List.filter notnan l)).
  { apply Forall_forall. intros t Ht. apply list_elem_of_In, filter_In in Ht as [_ Ht].
    unfold notnan in Ht. now destruct (is_nan t). }
  assert (Hsub : forall t, t ∈ List.filter notnan l -> t ∈ l).
  { intros t Ht. apply list_elem_of_In, filter_In in Ht as [Ht _].
    now apply list_elem_of_In. }
  destruct (List.filter notnan l) as [| x xs] eqn:E; [now apply elem_of_nil in Hf |].
  apply Forall_cons in Hall as [Hx Hxs].
  destruct (fold_min_spec xs x Hx Hxs) as [Hm Hmin].
  split; [now apply Hsub |]. split.
  - apply elem_of_cons in Hm as [-> | Hm]; [exact Hx |].
    now apply (proj1 (Forall_forall _ _) Hxs).
  - intros t Ht. destruct (is_nan t) eqn:Et; [now apply ltb_nan_l |].
    apply Hmin. rewrite <- E. apply list_elem_of_In, filter_In.
    split; [now apply list_elem_of_In |]. unfold notnan. now rewrite Et.
Qed.

(** ** Running a computation step by step *)

Lemma bind_ok {A B} (m : M A) (f : A -> M B) (w w1 : World) (a : A) :
  m w = (Ok a, w1) -> (m ≫= f) w = f a w1.
Proof. intros H. unfold mbind, M_bind. now rewrite H. Qed.

Lemma bind_raise {A B} (m : M A) (f : A -> M B) (w w1 : World) (e : exn) :
  m w = (Raise e, w1) -> (m ≫= f) w = (Raise e, w1).
Proof. intros H. unfold mbind, M_bind. now rewrite H. Qed.

Lemma bind_ok_inv {A B} (m : M A) (f : A -> M B) (w w' : World) (b : B) :
  (m ≫= f) w = (Ok b, w') ->
  exists a w1, m w = (Ok a, w1) /\ f a w1 = (Ok b, w').
Proof.
  unfold mbind, M_bind. destruct (m w) as [[a | e] w1]; intros H.
  - eauto.
  - discriminate H.
Qed.

Lemma progressbar_unfold {A} (label : string) (body : M A) (w : World) :
  progressbar label body w
  = body {| console := console w ++ [ProgressBar label]; written := written w |}.
Proof. reflexivity. Qed.

Lemma ret_ok {A} (a : A) (w : World) : (mret a : M A) w = (Ok a, w).
Proof. reflexivity. Qed.

Lemma call_ok {A} (o : outcome A) (w : World) : call o w = (o, w).
Proof. reflexivity. Qed.

(** ** C1: background correction *)

Lemma zero_not_negative : (0 <? 0)%float = false.
Proof. reflexivity. Qed.

Lemma py_in_true (x : string) (l : list string) : x ∈ l -> py_in x l = true.
Proof. intros H. unfold py_in. now apply bool_decide_eq_true. Qed.

Lemma py_in_false (x : string) (l : list string) : x ∉ l -> py_in x l = false.
Proof. intros H. unfold py_in. now apply bool_decide_eq_false. Qed.

Lemma corrected_row (bg : float) (df : DataFrame) (i : nat) (r : Reading) :
  df !! i = Some r ->
  clamp (subtract bg df) !! i
  = Some (if (OD r - bg <? 0)%float then set_OD 0%float (set_OD (OD r - bg)%float r)
          else set_OD (OD r - bg)%float r).
Proof.
  intros H. unfold clamp, subtract.
  rewrite !list_lookup_fmap, H. reflexivity.
Qed.

Lemma correct_background_corrected
    (df : DataFrame) (blank_strain : option string) (strains : list string) (w : World) :
  exists w', correct_background df blank_strain strains w
             = (Ok (corrected df blank_strain strains), w')
             /\ written w' = written w
             /\ console w `prefix_of` console w'.
Proof.
  unfold correct_background, corrected.
  destruct blank_strain as [blank |]; [destruct (py_in blank strains) |].
  - exists w. repeat split; reflexivity.
  - eexists. split; [reflexivity |]. split; [reflexivity |].
    apply prefix_app_r. reflexivity.
  - exists w. repeat split; reflexivity.
Qed.

(** The rows that the two masks of line 195 select are the rows of the
    blank strain at the minimum observed time. *)
Lemma blank_rows_at_minimum (df : DataFrame) (blank : string) (t0 : float) :
  minimum_time df t0 ->
  map OD
    (List.filter
       (fun r => String.eqb (Strain r) blank && (Time r =? nanmin (map Time df))%float) df)
  = blank_readings df blank t0.
Proof.
  intros (Hin & Hnan & Hmin). unfold blank_readings. f_equal.
  destruct (nanmin_spec (map Time df) t0 Hin Hnan) as (Hm & Hmnan & Hleast).
  assert (Heq : (t0 =? nanmin (map Time df))%float = true).
  { apply eqb_of_not_ltb; [exact Hnan | exact Hmnan | now apply Hleast |].
    apply list_elem_of_fmap in Hm as (r & -> & Hr). now apply Hmin. }
  assert (Hsame : forall r : Reading,
             (Time r =? nanmin (map Time df))%float = (Time r =? t0)%float)
    by (intros r; symmetry; now apply eqb_compat).
  revert Hsame. generalize (nanmin (map Time df)) as tmin. clear. intros tmin Hsame.
  induction df as [| r df IH]; [reflexivity |].
  cbn [List.filter]. rewrite filter_cons, Hsame.
  destruct (String.eqb_spec (Strain r) blank) as [Hs | Hs];
    destruct (Time r =? t0)%float eqn:Ht; cbn [andb].
  - rewrite decide_True by now split. now rewrite IH.
  - rewrite decide_False by (intros [_ H]; discriminate H). exact IH.
  - rewrite decide_False by (intros [H _]; contradiction). exact IH.
  - rewrite decide_False by (intros [H _]; contradiction). exact IH.
Qed.

(** A table in which some row has a time has a minimum observed time; in a
    table without any, the background is NaN. *)
Lemma minimum_time_or_none (df : DataFrame) (blank : string) :
  (exists t0 : float, minimum_time df t0)
  \/ ((forall r : Reading, r ∈ df -> is_nan (Time r) = true)
      /\ background df blank = nan).
Proof.
  destruct (List.filter notnan (map Time df)) as [| x xs] eqn:E.
  - right.
    assert (Hall : forall r : Reading, r ∈ df -> is_nan (Time r) = true).
    { intros r Hr. destruct (is_nan (Time r)) eqn:En; [reflexivity |].
      assert (Hin : In (Time r) (List.filter notnan (map Time df))).
      { apply filter_In. split; [| unfold notnan; now rewrite En].
        apply list_elem_of_In, list_elem_of_fmap. now exists r. }
      rewrite E in Hin. destruct Hin. }
    split; [exact Hall |]. unfold background, nanmin. rewrite E. cbv zeta.
    replace (List.filter _ df) with (@nil Reading); [reflexivity |].
    symmetry. clear E Hall. induction df as [| r df IH]; [reflexivity |].
    cbn [List.filter]. rewrite (eqb_nan_r (Time r) nan eq_refl), andb_false_r. exact IH.
  - left. exists (nanmin (map Time df)).
    assert (Hx : In x (List.filter notnan (map Time df))) by (rewrite E; now left).
    apply filter_In in Hx as [Hx Hnx].
    destruct (nanmin_spec (map Time df) x) as (Hm & Hnan & Hleast).
    + now apply list_elem_of_In.
    + unfold notnan in Hnx. now destruct (is_nan x).
    + split; [exact Hm |]. split; [exact Hnan |].
      intros r Hr. apply Hleast, list_elem_of_fmap. now exists r.
Qed.

(** C1.  When the blank strain is among the plate's strains, the correction
    returns a table with the same rows in which only the optical density
    has changed: it is the original one minus the background, replaced by
    zero when that difference is negative.  The background is the mean of
    the optical densities of the rows of the blank strain at the minimum
    observed time (and NaN when no row has a time).  No corrected optical
    density is negative, and a row whose original optical density was below
    the background has the optical density zero. *)
Theorem background_correction_floor
    (df : DataFrame) (blank : string) (strains : list string) (w : World) :
  blank ∈ strains ->
  exists (bg : float) (df' : DataFrame),
    (forall t0 : float, minimum_time df t0 -> bg = nanmean (blank_readings df blank t0))
    /\ ((exists t0 : float, minimum_time df t0)
        \/ ((forall r : Reading, r ∈ df -> is_nan (Time r) = true) /\ bg = nan))
    /\ correct_background df (Some blank) strains w = (Ok df', w)
    /\ length df' = length df
    /\ forall (i : nat) (r : Reading), df !! i = Some r ->
         exists r' : Reading,
           df' !! i = Some r'
           /\ Well r' = Well r /\ Strain r' = Strain r /\ Time r' = Time r
           /\ OD r' = (if (OD r - bg <? 0)%float then 0%float else (OD r - bg)%float)
           /\ (OD r' <? 0)%float = false
           /\ ((OD r <? bg)%float = true -> OD r' = 0%float).
Proof.
  intros Hin. exists (background df blank), (clamp (subtract (background df blank) df)).
  split; [| split; [| split; [| split]]].
  - intros t0 Ht0. unfold background. cbv zeta.
    now rewrite (blank_rows_at_minimum df blank t0 Ht0).
  - apply minimum_time_or_none.
  - unfold correct_background. rewrite (py_in_true _ _ Hin). reflexivity.
  - unfold clamp, subtract. now rewrite !length_fmap.
  - intros i r Hr. eexists. split; [apply corrected_row, Hr |].
    destruct (OD r - background df blank <? 0)%float eqn:Hneg; cbn.
    + repeat split; try reflexivity.
    + repeat split; try reflexivity; try exact Hneg.
      intros Hlt. apply sub_negative in Hlt. congruence.
Qed.

Lemma background_correction_floor_witness :
  (minimum_time Demo.table 0%float
   /\ blank_readings Demo.table "0" 0%float = [0.0625%float]
   /\ exists (bg : float) (df' : DataFrame),
        bg = 0.0625%float
        /\ correct_background Demo.table (Some "0") ["0"; "1"; "2"] (mkWorld [] [])
           = (Ok df', mkWorld [] [])
        /\ map OD df' = [0; 0; 0.125; 0; 0.1875; 0.4375]%float)
  /\ (minimum_time Scenario.ten_blanks 0%float
      /\ blank_readings Scenario.ten_blanks "0" 0%float
         = replicate 10 0x1.999999999999ap-4%float ++ [nan]
      /\ exists (bg : float) (df' : DataFrame),
           bg = 0x1.999999999999ap-4%float
           /\ correct_background Scenario.ten_blanks (Some "0") ["0"; "1"] (mkWorld [] [])
              = (Ok df', mkWorld [] [])
           /\ map OD df' = replicate 10 0%float ++ [nan; 0; 0x1.999999999999ap-2]%float).
Proof.
  assert (Hmin : minimum_time Demo.table 0%float).
  { split; [apply list_elem_of_here |]. split; [reflexivity |].
    intros r Hr. cbn in Hr. repeat (apply elem_of_cons in Hr as [-> | Hr]; [reflexivity |]).
    now apply elem_of_nil in Hr. }
  assert (Hmin' : minimum_time Scenario.ten_blanks 0%float).
  { split; [apply list_elem_of_here |]. split; [reflexivity |].
    intros r Hr. cbn in Hr. repeat (apply elem_of_cons in Hr as [-> | Hr]; [reflexivity |]).
    now apply elem_of_nil in Hr. }
  split.
  - split; [exact Hmin |]. split; [reflexivity |].
    destruct (background_correction_floor Demo.table "0" ["0"; "1"; "2"] (mkWorld [] []))
      as (bg & df' & Hbg & _ & Hrun & _); [apply list_elem_of_here |].
    exists bg, df'. rewrite (Hbg _ Hmin). split; [reflexivity |].
    split; [exact Hrun |].
    vm_compute in Hrun. injection Hrun as <-. reflexivity.
  - split; [exact Hmin' |]. split; [reflexivity |].
    destruct (background_correction_floor Scenario.ten_blanks "0" ["0"; "1"] (mkWorld [] []))
      as (bg & df' & Hbg & _ & Hrun & _); [apply list_elem_of_here |].
    exists bg, df'. rewrite (Hbg _ Hmin'). split; [vm_compute; reflexivity |].
    split; [exact Hrun |].
    vm_compute in Hrun. injection Hrun as <-. reflexivity.
Defined.

(** The summation of the mean is numpy's: ten readings of one tenth have the
    mean one tenth, where a sum taken from left to right would have given
    [0.09999999999999999]. *)
Example mean_of_ten_tenths :
  nanmean (replicate 10 0x1.999999999999ap-4%float) = 0x1.999999999999ap-4%float
  /\ (fold_left PrimFloat.add (replicate 10 0x1.999999999999ap-4%float) 0
      / float_of_nat 10)%float
     = 0x1.9999999999999p-4%float.
Proof. split; vm_compute; reflexivity. Qed.

(** The recursion of [pairwise_sum] never runs out of the fuel it is given. *)
Lemma pairwise_sum_fuel (fuel : nat) :
  forall (fuel' : nat) (a : list float),
    (length a <= fuel)%nat -> (length a <= fuel')%nat ->
    pairwise_sum fuel a = pairwise_sum fuel' a.
Proof.
  induction fuel as [| fuel IH]; intros fuel' a H H'.
  - destruct a; [| cbn in H; lia]. now destruct fuel'.
  - destruct fuel' as [| fuel'].
    + destruct a; [reflexivity | cbn in H'; lia].
    + cbn [pairwise_sum].
      destruct (length a <? 8)%nat eqn:E8; [reflexivity |].
      destruct (length a <=? 128)%nat eqn:E128; [reflexivity |].
      apply Nat.leb_gt in E128.
      assert (Hn2 : (0 < length a / 2 - (length a / 2) mod 8 < length a)%nat).
      { pose proof (Nat.mod_upper_bound (length a / 2) 8).
        pose proof (Nat.div_lt (length a) 2).
        assert (64 <= length a / 2)%nat by (apply Nat.div_le_lower_bound; lia).
        lia. }
      rewrite (IH fuel' (take _ a)), (IH fuel' (drop _ a));
        rewrite ?length_take, ?length_drop; try lia.
      reflexivity.
Qed.

(** ** C7: resolution of the plate file *)

Lemma find_plate_file_resolves
    (os : OS) (L : Library) (plate_folder plate_file : string) (w : World) :
  find_plate_file os L plate_folder plate_file w
  = (resolve_plate os L plate_folder plate_file, w).
Proof.
  unfold find_plate_file, resolve_plate, mbind, M_bind.
  destruct (path_exists os (Py.join plate_folder plate_file)) eqn:Hlocal; cbn.
  - now rewrite Hlocal.
  - destruct (resource_filename L plate_folder plate_file) as [rp | e]; cbn.
    + destruct (path_exists os rp); reflexivity.
    + reflexivity.
Qed.




(** ** Loading the plate *)

Lemma load_plate_ok (L : Library) (plate_path : string) (raw : RawPlate) (w : World) :
  read_csv L plate_path = Ok raw -> load_plate L plate_path w = (Ok raw, w).
Proof. intros H. unfold load_plate, try_except, call. now rewrite H. Qed.

Lemma load_plate_state (L : Library) (plate_path : string) (w w' : World) r :
  load_plate L plate_path w = (r, w') -> w' = w.
Proof.
  unfold load_plate, try_except, call, ioerror_to_click_exception, raise.
  destruct (read_csv L plate_path) as [raw | []]; cbn; congruence.
Qed.

(** ** C5: no data file *)

Lemma announce_returns
    (cfg : Config) (os : OS) (path plate_path blank_strain ref_strain : string)
    (max_time : float) (w : World) :
  exists w', announce cfg os path plate_path blank_strain ref_strain max_time w = (Ok tt, w')
             /\ written w' = written w.
Proof.
  unfold announce. destruct (VERBOSE cfg).
  - eexists. split; reflexivity.
  - exists w. split; reflexivity.
Qed.

Lemma confirm_plate_written
    (cfg : Config) (os : OS) (L : Library) (plate : Plate) (plate_strains : list string)
    (w w' : World) r :
  confirm_plate cfg os L plate plate_strains w = (r, w') -> written w' = written w.
Proof.
  unfold confirm_plate, mbind, M_bind, call, print, raise.
  destruct (PROMPT cfg); [| now intros [= _ <-]].
  destruct (plot_plate L plate) as [fig | e]; [| now intros [= _ <-]].
  destruct (show L fig) as [[] | e]; [| now intros [= _ <-]].
  destruct (confirm os _); now intros [= _ <-].
Qed.

Lemma confirm_plate_accepted
    (cfg : Config) (os : OS) (L : Library) (plate : Plate) (plate_strains : list string)
    (w : World) :
  (PROMPT cfg = true ->
   exists fig, plot_plate L plate = Ok fig /\ show L fig = Ok tt
               /\ confirm os "Is this the plate you wanted?" = true) ->
  exists w', confirm_plate cfg os L plate plate_strains w = (Ok tt, w').
Proof.
  unfold confirm_plate, mbind, M_bind, call, print. intros H.
  destruct (PROMPT cfg); [| now eexists].
  destruct (H eq_refl) as (fig & -> & -> & ->). now eexists.
Qed.

(** C5.  When no discovered file has a recognised extension, [analyse]
    never returns normally and never writes a table.  If moreover the plate
    file resolves and parses and the user (when asked) confirms the plate,
    the exception raised is the [click.ClickException] with the message
    "No data files found in folder" followed by the path. *)
Theorem no_data_files_error
    (cfg : Config) (os : OS) (L : Library)
    (path output_file plate_folder plate_file blank_strain ref_strain : string)
    (max_time : float) (w : World) :
  data_files os L path = [] ->
  (exists e w',
     analyse cfg os L path output_file plate_folder plate_file
       blank_strain ref_strain max_time w = (Raise e, w')
     /\ written w' = written w)
  /\ (forall (plate_path : string) (raw : RawPlate),
        resolve_plate os L plate_folder plate_file = Ok plate_path ->
        read_csv L plate_path = Ok raw ->
        (PROMPT cfg = true ->
         exists fig, plot_plate L (text_labels raw) = Ok fig /\ show L fig = Ok tt
                     /\ confirm os "Is this the plate you wanted?" = true) ->
        exists w',
          analyse cfg os L path output_file plate_folder plate_file
            blank_strain ref_strain max_time w
          = (Raise (ClickException ("No data files found in folder " +:+ path)), w')
          /\ written w' = written w).
Proof.
  intros Hnone. unfold analyse. split.
  - destruct (resolve_plate os L plate_folder plate_file) as [pp | e] eqn:Hres.
    2:{ exists e, w. split; [| reflexivity]. apply bind_raise.
        rewrite find_plate_file_resolves. now rewrite Hres. }
    rewrite (bind_ok _ _ w w pp)
      by (rewrite find_plate_file_resolves; now rewrite Hres).
    destruct (announce_returns cfg os path pp blank_strain ref_strain max_time w)
      as (w1 & Hann & Hw1).
    rewrite (bind_ok _ _ _ _ _ Hann).
    destruct (load_plate L pp w1) as [[raw | e] w2] eqn:Hload.
    2:{ exists e, w2. split; [now apply bind_raise |].
        apply load_plate_state in Hload. congruence. }
    rewrite (bind_ok _ _ _ _ _ Hload). apply load_plate_state in Hload. subst w2.
    destruct (confirm_plate cfg os L (text_labels raw)
                (unique (map pl_Strain (text_labels raw))) w1) as [[[] | e] w3] eqn:Hconf.
    2:{ exists e, w3. split; [now apply bind_raise |].
        apply confirm_plate_written in Hconf. congruence. }
    rewrite (bind_ok _ _ _ _ _ Hconf). apply confirm_plate_written in Hconf.
    rewrite Hnone. eexists _, w3. split; [reflexivity | congruence].
  - intros pp raw Hres Hread Hprompt.
    rewrite (bind_ok _ _ w w pp)
      by (rewrite find_plate_file_resolves; now rewrite Hres).
    destruct (announce_returns cfg os path pp blank_strain ref_strain max_time w)
      as (w1 & Hann & Hw1).
    rewrite (bind_ok _ _ _ _ _ Hann).
    rewrite (bind_ok _ _ w1 w1 raw) by now apply load_plate_ok.
    destruct (confirm_plate_accepted cfg os L (text_labels raw)
                (unique (map pl_Strain (text_labels raw))) w1 Hprompt) as (w3 & Hconf).
    rewrite (bind_ok _ _ _ _ _ Hconf). apply confirm_plate_written in Hconf.
    rewrite Hnone. exists w3. split; [reflexivity | congruence].
Qed.

Lemma no_data_files_error_witness :
  exists w',
    analyse (mkConfig false true true) Demo.os Demo.lib "data/notes.txt" "out.csv"
      "plate_templates" "checkerboard.csv" "0" "1" infinity (mkWorld [] [])
    = (Raise (ClickException "No data files found in folder data/notes.txt"), w')
    /\ written w' = [].
Proof.
  destruct (no_data_files_error (mkConfig false true true) Demo.os Demo.lib
              "data/notes.txt" "out.csv" "plate_templates" "checkerboard.csv" "0" "1"
              infinity (mkWorld [] [])) as [_ H].
  - reflexivity.
  - apply (H "plate_templates/checkerboard.csv" Demo.raw_plate).
    + reflexivity.
    + reflexivity.
    + intros _. exists tt. repeat split.
Defined.

(** ** C4: discovery in a directory *)

(** Joining the directory to a path that already starts with it repeats
    the directory, unless the path is absolute. *)
Lemma join_relative (a b : string) :
  Py.startswith_slash b = false -> a <> "" -> Py.endswith_slash a = false ->
  Py.join a b = a +:+ "/" +:+ b.
Proof.
  intros Hb Ha Hs. unfold Py.join. rewrite Hb, Hs.
  destruct (String.eqb_spec a ""); [contradiction | reflexivity].
Qed.

(** When every listed path is absolute, the second join changes nothing. *)
Lemma discover_absolute (os : OS) (path : string) :
  isdir os path = true ->
  Forall (fun fn => Py.startswith_slash fn = true) (glob os (Py.join path "*")) ->
  discover os path = glob os (Py.join path "*").
Proof.
  intros Hdir Habs. unfold discover. rewrite Hdir.
  induction Habs as [| fn l Hfn _ IH]; [reflexivity |].
  cbn. unfold Py.join at 1. now rewrite Hfn, IH.
Qed.

Example path_functions :
  Py.splitext "data/run.1.XLSX" = ("data/run.1", ".XLSX")
  /\ Py.splitext "data/.hidden" = ("data/.hidden", "")
  /\ Py.join "data" "data/a.xlsx" = "data/data/a.xlsx"
  /\ Py.join "/srv/data" "/srv/data/a.xlsx" = "/srv/data/a.xlsx"
  /\ Py.split "a/b//" = ("a/b", "")
  /\ Py.dirname "/x.mat" = "/"
  /\ Py.lower ".XlSx" = ".xlsx".
Proof. repeat split. Qed.

(** C4.  For the relative directory [data], whose entries [glob] lists as
    [data/a.xlsx] and [data/notes.txt], discovery returns the single path
    [data/data/a.xlsx]: the directory is joined a second time to a path
    that already contains it.  That path is not the path of the entry
    [a.xlsx] and names nothing that exists. *)
Theorem discovery_repeats_relative_directory :
  isdir Demo.os "data" = true
  /\ glob Demo.os (Py.join "data" "*") = ["data/a.xlsx"; "data/notes.txt"]
  /\ data_files Demo.os Demo.lib "data" = ["data/data/a.xlsx"]
  /\ path_exists Demo.os "data/a.xlsx" = true
  /\ path_exists Demo.os "data/data/a.xlsx" = false.
Proof. repeat split. Qed.

(** ** The order in which the strains are fitted *)

Lemma elem_of_unique (x : string) (l : list string) : x ∈ unique l <-> x ∈ l.
Proof.
  induction l as [| y l IH]; simpl; [reflexivity |].
  rewrite !elem_of_cons, list_elem_of_filter, IH.
  split; [intros [-> | [Hne Hx]]; auto | intros [-> | Hx]; auto].
  destruct (decide (x = y)); auto.
Qed.

Lemma NoDup_unique (l : list string) : NoDup (unique l).
Proof.
  induction l as [| y l IH]; simpl; [constructor |].
  constructor.
  - rewrite list_elem_of_filter. intros [Hne _]. now apply Hne.
  - now apply NoDup_filter.
Qed.

Lemma remove_first_present (x : string) (l : list string) :
  x ∈ l ->
  exists l', remove_first x l = Some l'
             /\ (forall y, y ∈ l' -> y ∈ l)
             /\ (forall y, y ∈ l -> y <> x -> y ∈ l')
             /\ (NoDup l -> (x ∉ l') /\ NoDup l').
Proof.
  induction l as [| z l IH]; intros Hin; [now apply elem_of_nil in Hin |].
  simpl. destruct (String.eqb_spec z x) as [-> | Hne].
  - exists l. split; [reflexivity |]. split; [| split].
    + intros y Hy. now right.
    + intros y Hy Hyx. apply elem_of_cons in Hy as [? | ?]; [contradiction | assumption].
    + intros Hnd. apply NoDup_cons in Hnd as [? ?]. now split.
  - apply elem_of_cons in Hin as [-> | Hin]; [contradiction |].
    destruct (IH Hin) as (l' & -> & Hsub & Hkeep & Hnd).
    exists (z :: l'). split; [reflexivity |]. split; [| split].
    + intros y Hy. apply elem_of_cons in Hy as [-> | Hy]; [now left | right; auto].
    + intros y Hy Hyx. apply elem_of_cons in Hy as [-> | Hy]; [now left | right; auto].
    + intros Hzl. apply NoDup_cons in Hzl as [Hz Hl]. destruct (Hnd Hl) as [Hx Hl'].
      split.
      * rewrite elem_of_cons. intros [-> | Hx']; [now apply Hne | now apply Hx].
      * constructor; [| assumption]. intros Hz'. apply Hz. auto.
Qed.

Lemma order_of_candidates (strains : list string) (blank_strain : option string)
    (ref_strain : string) :
  order_of strains blank_strain ref_strain
  = if py_in ref_strain (candidates strains blank_strain)
    then ref_strain :: without ref_strain (candidates strains blank_strain)
    else candidates strains blank_strain.
Proof. reflexivity. Qed.

Lemma without_subset (x y : string) (l : list string) : y ∈ without x l -> y ∈ l.
Proof.
  unfold without. destruct (decide (x ∈ l)) as [Hin | Hout].
  - destruct (remove_first_present x l Hin) as (l' & -> & Hsub & _). apply Hsub.
  - destruct (remove_first x l) eqn:E; [| auto]. simpl.
    exfalso. apply Hout. clear Hout. revert l0 E.
    induction l as [| z l IH]; simpl; [discriminate |].
    destruct (String.eqb_spec z x) as [-> | Hne]; [intros; now left |].
    destruct (remove_first x l); [| discriminate]. intros _ _. right. eauto.
Qed.

Lemma without_keeps (x y : string) (l : list string) :
  y ∈ l -> y <> x -> y ∈ without x l.
Proof.
  intros Hy Hne. unfold without. destruct (decide (x ∈ l)) as [Hin | Hout].
  - destruct (remove_first_present x l Hin) as (l' & -> & _ & Hkeep & _). now apply Hkeep.
  - destruct (remove_first x l) eqn:E; [| auto]. simpl.
    exfalso. apply Hout. clear Hout Hy. revert l0 E.
    induction l as [| z l IH]; simpl; [discriminate |].
    destruct (String.eqb_spec z x) as [-> | Hne']; [intros; now left |].
    destruct (remove_first x l); [| discriminate]. intros _ _. right. eauto.
Qed.

Lemma without_absent (x : string) (l : list string) : NoDup l -> x ∉ without x l.
Proof.
  intros Hnd. unfold without. destruct (decide (x ∈ l)) as [Hin | Hout].
  - destruct (remove_first_present x l Hin) as (l' & -> & _ & _ & H). now apply H.
  - intros H. apply Hout. eapply without_subset. exact H.
Qed.

Lemma remove_present (x : string) (l : list string) (w : World) :
  x ∈ l -> remove x l w = (Ok (without x l), w).
Proof.
  intros Hin. unfold remove, without.
  destruct (remove_first_present x l Hin) as (l' & -> & _). reflexivity.
Qed.

(** [iteration_order] never raises: it returns [order_of], and prints the
    warning exactly when the reference strain is not among the candidates. *)
Lemma iteration_order_returns
    (strains : list string) (blank_strain : option string) (ref_strain : string)
    (w : World) :
  iteration_order strains blank_strain ref_strain w
  = (Ok (order_of strains blank_strain ref_strain),
     if py_in ref_strain (candidates strains blank_strain) then w
     else {| console := console w ++ [missing_reference_warning ref_strain];
             written := written w |}).
Proof.
  unfold iteration_order.
  assert (Hcand :
    (match blank_strain with
     | Some blank => if py_in blank strains then remove blank strains else mret strains
     | None => mret strains
     end : M (list string)) w = (Ok (candidates strains blank_strain), w)).
  { destruct blank_strain as [blank |]; [| reflexivity]. simpl.
    unfold py_in. case_bool_decide as Hin.
    - now apply remove_present.
    - unfold without. destruct (remove_first blank strains) eqn:E; [| reflexivity].
      exfalso. apply Hin. clear Hin. revert l E.
      induction strains as [| z l IH]; simpl; [discriminate |].
      destruct (String.eqb_spec z blank) as [-> | Hne]; [intros; now left |].
      destruct (remove_first blank l); [| discriminate]. intros _ _. right. eauto. }
  rewrite (bind_ok _ _ _ _ _ Hcand), order_of_candidates.
  unfold py_in. case_bool_decide as Hin.
  - rewrite (bind_ok _ _ _ _ _ (remove_present _ _ w Hin)). reflexivity.
  - reflexivity.
Qed.

(** ** The body of the fitting loop *)

Lemma grows_refl (w : World) : grows w w.
Proof. split; reflexivity. Qed.

Lemma grows_trans (w1 w2 w3 : World) : grows w1 w2 -> grows w2 w3 -> grows w1 w3.
Proof. intros [H1 H1'] [H2 H2']. split; [now transitivity (console w2) | congruence]. Qed.

Lemma grows_print (w : World) (l : Line) :
  grows w {| console := console w ++ [l]; written := written w |}.
Proof. split; [now apply prefix_app_r | reflexivity]. Qed.

Lemma bind_call_ok {A B} (o : outcome A) (f : A -> M B) (w : World) (a : A) :
  o = Ok a -> (call o ≫= f) w = f a w.
Proof. intros ->. reflexivity. Qed.

Lemma bind_ret {A B} (a : A) (f : A -> M B) (w : World) : (mret a ≫= f) w = f a w.
Proof. reflexivity. Qed.

Lemma bind_param_value {B} (ps : gmap string Param) (k : string) (p : Param)
    (f : float -> M B) (w : World) :
  ps !! k = Some p -> (param_value ps k ≫= f) w = f (value p) w.
Proof. intros H. unfold param_value. now rewrite H. Qed.

Lemma bind_last_item {A B} (l : list A) (x : A) (f : A -> M B) (w : World) :
  last l = Some x -> (last_item l ≫= f) w = f x w.
Proof. intros H. unfold last_item. now rewrite H. Qed.

Lemma call_inv {A} (o : outcome A) (w w' : World) (a : A) :
  call o w = (Ok a, w') -> o = Ok a /\ w' = w.
Proof. unfold call. now intros [= -> <-]. Qed.

Lemma param_value_inv (ps : gmap string Param) (k : string) (w w' : World) (x : float) :
  param_value ps k w = (Ok x, w') -> w' = w.
Proof. unfold param_value. destruct (ps !! k); now intros [= _ <-]. Qed.

Lemma last_item_inv {A} (l : list A) (w w' : World) (x : A) :
  last_item l w = (Ok x, w') -> w' = w.
Proof. unfold last_item. destruct (last l); now intros [= _ <-]. Qed.

Lemma first_item_inv {A} (l : list A) (w w' : World) (x : A) :
  first_item l w = (Ok x, w') -> head l = Some x /\ w' = w.
Proof. unfold first_item. destruct l; now intros [= <- <-]. Qed.

Lemma echo_info_returns (cfg : Config) (message : string) (w : World) :
  exists w', echo_info cfg message w = (Ok tt, w') /\ grows w w'.
Proof.
  unfold echo_info. destruct (VERBOSE cfg).
  - eexists. split; [reflexivity | apply grows_print].
  - exists w. split; [reflexivity | apply grows_refl].
Qed.

Lemma fit_and_plot_returns (cfg : Config) (L : Library) (fn strain : string)
    (d : DataFrame) (w : World) :
  library_returns L ->
  exists fit rest w',
    fit_and_plot cfg L fn strain d w = (Ok (fit :: rest), w')
    /\ grows w w' /\ has_basic_params fit.
Proof.
  intros HL. unfold fit_and_plot.
  destruct (fit_model_returns _ HL d (PLOT cfg) (VERBOSE cfg))
    as (out & fit & rest & Hout & Hfits & Hp).
  rewrite (bind_call_ok _ _ _ _ Hout). clear Hout.
  revert out Hfits. destruct (PLOT cfg); intros out Hfits.
  - destruct out as [frs fig]. simpl in Hfits. subst frs.
    rewrite (bind_call_ok _ _ _ _ (savefig_returns _ HL fig _)).
    match goal with |- context [echo_info cfg ?m] =>
      destruct (echo_info_returns cfg m w) as (w' & He & Hg) end.
    rewrite (bind_ok _ _ _ _ _ He). exists fit, rest, w'.
    split; [reflexivity | split; assumption].
  - simpl in Hfits. subst out. exists fit, rest, w.
    split; [reflexivity |]. split; [apply grows_refl | assumption].
Qed.

Lemma summary_returns (cfg : Config) (L : Library) (fn filepath strain : string)
    (frs : list Fit) (fit : Fit) (w : World) :
  library_returns L -> has_basic_params fit ->
  exists res, summary cfg L fn filepath strain frs fit w = (Ok res, w).
Proof.
  intros HL ([y0 Hy0] & [K HK] & [r Hr]). unfold summary.
  destruct (benchmark_returns _ HL frs) as [b Hb].
  destruct (find_max_growth_returns _ HL fit false) as (gs & g & Hgs & Hg).
  destruct (find_lag_returns _ HL fit false) as [lag Hlag].
  destruct (has_lag_returns _ HL frs) as [hl Hhl].
  destruct (has_nu_returns _ HL frs (VERBOSE cfg)) as [hn Hhn].
  rewrite (bind_call_ok _ _ _ _ Hb).
  rewrite (bind_param_value _ _ _ _ _ Hy0).
  rewrite (bind_param_value _ _ _ _ _ HK).
  rewrite (bind_param_value _ _ _ _ _ Hr).
  rewrite (bind_call_ok _ _ _ _ Hgs).
  rewrite (bind_last_item _ _ _ _ Hg).
  rewrite (bind_call_ok _ _ _ _ Hlag).
  rewrite (bind_call_ok _ _ _ _ Hhl).
  rewrite (bind_call_ok _ _ _ _ Hhn).
  eexists. reflexivity.
Qed.

(** What a record says before its fitness is entered. *)
Lemma summary_inv (cfg : Config) (L : Library) (fn filepath strain : string)
    (frs : list Fit) (fit : Fit) (w w' : World) (res : Result) :
  summary cfg L fn filepath strain frs fit w = (Ok res, w') ->
  w' = w
  /\ res !! "strain" = Some (PyStr strain)
  /\ res !! "w" = None
  /\ res !! "nu" = Some (match params fit !! "nu" with
                         | Some p => PyFloat (value p)
                         | None => PyInt 1
                         end)
  /\ res !! "q0" = Some (match params fit !! "q0" with
                         | Some p => PyFloat (value p)
                         | None => PyInt 0
                         end)
  /\ res !! "v" = Some (match params fit !! "v" with
                        | Some p => PyFloat (value p)
                        | None => PyInt 0
                        end).
Proof.
  unfold summary. intros H.
  apply bind_ok_inv in H as (b & w1 & Hb & H). apply call_inv in Hb as [_ ->].
  apply bind_ok_inv in H as (y0 & w1 & Hy0 & H). apply param_value_inv in Hy0 as ->.
  apply bind_ok_inv in H as (K & w1 & HK & H). apply param_value_inv in HK as ->.
  apply bind_ok_inv in H as (r & w1 & Hr & H). apply param_value_inv in Hr as ->.
  apply bind_ok_inv in H as (gs & w1 & Hgs & H). apply call_inv in Hgs as [_ ->].
  apply bind_ok_inv in H as (g & w1 & Hg & H). apply last_item_inv in Hg as ->.
  apply bind_ok_inv in H as (lag & w1 & Hlag & H). apply call_inv in Hlag as [_ ->].
  apply bind_ok_inv in H as (hl & w1 & Hhl & H). apply call_inv in Hhl as [_ ->].
  apply bind_ok_inv in H as (hn & w1 & Hhn & H). apply call_inv in Hhn as [_ ->].
  injection H as <- <-.
  split; [reflexivity |].
  repeat split; repeat (rewrite lookup_insert_ne by discriminate);
    first [apply lookup_insert_eq | apply lookup_empty].
Qed.

Lemma competition_returns (cfg : Config) (L : Library) (fn strain ref_strain : string)
    (plate : Plate) (df : DataFrame) (fit : Fit) (ref_fit : option Fit) (w : World) :
  library_returns L -> is_Some ref_fit ->
  exists x w',
    competition cfg L fn strain ref_strain plate df fit ref_fit w = (Ok x, w')
    /\ grows w w'.
Proof.
  intros HL [rf ->]. unfold competition, local. rewrite bind_ret.
  match goal with |- context [compete L fit rf ?h ?c (PLOT cfg)] =>
    destruct (compete_returns _ HL fit rf h c (PLOT cfg)) as [out Hout] end.
  rewrite (bind_call_ok _ _ _ _ Hout). clear Hout.
  revert out. destruct (PLOT cfg); intros out.
  - destruct out as [y fig].
    match goal with |- context [echo_info cfg ?m] =>
      destruct (echo_info_returns cfg m w) as (w' & He & Hg) end.
    destruct (fitness_LTEE_returns _ HL y 0 1) as [x Hx]. exists x, w'.
    split; [| assumption].
    erewrite bind_ok.
    + unfold call. now rewrite Hx.
    + rewrite (bind_call_ok _ _ _ _ (savefig_returns _ HL fig _)).
      rewrite (bind_ok _ _ _ _ _ He). reflexivity.
  - rewrite bind_ret.
    destruct (fitness_LTEE_returns _ HL out 0 1) as [x Hx]. exists x, w.
    split; [unfold call; now rewrite Hx | apply grows_refl].
Qed.

Lemma fit_strain_returns (cfg : Config) (L : Library) (fn filepath : string)
    (plate : Plate) (df : DataFrame) (strains : list string)
    (ref_strain strain : string) (ref_fit : option Fit) (w : World) :
  library_returns L ->
  (strain <> ref_strain -> ref_strain ∈ strains -> is_Some ref_fit) ->
  exists res ref_fit' w',
    fit_strain cfg L fn filepath plate df strains ref_strain strain ref_fit w
    = (Ok (res, ref_fit'), w')
    /\ grows w w'
    /\ fitness_entry strains ref_strain strain res
    /\ (strain = ref_strain -> is_Some ref_fit')
    /\ (strain <> ref_strain -> ref_fit' = ref_fit).
Proof.
  intros HL Href. unfold fit_strain.
  destruct (fit_and_plot_returns cfg L fn strain (rows_of strain df) w HL)
    as (fit & rest & w1 & Hfit & Hg1 & Hbp).
  rewrite (bind_ok _ _ _ _ _ Hfit). cbn [first_item]. rewrite bind_ret.
  destruct (summary_returns cfg L fn filepath strain (fit :: rest) fit w1 HL Hbp)
    as [res Hres].
  rewrite (bind_ok _ _ _ _ _ Hres).
  apply summary_inv in Hres as (_ & Hstrain & Hw & _).
  destruct (String.eqb_spec strain ref_strain) as [Heq | Hne].
  - exists (<["w" := PyInt 1]> res), (Some fit), w1.
    split; [reflexivity |]. split; [assumption |]. split; [| split].
    + split; [now rewrite lookup_insert_ne by discriminate |].
      split; [intros _; apply lookup_insert_eq |]. split; intros; contradiction.
    + intros _. now eexists.
    + intros; contradiction.
  - unfold py_in. case_bool_decide as Hin.
    + destruct (competition_returns cfg L fn strain ref_strain plate df fit ref_fit w1
                  HL (Href Hne Hin)) as (x & w2 & Hx & Hg2).
      rewrite (bind_ok _ _ _ _ _ Hx).
      exists (<["w" := x]> res), ref_fit, w2.
      split; [reflexivity |]. split; [now apply grows_trans with w1 |].
      split; [| split].
      * split; [now rewrite lookup_insert_ne by discriminate |].
        split; [intros; contradiction |].
        split; [intros _ _; rewrite lookup_insert_eq; now eexists |].
        intros; contradiction.
      * intros; contradiction.
      * reflexivity.
    + exists res, ref_fit, w1.
      split; [reflexivity |]. split; [assumption |]. split; [| split].
      * split; [assumption |]. split; [intros; contradiction |].
        split; [intros; contradiction | intros; assumption].
      * intros; contradiction.
      * reflexivity.
Qed.

Lemma fit_strains_returns (cfg : Config) (L : Library) (fn filepath : string)
    (plate : Plate) (df : DataFrame) (strains : list string) (ref_strain : string) :
  library_returns L ->
  forall (todo : list string) (ref_fit : option Fit) (results : list Result) (w : World),
    (ref_strain ∈ strains -> is_Some ref_fit \/ exists rest, todo = ref_strain :: rest) ->
    exists new w',
      fit_strains cfg L fn filepath plate df strains ref_strain todo ref_fit results w
      = (Ok (results ++ new), w')
      /\ grows w w'
      /\ Forall2 (fitness_entry strains ref_strain) todo new.
Proof.
  intros HL. induction todo as [| strain todo IH]; intros ref_fit results w Href.
  - exists [], w. cbn. rewrite app_nil_r.
    split; [reflexivity |]. split; [apply grows_refl | constructor].
  - cbn [fit_strains].
    destruct (fit_strain_returns cfg L fn filepath plate df strains ref_strain strain
                ref_fit w HL) as (res & rf' & w1 & Hbody & Hg1 & Hentry & Hset & Hkeep).
    { intros Hne Hin. destruct (Href Hin) as [? | [rest [= ? _]]]; [assumption |].
      now contradiction Hne. }
    rewrite (bind_ok _ _ _ _ _ Hbody).
    destruct (IH rf' (results ++ [res]) w1) as (new & w2 & Hloop & Hg2 & Hall).
    { intros Hin. left. destruct (decide (strain = ref_strain)) as [Heq | Hne].
      - now apply Hset.
      - rewrite (Hkeep Hne). destruct (Href Hin) as [? | [rest [= ? _]]]; [assumption |].
        now contradiction Hne. }
    exists (res :: new), w2. rewrite Hloop, <- app_assoc.
    split; [reflexivity |]. split; [now apply grows_trans with w1 |].
    now constructor.
Qed.

(** ** [process_file] when the libraries return *)

Lemma read_data_ok
    (handler : string -> Plate -> option float -> outcome DataFrame)
    (filepath ext : string) (plate : Plate) (max_time : float) (df : DataFrame)
    (w : World) :
  parsed handler filepath plate max_time = Ok df ->
  read_data handler filepath ext plate max_time w = (Ok df, w).
Proof. intros H. unfold read_data, try_except, call. now rewrite H. Qed.

Lemma plot_file_returns (cfg : Config) (L : Library) (fn : string) (df : DataFrame)
    (w : World) :
  library_returns L ->
  exists w', plot_file cfg L fn df w = (Ok tt, w') /\ grows w w'.
Proof.
  intros HL. unfold plot_file. destruct (PLOT cfg).
  - rewrite (bind_call_ok _ _ _ _ (plot_wells_returns _ HL df _)).
    match goal with |- context [echo_info cfg ?m ≫= _] =>
      destruct (echo_info_returns cfg m w) as (w1 & He1 & Hg1) end.
    rewrite (bind_ok _ _ _ _ _ He1).
    rewrite (bind_call_ok _ _ _ _ (plot_strains_returns _ HL df _)).
    match goal with |- context [echo_info cfg ?m w1] =>
      destruct (echo_info_returns cfg m w1) as (w2 & He2 & Hg2) end.
    exists w2. split; [assumption | now apply grows_trans with w1].
  - exists w. split; [reflexivity | apply grows_refl].
Qed.

Lemma grows_elem_of (w w' : World) (l : Line) :
  grows w w' -> l ∈ console w -> l ∈ console w'.
Proof. intros [[k ->] _] Hl. apply elem_of_app. now left. Qed.

Lemma order_of_head (strains : list string) (blank_strain : option string)
    (ref_strain : string) :
  ref_strain ∈ order_of strains blank_strain ref_strain ->
  exists rest, order_of strains blank_strain ref_strain = ref_strain :: rest.
Proof.
  unfold order_of, py_in. case_bool_decide as Hin; [eauto | contradiction].
Qed.

Lemma process_file_returns
    (cfg : Config) (L : Library) (filepath : string) (plate : Plate)
    (blank_strain : option string) (ref_strain : string) (max_time : float)
    (fn ext : string) (handler : string -> Plate -> option float -> outcome DataFrame)
    (df0 : DataFrame) (w : World) :
  library_returns L ->
  Py.splitext filepath = (fn, ext) ->
  file_extension_handlers L !! ext = Some handler ->
  parsed handler filepath plate max_time = Ok df0 ->
  exists rs w',
    process_file cfg L filepath plate blank_strain ref_strain max_time w = (Ok rs, w')
    /\ grows w w'
    /\ Forall2
         (fitness_entry (order_of (unique (map pl_Strain plate)) blank_strain ref_strain)
            ref_strain)
         (order_of (unique (map pl_Strain plate)) blank_strain ref_strain) rs
    /\ (ref_strain ∉ candidates (unique (map pl_Strain plate)) blank_strain ->
        missing_reference_warning ref_strain ∈ console w').
Proof.
  intros HL Hext Hhandler Hparsed. unfold process_file. rewrite Hext, Hhandler.
  rewrite (bind_ok _ _ _ _ _ (read_data_ok handler filepath ext plate max_time df0 w Hparsed)).
  set (strains := unique (map pl_Strain plate)).
  destruct (correct_background_corrected df0 blank_strain strains w)
    as (w1 & Hcorr & Hw1 & Hc1).
  rewrite (bind_ok _ _ _ _ _ Hcorr).
  destruct (plot_file_returns cfg L fn (corrected df0 blank_strain strains) w1 HL)
    as (w2 & Hplot & Hg2).
  rewrite (bind_ok _ _ _ _ _ Hplot).
  rewrite (bind_ok _ _ _ _ _ (iteration_order_returns strains blank_strain ref_strain w2)).
  set (order := order_of strains blank_strain ref_strain).
  set (w3 := if py_in ref_strain (candidates strains blank_strain) then w2 else _).
  rewrite progressbar_unfold.
  destruct (fit_strains_returns cfg L fn filepath plate
              (corrected df0 blank_strain strains) order ref_strain HL order None []
              {| console := console w3 ++ [ProgressBar "Fitting strain growth curves"];
                 written := written w3 |})
    as (rs & w' & Hloop & Hg4 & Hall).
  { intros Hin. right. now apply order_of_head. }
  exists rs, w'. split; [exact Hloop |].
  assert (Hg23 : grows w2 w3).
  { subst w3. destruct (py_in _ _); [apply grows_refl | apply grows_print]. }
  assert (Hg3 : grows w3 w') by (eapply grows_trans; [apply grows_print | exact Hg4]).
  split; [| split; [exact Hall |]].
  - apply grows_trans with w1; [now split |].
    apply grows_trans with w2; [assumption |]. now apply grows_trans with w3.
  - intros Hout. apply (grows_elem_of w3 w' _ Hg3).
    subst w3. rewrite (py_in_false _ _ Hout). cbn. apply elem_of_app. right.
    apply list_elem_of_here.
Qed.

Lemma Forall2_right {A B} (P : A -> B -> Prop) (Q : B -> Prop) (l : list A) (k : list B) :
  Forall2 P l k -> (forall x y, x ∈ l -> P x y -> Q y) -> Forall Q k.
Proof.
  induction 1 as [| x y l k Hxy _ IH]; intros HQ; constructor.
  - apply (HQ x); [apply list_elem_of_here | assumption].
  - apply IH. intros x' y' Hin. apply HQ. now right.
Qed.

(** ** What a returned run tells of the calls it made *)

Lemma fit_and_plot_inv (cfg : Config) (L : Library) (fn strain : string)
    (d : DataFrame) (w w' : World) (frs : list Fit) :
  fit_and_plot cfg L fn strain d w = (Ok frs, w') ->
  exists out,
    fit_model L d (PLOT cfg) (VERBOSE cfg) = Ok out
    /\ fits out = frs
    /\ forall fig, figure_of out = Some fig ->
         savefig L fig (fn +:+ "_strain_" +:+ strain +:+ ".png") = Ok tt.
Proof.
  unfold fit_and_plot. intros H.
  apply bind_ok_inv in H as (out & w1 & Hout & H). apply call_inv in Hout as [Hout ->].
  exists out. split; [exact Hout |]. clear Hout. revert out H.
  destruct (PLOT cfg); intros out H.
  - destruct out as [frs' fig].
    apply bind_ok_inv in H as ([] & w1 & Hs & H). apply call_inv in Hs as [Hs ->].
    apply bind_ok_inv in H as ([] & w2 & _ & H). injection H as <- <-.
    split; [reflexivity |]. intros fig' [= <-]. exact Hs.
  - injection H as <- <-. split; [reflexivity |]. intros fig [=].
Qed.

Lemma competition_inv (cfg : Config) (L : Library) (fn strain ref_strain : string)
    (plate : Plate) (df : DataFrame) (fit : Fit) (ref_fit : option Fit)
    (w w' : World) (x : pyval) :
  competition cfg L fn strain ref_strain plate df fit ref_fit w = (Ok x, w') ->
  exists rf cout,
    ref_fit = Some rf
    /\ compete L fit rf (nanmax (map Time df)) (colors_of plate strain ref_strain) (PLOT cfg)
       = Ok cout
    /\ forall fig, figure_of cout = Some fig ->
         savefig L fig (fn +:+ "_" +:+ strain +:+ "_vs_" +:+ ref_strain +:+ ".png") = Ok tt.
Proof.
  unfold competition. intros H.
  apply bind_ok_inv in H as (rf & w1 & Hrf & H).
  destruct ref_fit as [rf' |]; [| discriminate Hrf]. injection Hrf as -> <-.
  apply bind_ok_inv in H as (cout & w1 & Hc & H). apply call_inv in Hc as [Hc ->].
  exists rf, cout. split; [reflexivity |]. split; [exact Hc |]. clear Hc.
  apply bind_ok_inv in H as (y & w1 & Hy & _). revert cout Hy.
  destruct (PLOT cfg); intros cout Hy.
  - destruct cout as [y' fig].
    apply bind_ok_inv in Hy as ([] & w2 & Hs & _). apply call_inv in Hs as [Hs _].
    intros fig' [= <-]. exact Hs.
  - intros fig [=].
Qed.

Lemma first_fit_of_call (cfg : Config) (L : Library) (df : DataFrame) (strain : string)
    (out : with_figure (Figure L) (list Fit) (PLOT cfg)) (fit : Fit) :
  fit_model L (rows_of strain df) (PLOT cfg) (VERBOSE cfg) = Ok out ->
  head (fits out) = Some fit ->
  first_fit cfg L df strain = Some fit.
Proof. intros Hout Hfit. unfold first_fit. now rewrite Hout. Qed.

Lemma fit_strain_inv (cfg : Config) (L : Library) (fn filepath : string)
    (plate : Plate) (df : DataFrame) (strains : list string)
    (ref_strain strain : string) (ref_fit ref_fit' : option Fit)
    (w w' : World) (res : Result) :
  fit_strain cfg L fn filepath plate df strains ref_strain strain ref_fit w
  = (Ok (res, ref_fit'), w') ->
  (forall f, ref_fit = Some f -> first_fit cfg L df ref_strain = Some f) ->
  strain_fitted cfg L fn plate df strains ref_strain strain res
  /\ fitness_entry strains ref_strain strain res
  /\ (forall f, ref_fit' = Some f -> first_fit cfg L df ref_strain = Some f).
Proof.
  unfold fit_strain. intros H Hinv.
  apply bind_ok_inv in H as (frs & w1 & Hfit & H).
  apply fit_and_plot_inv in Hfit as (out & Hout & Hfits & Hfig).
  apply bind_ok_inv in H as (fit & w2 & Hfirst & H).
  apply first_item_inv in Hfirst as [Hfirst ->].
  apply bind_ok_inv in H as (res0 & w2 & Hsum & H).
  apply summary_inv in Hsum as (-> & Hstrain & Hw & Hnu & Hq0 & Hv).
  assert (Hdef : forall x, uses_defaults fit (<["w" := x]> res0) /\ uses_defaults fit res0).
  { intros x. unfold uses_defaults, entry_or_default.
    rewrite !lookup_insert_ne by discriminate. rewrite Hnu, Hq0, Hv.
    repeat split; intros; simplify_eq; try reflexivity;
      match goal with Hp : params fit !! _ = _ |- _ => now rewrite Hp end. }
  subst frs.
  destruct (String.eqb_spec strain ref_strain) as [Heq | Hne].
  - injection H as <- <- <-. split; [| split].
    + exists out, fit. split; [exact Hout |]. split; [exact Hfirst |].
      split; [exact Hfig |]. split; [now rewrite lookup_insert_ne by discriminate |].
      split; [apply Hdef |]. intros; contradiction.
    + split; [now rewrite lookup_insert_ne by discriminate |].
      split; [intros _; apply lookup_insert_eq |]. split; intros; contradiction.
    + intros f [= <-]. subst strain. now apply (first_fit_of_call cfg L df _ out).
  - unfold py_in in H. case_bool_decide as Hin.
    + apply bind_ok_inv in H as (x & w2 & Hcomp & H). injection H as <- <- <-.
      apply competition_inv in Hcomp as (rf & cout & -> & Hc & Hcfig).
      split; [| split; [| exact Hinv]].
      * exists out, fit. split; [exact Hout |]. split; [exact Hfirst |].
        split; [exact Hfig |]. split; [now rewrite lookup_insert_ne by discriminate |].
        split; [apply Hdef |]. intros _ _. exists rf, cout.
        split; [now apply Hinv |]. split; assumption.
      * split; [now rewrite lookup_insert_ne by discriminate |].
        split; [intros; contradiction |].
        split; [intros _ _; rewrite lookup_insert_eq; now eexists |].
        intros; contradiction.
    + injection H as <- <- <-. split; [| split; [| exact Hinv]].
      * exists out, fit. split; [exact Hout |]. split; [exact Hfirst |].
        split; [exact Hfig |]. split; [exact Hstrain |].
        split; [apply (Hdef PyNone) |]. intros; contradiction.
      * split; [assumption |]. split; [intros; contradiction |].
        split; [intros; contradiction | intros; assumption].
Qed.

Lemma fit_strains_inv (cfg : Config) (L : Library) (fn filepath : string)
    (plate : Plate) (df : DataFrame) (strains : list string) (ref_strain : string) :
  forall (todo : list string) (ref_fit : option Fit) (results rs : list Result)
         (w w' : World),
    fit_strains cfg L fn filepath plate df strains ref_strain todo ref_fit results w
    = (Ok rs, w') ->
    (forall f, ref_fit = Some f -> first_fit cfg L df ref_strain = Some f) ->
    exists new,
      rs = results ++ new
      /\ Forall2
           (fun strain res =>
              strain_fitted cfg L fn plate df strains ref_strain strain res
              /\ fitness_entry strains ref_strain strain res)
           todo new.
Proof.
  induction todo as [| strain todo IH]; intros ref_fit results rs w w' H Hinv.
  - injection H as <- <-. exists []. split; [now rewrite app_nil_r | constructor].
  - cbn [fit_strains] in H.
    apply bind_ok_inv in H as ([res rf'] & w1 & Hbody & H).
    apply fit_strain_inv in Hbody as (Hfitted & Hentry & Hinv'); [| exact Hinv].
    apply IH in H as (new & -> & Hall); [| exact Hinv'].
    exists (res :: new). split; [now rewrite <- app_assoc | now constructor].
Qed.

Lemma read_data_inv
    (handler : string -> Plate -> option float -> outcome DataFrame)
    (filepath ext : string) (plate : Plate) (max_time : float) (df : DataFrame)
    (w w' : World) :
  read_data handler filepath ext plate max_time w = (Ok df, w') ->
  parsed handler filepath plate max_time = Ok df.
Proof.
  unfold read_data, try_except, call, ioerror_to_click_exception, raise.
  destruct (parsed handler filepath plate max_time) as [df' | []]; cbn; congruence.
Qed.

Lemma plot_file_inv (cfg : Config) (L : Library) (fn : string) (df : DataFrame)
    (w w' : World) (u : unit) :
  plot_file cfg L fn df w = (Ok u, w') ->
  PLOT cfg = true ->
  plot_wells L df (fn +:+ "_wells.png") = Ok tt
  /\ plot_strains L df (fn +:+ "_strains.png") = Ok tt.
Proof.
  unfold plot_file. intros H Hp. rewrite Hp in H.
  apply bind_ok_inv in H as ([] & w1 & Hw & H). apply call_inv in Hw as [Hw ->].
  apply bind_ok_inv in H as ([] & w1 & _ & H).
  apply bind_ok_inv in H as ([] & w2 & Hs & _). apply call_inv in Hs as [Hs _].
  now split.
Qed.

Lemma process_file_inv
    (cfg : Config) (L : Library) (filepath : string) (plate : Plate)
    (blank_strain : option string) (ref_strain : string) (max_time : float)
    (fn ext : string) (handler : string -> Plate -> option float -> outcome DataFrame)
    (w w' : World) (rs : list Result) :
  Py.splitext filepath = (fn, ext) ->
  file_extension_handlers L !! ext = Some handler ->
  process_file cfg L filepath plate blank_strain ref_strain max_time w = (Ok rs, w') ->
  exists df0,
    parsed handler filepath plate max_time = Ok df0
    /\ (PLOT cfg = true ->
        plot_wells L (corrected df0 blank_strain (unique (map pl_Strain plate)))
          (fn +:+ "_wells.png") = Ok tt
        /\ plot_strains L (corrected df0 blank_strain (unique (map pl_Strain plate)))
             (fn +:+ "_strains.png") = Ok tt)
    /\ Forall2
         (fun strain res =>
            strain_fitted cfg L fn plate
              (corrected df0 blank_strain (unique (map pl_Strain plate)))
              (order_of (unique (map pl_Strain plate)) blank_strain ref_strain)
              ref_strain strain res
            /\ fitness_entry
                 (order_of (unique (map pl_Strain plate)) blank_strain ref_strain)
                 ref_strain strain res)
         (order_of (unique (map pl_Strain plate)) blank_strain ref_strain) rs.
Proof.
  intros Hext Hhandler. unfold process_file. rewrite Hext, Hhandler. intros H.
  apply bind_ok_inv in H as (df0 & w1 & Hread & H). apply read_data_inv in Hread.
  exists df0. split; [exact Hread |].
  apply bind_ok_inv in H as (df & w2 & Hcorr & H).
  destruct (correct_background_corrected df0 blank_strain
              (unique (map pl_Strain plate)) w1) as (w2' & Hcorr' & _).
  rewrite Hcorr' in Hcorr. injection Hcorr as <- <-.
  apply bind_ok_inv in H as ([] & w3 & Hplot & H).
  split; [intros Hp; now apply (plot_file_inv cfg L fn _ _ _ _ Hplot) |].
  apply bind_ok_inv in H as (order & w4 & Horder & H).
  rewrite iteration_order_returns in Horder. injection Horder as <- <-.
  apply fit_strains_inv in H as (new & -> & Hall); [exact Hall | intros f [=]].
Qed.

(** ** C2: the reference strain comes first and has fitness 1 *)

Lemma demo_library_returns : library_returns Demo.lib.
Proof.
  constructor; intros; try reflexivity; try (eexists; reflexivity).
  - destruct plot; eexists _, _, _; (split; [reflexivity |]); (split; [reflexivity |]);
      unfold Demo.fit_of; cbn [params];
      destruct (existsb _ d); repeat split; eexists; reflexivity.
  - eexists _, _. split; reflexivity.
Qed.

(** A run that returns without a handler returns no record. *)
(** The run of [Demo] returns its records. *)
Lemma demo_run_returns :
  process_file (mkConfig false true false) Demo.lib "data/a.xlsx" Demo.plate (Some "0") "1"
    infinity (mkWorld [] [])
  = (Ok Demo.records, snd Demo.run).
Proof.
  assert (H : match fst Demo.run with Ok _ => true | Raise _ => false end = true)
    by (vm_compute; reflexivity).
  unfold Demo.records. fold Demo.run.
  destruct Demo.run as [[rs | e] w']; [reflexivity | discriminate H].
Qed.

Lemma process_file_no_handler
    (cfg : Config) (L : Library) (filepath : string) (plate : Plate)
    (blank_strain : option string) (ref_strain : string) (max_time : float)
    (w w' : World) (rs : list Result) :
  file_extension_handlers L !! snd (Py.splitext filepath) = None ->
  process_file cfg L filepath plate blank_strain ref_strain max_time w = (Ok rs, w') ->
  rs = [].
Proof.
  unfold process_file. destruct (Py.splitext filepath) as [fn ext]. cbn [snd].
  intros -> H. apply bind_ok_inv in H as ([] & w1 & _ & H). now injection H as <- _.
Qed.

(** C2, as stated, fails: with the plate strains [0], [1], [2] and the
    strain [1] given both as blank and as reference, the reference strain
    is among the plate's strains, yet the fitting order is [0], [2]: the
    reference strain is not its first element, and no record has fitness 1. *)
Lemma reference_first_counterexample :
  "1" ∈ unique (map pl_Strain Demo.plate)
  /\ fst (iteration_order (unique (map pl_Strain Demo.plate)) (Some "1") "1" (mkWorld [] []))
     = Ok ["0"; "2"]
  /\ exists rs,
       fst (process_file (mkConfig false false false) Demo.lib "data/a.xlsx" Demo.plate
              (Some "1") "1" infinity (mkWorld [] [])) = Ok rs
       /\ map (fun res : Result => (res !! "strain", res !! "w")) rs
          = [(Some (PyStr "0"), None); (Some (PyStr "2"), None)].
Proof.
  split; [| split].
  - vm_compute. apply list_elem_of_further, list_elem_of_here.
  - reflexivity.
  - match goal with |- exists rs, ?run = Ok rs /\ map ?f rs = ?l =>
      assert (H : match run with Ok rs => Some (map f rs) | Raise _ => None end = Some l)
        by (vm_compute; reflexivity);
      destruct run as [rs | e];
        [exists rs; split; [reflexivity | now injection H] | discriminate H]
    end.
Qed.

(** C2, amended.  Whenever the reference strain is among the plate's
    strains and is not also the blank strain, it is the first strain of the
    fitting order.  For a file whose extension has a handler, every run of
    [process_file] that returns has as its first record the record of the
    reference strain, with fitness [w = 1]; and the run does return, with
    one record for each strain of the fitting order, when the parser
    returns a table and every library call returns. *)
Theorem reference_first_unit_fitness
    (cfg : Config) (L : Library) (filepath : string) (plate : Plate)
    (blank_strain : option string) (ref_strain : string) (max_time : float)
    (fn ext : string) (handler : string -> Plate -> option float -> outcome DataFrame)
    (w : World) :
  Py.splitext filepath = (fn, ext) ->
  file_extension_handlers L !! ext = Some handler ->
  ref_strain ∈ unique (map pl_Strain plate) ->
  blank_strain <> Some ref_strain ->
  exists rest : list string,
    fst (iteration_order (unique (map pl_Strain plate)) blank_strain ref_strain w)
    = Ok (ref_strain :: rest)
    /\ (forall (rs : list Result) (w' : World),
          process_file cfg L filepath plate blank_strain ref_strain max_time w = (Ok rs, w') ->
          exists (res : Result) (rs' : list Result),
            rs = res :: rs'
            /\ res !! "strain" = Some (PyStr ref_strain)
            /\ res !! "w" = Some (PyInt 1)
            /\ length rs' = length rest)
    /\ (library_returns L ->
        (exists df0, parsed handler filepath plate max_time = Ok df0) ->
        exists (rs : list Result) (w' : World),
          process_file cfg L filepath plate blank_strain ref_strain max_time w
          = (Ok rs, w')).
Proof.
  intros Hext Hhandler Hin Hblank.
  assert (Hcand : ref_strain ∈ candidates (unique (map pl_Strain plate)) blank_strain).
  { destruct blank_strain as [blank |]; [| exact Hin]. cbn.
    apply without_keeps; [exact Hin | congruence]. }
  rewrite iteration_order_returns. cbn [fst].
  assert (Horder : order_of (unique (map pl_Strain plate)) blank_strain ref_strain
                   = ref_strain :: without ref_strain
                       (candidates (unique (map pl_Strain plate)) blank_strain)).
  { unfold order_of. now rewrite (py_in_true _ _ Hcand). }
  rewrite Horder. eexists. split; [reflexivity |]. split.
  - intros rs w' Hrun.
    apply (process_file_inv cfg L filepath plate blank_strain ref_strain max_time
             fn ext handler) in Hrun as (df0 & _ & _ & Hall); try assumption.
    rewrite Horder in Hall.
    inversion Hall as [| s res rest' rs' [_ Hentry] Hrest]; subst.
    destruct Hentry as (Hstrain & Hw & _).
    exists res, rs'. split; [reflexivity |]. split; [exact Hstrain |].
    split; [now apply Hw |]. symmetry. eapply Forall2_length, Hrest.
  - intros HL [df0 Hparsed].
    destruct (process_file_returns cfg L filepath plate blank_strain ref_strain max_time
                fn ext handler df0 w HL Hext Hhandler Hparsed) as (rs & w' & Hrun & _).
    eauto.
Qed.

Lemma reference_first_unit_fitness_witness :
  exists (res : Result) (rs : list Result) (w' : World),
    process_file (mkConfig true true false) Demo.lib "data/a.xlsx" Demo.plate
      (Some "0") "1" infinity (mkWorld [] []) = (Ok (res :: rs), w')
    /\ res !! "strain" = Some (PyStr "1")
    /\ res !! "w" = Some (PyInt 1).
Proof.
  destruct (reference_first_unit_fitness (mkConfig true true false) Demo.lib "data/a.xlsx"
              Demo.plate (Some "0") "1" infinity "data/a" ".xlsx"
              (read_tecan_xlsx Demo.lib) (mkWorld [] []))
    as (rest & _ & Hfirst & Hruns).
  - reflexivity.
  - reflexivity.
  - vm_compute. apply list_elem_of_further, list_elem_of_here.
  - discriminate.
  - destruct Hruns as (rs & w' & Hrun).
    + exact demo_library_returns.
    + exists Demo.table. reflexivity.
    + destruct (Hfirst rs w' Hrun) as (res & rs' & -> & Hstrain & Hw & _).
      exists res, rs', w'. repeat split; assumption.
Defined.

(** ** C3: no reference strain on the plate *)

Lemma no_reference_no_fitness
    (cfg : Config) (L : Library) (filepath : string) (plate : Plate)
    (blank_strain : option string) (ref_strain : string) (max_time : float)
    (w w' : World) (rs : list Result) :
  ref_strain ∉ order_of (unique (map pl_Strain plate)) blank_strain ref_strain ->
  process_file cfg L filepath plate blank_strain ref_strain max_time w = (Ok rs, w') ->
  Forall (fun res : Result =>
            res !! "strain" <> Some (PyStr ref_strain) /\ res !! "w" = None) rs.
Proof.
  intros Hout Hrun.
  destruct (file_extension_handlers L !! snd (Py.splitext filepath))
    as [handler |] eqn:Hhandler.
  - assert (Hext : Py.splitext filepath
                   = (fst (Py.splitext filepath), snd (Py.splitext filepath)))
      by now destruct (Py.splitext filepath).
    destruct (process_file_inv cfg L filepath plate blank_strain ref_strain max_time
                _ _ handler w w' rs Hext Hhandler Hrun) as (df0 & _ & _ & Hall).
    apply (Forall2_right _ _ _ _ Hall).
    intros s res Hs [_ (Hstrain & _ & _ & Hnone)].
    assert (Hne : s <> ref_strain) by (intros ->; now apply Hout).
    split; [rewrite Hstrain; congruence | now apply Hnone].
  - rewrite (process_file_no_handler _ _ _ _ _ _ _ _ _ _ Hhandler Hrun). constructor.
Qed.

Lemma records_follow_order
    (strains order : list string) (ref_strain : string) (rs : list Result) :
  Forall2 (fitness_entry strains ref_strain) order rs ->
  map (fun res : Result => res !! "strain") rs = map (fun s => Some (PyStr s)) order.
Proof.
  induction 1 as [| s res l k [Hs _] _ IH]; [reflexivity |]. cbn. now rewrite Hs, IH.
Qed.

(** C3.  If the reference strain is not among the plate's strains, no
    record that [process_file] returns for the file has an entry [w].  For
    a file whose extension has a handler, whose parser returns a table and
    for which every library call returns, [process_file] prints the warning
    of the missing reference strain and goes on to return one record for
    each strain of the plate other than the blank, in order. *)
Theorem missing_reference_no_fitness
    (cfg : Config) (L : Library) (filepath : string) (plate : Plate)
    (blank_strain : option string) (ref_strain : string) (max_time : float)
    (w : World) :
  ref_strain ∉ unique (map pl_Strain plate) ->
  (forall (rs : list Result) (w' : World),
     process_file cfg L filepath plate blank_strain ref_strain max_time w = (Ok rs, w') ->
     Forall (fun res : Result => res !! "w" = None) rs)
  /\ (forall (fn ext : string)
             (handler : string -> Plate -> option float -> outcome DataFrame)
             (df0 : DataFrame),
        library_returns L ->
        Py.splitext filepath = (fn, ext) ->
        file_extension_handlers L !! ext = Some handler ->
        parsed handler filepath plate max_time = Ok df0 ->
        exists (rs : list Result) (w' : World),
          process_file cfg L filepath plate blank_strain ref_strain max_time w = (Ok rs, w')
          /\ missing_reference_warning ref_strain ∈ console w'
          /\ map (fun res : Result => res !! "strain") rs
             = map (fun s => Some (PyStr s))
                 (candidates (unique (map pl_Strain plate)) blank_strain)).
Proof.
  intros Hout.
  assert (Hcand : ref_strain ∉ candidates (unique (map pl_Strain plate)) blank_strain).
  { destruct blank_strain as [blank |]; [| exact Hout]. cbn.
    intros H. apply Hout. eapply without_subset, H. }
  assert (Horder : order_of (unique (map pl_Strain plate)) blank_strain ref_strain
                   = candidates (unique (map pl_Strain plate)) blank_strain).
  { unfold order_of. now rewrite (py_in_false _ _ Hcand). }
  split.
  - intros rs w' Hrun.
    eapply Forall_impl; [eapply no_reference_no_fitness; [| exact Hrun] |].
    + now rewrite Horder.
    + now intros res [_ Hw].
  - intros fn ext handler df0 HL Hext Hhandler Hparsed.
    destruct (process_file_returns cfg L filepath plate blank_strain ref_strain max_time
                fn ext handler df0 w HL Hext Hhandler Hparsed)
      as (rs & w' & Hrun & _ & Hall & Hwarn).
    exists rs, w'. split; [exact Hrun |]. split; [now apply Hwarn |].
    rewrite <- Horder. eapply records_follow_order, Hall.
Qed.

Lemma missing_reference_no_fitness_witness :
  exists (rs : list Result) (w' : World),
    process_file (mkConfig false false false) Demo.lib "data/a.xlsx" Demo.plate
      (Some "0") "7" infinity (mkWorld [] []) = (Ok rs, w')
    /\ missing_reference_warning "7" ∈ console w'
    /\ length rs = 2%nat
    /\ Forall (fun res : Result => res !! "w" = None) rs.
Proof.
  destruct (missing_reference_no_fitness (mkConfig false false false) Demo.lib "data/a.xlsx"
              Demo.plate (Some "0") "7" infinity (mkWorld [] []))
    as [Hnone Hruns].
  - vm_compute. intros H.
    repeat (apply elem_of_cons in H as [H | H]; [discriminate H |]).
    now apply elem_of_nil in H.
  - destruct (Hruns "data/a" ".xlsx" (read_tecan_xlsx Demo.lib) Demo.table)
      as (rs & w' & Hrun & Hwarn & Hstrains).
    + exact demo_library_returns.
    + reflexivity.
    + reflexivity.
    + reflexivity.
    + exists rs, w'. split; [exact Hrun |]. split; [exact Hwarn |].
      split; [| exact (Hnone rs w' Hrun)].
      apply (f_equal length) in Hstrains. rewrite !length_map in Hstrains. exact Hstrains.
Defined.

(** ** C10: the blank strain and the reference strain coincide *)

(** C10.  When the same strain is given as blank and as reference and is
    among the plate's strains, it leaves the list as the blank before the
    reference is looked for: the fitting order does not contain it, and
    whatever records [process_file] returns for the file, none is a record
    of that strain and none has an entry [w].  For a file whose extension
    has a handler, whose parser returns a table and for which every library
    call returns, [process_file] prints the warning of the missing
    reference strain and returns one record for each strain of the fitting
    order. *)
Theorem blank_is_reference
    (cfg : Config) (L : Library) (filepath : string) (plate : Plate)
    (ref_strain : string) (max_time : float) (w : World) :
  ref_strain ∈ unique (map pl_Strain plate) ->
  exists order : list string,
    fst (iteration_order (unique (map pl_Strain plate)) (Some ref_strain) ref_strain w)
    = Ok order
    /\ (ref_strain ∉ order)
    /\ (forall (rs : list Result) (w' : World),
          process_file cfg L filepath plate (Some ref_strain) ref_strain max_time w
          = (Ok rs, w') ->
          Forall (fun res : Result =>
                    res !! "strain" <> Some (PyStr ref_strain) /\ res !! "w" = None) rs)
    /\ (forall (fn ext : string)
               (handler : string -> Plate -> option float -> outcome DataFrame)
               (df0 : DataFrame),
          library_returns L ->
          Py.splitext filepath = (fn, ext) ->
          file_extension_handlers L !! ext = Some handler ->
          parsed handler filepath plate max_time = Ok df0 ->
          exists (rs : list Result) (w' : World),
            process_file cfg L filepath plate (Some ref_strain) ref_strain max_time w
            = (Ok rs, w')
            /\ missing_reference_warning ref_strain ∈ console w'
            /\ map (fun res : Result => res !! "strain") rs
               = map (fun s => Some (PyStr s)) order).
Proof.
  intros Hin.
  assert (Hcand : ref_strain ∉ candidates (unique (map pl_Strain plate)) (Some ref_strain)).
  { cbn. apply without_absent, NoDup_unique. }
  assert (Horder : order_of (unique (map pl_Strain plate)) (Some ref_strain) ref_strain
                   = candidates (unique (map pl_Strain plate)) (Some ref_strain)).
  { unfold order_of. now rewrite (py_in_false _ _ Hcand). }
  rewrite iteration_order_returns. cbn [fst]. rewrite Horder.
  eexists. split; [reflexivity |]. split; [exact Hcand |]. split.
  - intros rs w' Hrun. eapply no_reference_no_fitness; [| exact Hrun].
    now rewrite Horder.
  - intros fn ext handler df0 HL Hext Hhandler Hparsed.
    destruct (process_file_returns cfg L filepath plate (Some ref_strain) ref_strain
                max_time fn ext handler df0 w HL Hext Hhandler Hparsed)
      as (rs & w' & Hrun & _ & Hall & Hwarn).
    exists rs, w'. split; [exact Hrun |]. split; [now apply Hwarn |].
    rewrite <- Horder. eapply records_follow_order, Hall.
Qed.

Lemma blank_is_reference_witness :
  exists (rs : list Result) (w' : World),
    process_file (mkConfig false false false) Demo.lib "data/a.xlsx" Demo.plate
      (Some "1") "1" infinity (mkWorld [] []) = (Ok rs, w')
    /\ missing_reference_warning "1" ∈ console w'
    /\ map (fun res : Result => res !! "strain") rs = [Some (PyStr "0"); Some (PyStr "2")]
    /\ Forall (fun res : Result =>
                 res !! "strain" <> Some (PyStr "1") /\ res !! "w" = None) rs.
Proof.
  destruct (blank_is_reference (mkConfig false false false) Demo.lib "data/a.xlsx"
              Demo.plate "1" infinity (mkWorld [] []))
    as (order & Horder & _ & Hnone & Hruns).
  - vm_compute. apply list_elem_of_further, list_elem_of_here.
  - destruct (Hruns "data/a" ".xlsx" (read_tecan_xlsx Demo.lib) Demo.table)
      as (rs & w' & Hrun & Hwarn & Hstrains).
    + exact demo_library_returns.
    + reflexivity.
    + reflexivity.
    + reflexivity.
    + exists rs, w'. split; [exact Hrun |]. split; [exact Hwarn |].
      split; [| exact (Hnone rs w' Hrun)].
      vm_compute in Horder. injection Horder as <-. exact Hstrains.
Defined.

(** ** C9: defaults of the higher-order parameters *)

(** C9.  Every record that [process_file] returns for a file belongs to a
    strain, and its entries [nu], [q0] and [v] are read off the best fit of
    that strain's rows of the corrected table: the parameter's value when
    the fit has the parameter, and otherwise the default, which is [1] for
    [nu], [0] for [q0] and [0] for [v]. *)
Theorem default_parameters
    (cfg : Config) (L : Library) (filepath : string) (plate : Plate)
    (blank_strain : option string) (ref_strain : string) (max_time : float)
    (fn ext : string) (handler : string -> Plate -> option float -> outcome DataFrame)
    (w w' : World) (rs : list Result) :
  Py.splitext filepath = (fn, ext) ->
  file_extension_handlers L !! ext = Some handler ->
  process_file cfg L filepath plate blank_strain ref_strain max_time w = (Ok rs, w') ->
  exists df0 : DataFrame,
    parsed handler filepath plate max_time = Ok df0
    /\ Forall
         (fun res : Result =>
            exists (strain : string) (fit : Fit),
              res !! "strain" = Some (PyStr strain)
              /\ first_fit cfg L
                   (corrected df0 blank_strain (unique (map pl_Strain plate))) strain
                 = Some fit
              /\ uses_defaults fit res)
         rs.
Proof.
  intros Hext Hhandler Hrun.
  apply (process_file_inv cfg L filepath plate blank_strain ref_strain max_time
           fn ext handler) in Hrun as (df0 & Hparsed & _ & Hall); try assumption.
  exists df0. split; [exact Hparsed |].
  apply (Forall2_right _ _ _ _ Hall).
  intros strain res _ [(out & fit & Hout & Hhead & _ & Hstrain & Hdef & _) _].
  exists strain, fit. split; [exact Hstrain |]. split; [| exact Hdef].
  now apply (first_fit_of_call cfg L _ _ out).
Qed.

Lemma default_parameters_witness :
  map (fun res : Result => (res !! "strain", res !! "nu", res !! "q0", res !! "v"))
    Demo.records
  = [ (Some (PyStr "1"), Some (PyInt 1), Some (PyInt 0), Some (PyInt 0));
      (Some (PyStr "2"), Some (PyFloat 2), Some (PyInt 0), Some (PyInt 0)) ]
  /\ exists df0 : DataFrame,
       parsed (read_tecan_xlsx Demo.lib) "data/a.xlsx" Demo.plate infinity = Ok df0
       /\ Forall
            (fun res : Result =>
               exists (strain : string) (fit : Fit),
                 res !! "strain" = Some (PyStr strain)
                 /\ first_fit (mkConfig false true false) Demo.lib
                      (corrected df0 (Some "0") (unique (map pl_Strain Demo.plate))) strain
                    = Some fit
                 /\ uses_defaults fit res)
            Demo.records.
Proof.
  split; [reflexivity |].
  apply (default_parameters (mkConfig false true false) Demo.lib "data/a.xlsx" Demo.plate
           (Some "0") "1" infinity "data/a" ".xlsx" (read_tecan_xlsx Demo.lib)
           (mkWorld [] []) (snd Demo.run) Demo.records).
  - reflexivity.
  - reflexivity.
  - exact demo_run_returns.
Defined.

(** ** C6: a plotting call that fails *)

Lemma Forall2_elem_left {A B} (P : A -> B -> Prop) (l : list A) (k : list B) (x : A) :
  Forall2 P l k -> x ∈ l -> exists y, P x y.
Proof.
  induction 1 as [| x' y l k Hxy _ IH]; intros Hin.
  - now apply elem_of_nil in Hin.
  - apply elem_of_cons in Hin as [-> | Hin]; eauto.
Qed.

(** C6, as stated, fails: with plotting enabled and a library whose wells
    plot raises, [process_file] raises that exception and returns no
    record, whereas with the same library apart from that failure it
    returns the two records of the file. *)
Lemma plotting_failure_counterexample :
  fst (process_file (mkConfig false true false) Demo.lib_wells_fail "data/a.xlsx"
         Demo.plate (Some "0") "1" infinity (mkWorld [] []))
  = Raise (LibraryError "plot_wells")
  /\ exists rs,
       fst (process_file (mkConfig false true false) Demo.lib "data/a.xlsx"
              Demo.plate (Some "0") "1" infinity (mkWorld [] [])) = Ok rs
       /\ length rs = 2%nat.
Proof.
  split; [reflexivity |].
  exists Demo.records. split; [now rewrite demo_run_returns |].
  vm_compute. reflexivity.
Qed.

(** C6, amended.  When plotting is enabled, a failure of a plotting call is
    not caught.  For a file whose extension has a handler and whose parser
    returns a table: if the wells plot or the strains plot of the corrected
    table raises, or the saving of the figure of the fit of a strain of the
    fitting order raises, or the saving of the figure of a competition
    against the reference strain raises, then [process_file] raises, and so
    returns no record. *)
Theorem plotting_failure_aborts
    (cfg : Config) (L : Library) (filepath : string) (plate : Plate)
    (blank_strain : option string) (ref_strain : string) (max_time : float)
    (fn ext : string) (handler : string -> Plate -> option float -> outcome DataFrame)
    (df0 : DataFrame) (w : World) :
  PLOT cfg = true ->
  Py.splitext filepath = (fn, ext) ->
  file_extension_handlers L !! ext = Some handler ->
  parsed handler filepath plate max_time = Ok df0 ->
  plot_call_fails cfg L fn plate
    (corrected df0 blank_strain (unique (map pl_Strain plate)))
    (order_of (unique (map pl_Strain plate)) blank_strain ref_strain) ref_strain ->
  exists (e : exn) (w' : World),
    process_file cfg L filepath plate blank_strain ref_strain max_time w = (Raise e, w').
Proof.
  intros Hplot Hext Hhandler Hparsed Hfail.
  destruct (process_file cfg L filepath plate blank_strain ref_strain max_time w)
    as [[rs | e] w'] eqn:Hrun; [exfalso | eauto].
  apply (process_file_inv cfg L filepath plate blank_strain ref_strain max_time
           fn ext handler) in Hrun as (df0' & Hparsed' & Hplots & Hall); try assumption.
  rewrite Hparsed in Hparsed'. injection Hparsed' as <-.
  destruct (Hplots Hplot) as [Hwells Hstrains]. clear Hplots.
  set (df := corrected df0 blank_strain (unique (map pl_Strain plate))) in *.
  set (order := order_of (unique (map pl_Strain plate)) blank_strain ref_strain) in *.
  destruct Hfail as [[e He] | [[e He] | [Hfit | Hcomp]]].
  - congruence.
  - congruence.
  - destruct Hfit as (strain & frs & fig & e & Hin & Hfit & Hsave).
    destruct (Forall2_elem_left _ _ _ _ Hall Hin)
      as (res & (out & fit & Hout & _ & Hfig & _) & _).
    destruct cfg as [verbose plot prompt]. cbn in *. subst plot.
    rewrite Hfit in Hout. injection Hout as <-.
    specialize (Hfig fig eq_refl). congruence.
  - destruct Hcomp as (strain & fit & rfit & y & fig & e & Hin & Hne & Href
                       & Hfit & Hrfit & Hcomp & Hsave).
    destruct (Forall2_elem_left _ _ _ _ Hall Hin)
      as (res & (out & fit' & Hout & Hhead & _ & _ & _ & Hc) & _).
    pose proof (first_fit_of_call _ _ _ _ _ _ Hout Hhead) as Hfit'.
    rewrite Hfit in Hfit'. injection Hfit' as <-.
    destruct (Hc Hne Href) as (rfit' & cout & Hrfit' & Hcout & Hcfig).
    rewrite Hrfit in Hrfit'. injection Hrfit' as <-.
    destruct cfg as [verbose plot prompt]. cbn in *. subst plot.
    rewrite Hcomp in Hcout. injection Hcout as <-.
    specialize (Hcfig fig eq_refl). congruence.
Qed.

Lemma plotting_failure_aborts_witness :
  exists (e : exn) (w' : World),
    process_file (mkConfig false true false) Demo.lib_wells_fail "data/a.xlsx" Demo.plate
      (Some "0") "1" infinity (mkWorld [] []) = (Raise e, w').
Proof.
  apply (plotting_failure_aborts (mkConfig false true false) Demo.lib_wells_fail
           "data/a.xlsx" Demo.plate (Some "0") "1" infinity "data/a" ".xlsx"
           (read_tecan_xlsx Demo.lib_wells_fail) Demo.table (mkWorld [] [])).
  - reflexivity.
  - reflexivity.
  - reflexivity.
  - reflexivity.
  - left. eexists. reflexivity.
Defined.

(** * Further properties *)

(** ** What a computation leaves of the state *)

Section Keeps.

Variable R : World -> World -> Prop.
Hypothesis R_refl : forall w, R w w.
Hypothesis R_trans : forall w1 w2 w3, R w1 w2 -> R w2 w3 -> R w1 w3.

Lemma keeps_ret {A} (a : A) : keeps R (mret a : M A).
Proof. intros w r w' [= _ <-]. apply R_refl. Qed.

Lemma keeps_raise {A} (e : exn) : keeps R (raise e : M A).
Proof. intros w r w' [= _ <-]. apply R_refl. Qed.

Lemma keeps_call {A} (o : outcome A) : keeps R (call o).
Proof. intros w r w' [= _ <-]. apply R_refl. Qed.

Lemma keeps_bind {A B} (m : M A) (f : A -> M B) :
  keeps R m -> (forall a, keeps R (f a)) -> keeps R (m ≫= f).
Proof.
  intros Hm Hf w r w'. unfold mbind, M_bind.
  destruct (m w) as [[a | e] w1] eqn:E; intros H.
  - apply R_trans with w1; [now apply (Hm w _ _ E) | now apply (Hf a w1 _ _ H)].
  - injection H as _ <-. now apply (Hm w _ _ E).
Qed.

Lemma keeps_try_except {A} (m : M A) (h : exn -> option (M A)) :
  keeps R m -> (forall e k, h e = Some k -> keeps R k) -> keeps R (try_except m h).
Proof.
  intros Hm Hh w r w'. unfold try_except.
  destruct (m w) as [[a | e] w1] eqn:E.
  - intros [= _ <-]. now apply (Hm w _ _ E).
  - destruct (h e) as [k |] eqn:Ek; intros H.
    + apply R_trans with w1; [now apply (Hm w _ _ E) | now apply (Hh e k Ek w1 _ _ H)].
    + injection H as _ <-. now apply (Hm w _ _ E).
Qed.

Lemma keeps_param_value (ps : gmap string Param) (k : string) : keeps R (param_value ps k).
Proof. unfold param_value. destruct (ps !! k); [apply keeps_ret | apply keeps_raise]. Qed.

Lemma keeps_first_item {A} (l : list A) : keeps R (first_item l).
Proof. destruct l; [apply keeps_raise | apply keeps_ret]. Qed.

Lemma keeps_last_item {A} (l : list A) : keeps R (last_item l).
Proof. unfold last_item. destruct (last l); [apply keeps_ret | apply keeps_raise]. Qed.

Lemma keeps_local {A} (name : string) (v : option A) : keeps R (local name v).
Proof. destruct v; [apply keeps_ret | apply keeps_raise]. Qed.

Lemma keeps_read_data
    (handler : string -> Plate -> option float -> outcome DataFrame)
    (filepath ext : string) (plate : Plate) (max_time : float) :
  keeps R (read_data handler filepath ext plate max_time).
Proof.
  apply keeps_try_except; [apply keeps_call |].
  intros [] k [= <-]; apply keeps_raise.
Qed.

Lemma keeps_load_plate (L : Library) (plate_path : string) :
  keeps R (load_plate L plate_path).
Proof.
  apply keeps_try_except; [apply keeps_call |].
  intros [] k [= <-]; apply keeps_raise.
Qed.

Lemma keeps_find_plate_file (os : OS) (L : Library) (plate_folder plate_file : string) :
  keeps R (find_plate_file os L plate_folder plate_file).
Proof.
  unfold find_plate_file. apply keeps_bind.
  - destruct (negb _); [apply keeps_call | apply keeps_ret].
  - intros p. destruct (negb _); [apply keeps_raise | apply keeps_ret].
Qed.

Section Loop.

Variable cfg : Config.
Variable L : Library.
Hypothesis info_kept : forall message, keeps R (echo_info cfg message).
Hypothesis bar_kept : forall label, keeps R (print (ProgressBar label)).

Lemma keeps_progressbar {A} (label : string) (body : M A) :
  keeps R body -> keeps R (progressbar label body).
Proof.
  intros Hbody. unfold progressbar.
  apply keeps_bind; [apply bar_kept | intros _; exact Hbody].
Qed.

Lemma keeps_fit_and_plot (fn strain : string) (d : DataFrame) :
  keeps R (fit_and_plot cfg L fn strain d).
Proof.
  unfold fit_and_plot. apply keeps_bind; [apply keeps_call |].
  destruct (PLOT cfg); intros out.
  - destruct out as [frs fig].
    apply keeps_bind; [apply keeps_call | intros _].
    apply keeps_bind; [apply info_kept | intros _; apply keeps_ret].
  - apply keeps_ret.
Qed.

Lemma keeps_summary (fn filepath strain : string) (frs : list Fit) (fit : Fit) :
  keeps R (summary cfg L fn filepath strain frs fit).
Proof.
  unfold summary.
  repeat first
    [ apply keeps_ret
    | apply keeps_bind;
        [first [apply keeps_call | apply keeps_param_value | apply keeps_last_item] | intros ?] ].
Qed.

Lemma keeps_competition (fn strain ref_strain : string) (plate : Plate) (df : DataFrame)
    (fit : Fit) (ref_fit : option Fit) :
  keeps R (competition cfg L fn strain ref_strain plate df fit ref_fit).
Proof.
  unfold competition.
  apply keeps_bind; [apply keeps_local | intros rf].
  apply keeps_bind; [apply keeps_call |].
  destruct (PLOT cfg); intros out.
  - destruct out as [y fig]. apply keeps_bind; [| intros ?; apply keeps_call].
    apply keeps_bind; [apply keeps_call | intros _].
    apply keeps_bind; [apply info_kept | intros _; apply keeps_ret].
  - apply keeps_bind; [apply keeps_ret | intros ?; apply keeps_call].
Qed.

Lemma keeps_fit_strain (fn filepath : string) (plate : Plate) (df : DataFrame)
    (strains : list string) (ref_strain strain : string) (ref_fit : option Fit) :
  keeps R (fit_strain cfg L fn filepath plate df strains ref_strain strain ref_fit).
Proof.
  unfold fit_strain.
  apply keeps_bind; [apply keeps_fit_and_plot | intros frs].
  apply keeps_bind; [apply keeps_first_item | intros fit].
  apply keeps_bind; [apply keeps_summary | intros res].
  destruct (String.eqb strain ref_strain); [apply keeps_ret |].
  destruct (py_in ref_strain strains); [| apply keeps_ret].
  apply keeps_bind; [apply keeps_competition | intros ?; apply keeps_ret].
Qed.

Lemma keeps_fit_strains (fn filepath : string) (plate : Plate) (df : DataFrame)
    (strains : list string) (ref_strain : string) (todo : list string) :
  forall (ref_fit : option Fit) (results : list Result),
    keeps R (fit_strains cfg L fn filepath plate df strains ref_strain todo ref_fit results).
Proof.
  induction todo as [| strain todo IH]; intros ref_fit results; cbn [fit_strains].
  - apply keeps_ret.
  - apply keeps_bind; [apply keeps_fit_strain | intros [res rf]; apply IH].
Qed.

Lemma keeps_plot_file (fn : string) (df : DataFrame) : keeps R (plot_file cfg L fn df).
Proof.
  unfold plot_file. destruct (PLOT cfg); [| apply keeps_ret].
  apply keeps_bind; [apply keeps_call | intros _].
  apply keeps_bind; [apply info_kept | intros _].
  apply keeps_bind; [apply keeps_call | intros _]. apply info_kept.
Qed.

(** [process_file] keeps what its messages keep. *)
Lemma keeps_process_file (filepath : string) (plate : Plate)
    (blank_strain : option string) (ref_strain : string) (max_time : float) :
  (forall df, keeps R (correct_background df blank_strain (unique (map pl_Strain plate)))) ->
  keeps R (iteration_order (unique (map pl_Strain plate)) blank_strain ref_strain) ->
  keeps R (process_file cfg L filepath plate blank_strain ref_strain max_time).
Proof.
  intros Hblank Horder. unfold process_file.
  destruct (Py.splitext filepath) as [fn ext].
  destruct (file_extension_handlers L !! ext) as [handler |].
  - apply keeps_bind; [apply keeps_read_data | intros df0].
    apply keeps_bind; [apply Hblank | intros df].
    apply keeps_bind; [apply keeps_plot_file | intros _].
    apply keeps_bind; [apply Horder | intros order].
    apply keeps_progressbar, keeps_fit_strains.
  - apply keeps_bind; [apply info_kept | intros _; apply keeps_ret].
Qed.

End Loop.

End Keeps.

(** ** Nothing is written before the end, nothing is printed in a quiet run *)

Lemma same_written_refl (w : World) : same_written w w.
Proof. reflexivity. Qed.

Lemma same_written_trans (w1 w2 w3 : World) :
  same_written w1 w2 -> same_written w2 w3 -> same_written w1 w3.
Proof. unfold same_written. congruence. Qed.

Lemma print_same_written (l : Line) : keeps same_written (print l).
Proof. intros w r w' [= _ <-]. reflexivity. Qed.

Lemma echo_info_same_written (cfg : Config) (message : string) :
  keeps same_written (echo_info cfg message).
Proof.
  unfold echo_info. destruct (VERBOSE cfg); [apply print_same_written |].
  apply keeps_ret, same_written_refl.
Qed.

Lemma correct_background_same_written
    (df : DataFrame) (blank_strain : option string) (strains : list string) :
  keeps same_written (correct_background df blank_strain strains).
Proof.
  intros w r w' H.
  destruct (correct_background_corrected df blank_strain strains w) as (w1 & E & Hw & _).
  rewrite E in H. injection H as _ <-. exact Hw.
Qed.

Lemma iteration_order_same_written
    (strains : list string) (blank_strain : option string) (ref_strain : string) :
  keeps same_written (iteration_order strains blank_strain ref_strain).
Proof.
  intros w r w'. rewrite iteration_order_returns. intros [= _ <-].
  destruct (py_in _ _); reflexivity.
Qed.

Lemma process_file_same_written
    (cfg : Config) (L : Library) (filepath : string) (plate : Plate)
    (blank_strain : option string) (ref_strain : string) (max_time : float) :
  keeps same_written (process_file cfg L filepath plate blank_strain ref_strain max_time).
Proof.
  apply keeps_process_file.
  - exact same_written_refl.
  - exact same_written_trans.
  - apply echo_info_same_written.
  - intros label. apply print_same_written.
  - intros df. apply correct_background_same_written.
  - apply iteration_order_same_written.
Qed.

Lemma echo_info_grows (cfg : Config) (message : string) :
  keeps grows (echo_info cfg message).
Proof.
  intros w r w' H. destruct (echo_info_returns cfg message w) as (w1 & E & Hg).
  rewrite E in H. now injection H as _ <-.
Qed.

Lemma iteration_order_grows
    (strains : list string) (blank_strain : option string) (ref_strain : string) :
  keeps grows (iteration_order strains blank_strain ref_strain).
Proof.
  intros w r w'. rewrite iteration_order_returns. intros [= _ <-].
  destruct (py_in _ _); [apply grows_refl | apply grows_print].
Qed.

Lemma correct_background_grows
    (df : DataFrame) (blank_strain : option string) (strains : list string) :
  keeps grows (correct_background df blank_strain strains).
Proof.
  intros w r w' H.
  destruct (correct_background_corrected df blank_strain strains w) as (w1 & E & Hw & Hc).
  rewrite E in H. injection H as _ <-. now split.
Qed.

(** X1.  Whatever its outcome, [process_file] only adds lines to the
    console: the lines printed before the call are still there, in front of
    the new ones, and no table is written. *)
Theorem process_file_only_prints
    (cfg : Config) (L : Library) (filepath : string) (plate : Plate)
    (blank_strain : option string) (ref_strain : string) (max_time : float) (w : World) :
  grows w (snd (process_file cfg L filepath plate blank_strain ref_strain max_time w)).
Proof.
  destruct (process_file cfg L filepath plate blank_strain ref_strain max_time w)
    as [r w'] eqn:E.
  revert E. apply keeps_process_file.
  - exact grows_refl.
  - exact grows_trans.
  - apply echo_info_grows.
  - intros label w0 r0 w0' [= _ <-]. apply grows_print.
  - intros df. apply correct_background_grows.
  - apply iteration_order_grows.
Qed.

Lemma bind_keeps_eq {A B} (m : M A) (f : A -> M B) (w : World) :
  keeps eq m ->
  (m ≫= f) w = match fst (m w) with
               | Ok a => f a w
               | Raise e => (Raise e, w)
               end.
Proof.
  intros Hm. unfold mbind, M_bind.
  destruct (m w) as [[a | e] w1] eqn:E; rewrite <- (Hm _ _ _ E); reflexivity.
Qed.

(** X2.  In a run that is not verbose, for a blank strain that is on the
    plate (or none) and a reference strain that is on the plate and is not
    the blank, [process_file] prints no message and no warning, whether it
    returns or raises: the only line that it can add to the console is the
    progress bar of the loop over the strains, which it does add when the
    file has a handler and the run returns, and it writes no table. *)
Theorem process_file_quiet
    (cfg : Config) (L : Library) (filepath : string) (plate : Plate)
    (blank_strain : option string) (ref_strain : string) (max_time : float) (w : World) :
  VERBOSE cfg = false ->
  (forall blank, blank_strain = Some blank -> blank ∈ unique (map pl_Strain plate)) ->
  ref_strain ∈ candidates (unique (map pl_Strain plate)) blank_strain ->
  written (snd (process_file cfg L filepath plate blank_strain ref_strain max_time w))
  = written w
  /\ (console (snd (process_file cfg L filepath plate blank_strain ref_strain max_time w))
      = console w
      \/ console (snd (process_file cfg L filepath plate blank_strain ref_strain max_time w))
         = console w ++ [strains_bar])
  /\ (forall rs : list Result,
        is_Some (file_extension_handlers L !! snd (Py.splitext filepath)) ->
        fst (process_file cfg L filepath plate blank_strain ref_strain max_time w) = Ok rs ->
        console (snd (process_file cfg L filepath plate blank_strain ref_strain max_time w))
        = console w ++ [strains_bar]).
Proof.
  intros Hquiet Hblank Href.
  assert (Hinfo : forall message, keeps eq (echo_info cfg message)).
  { intros message. unfold echo_info. rewrite Hquiet. now apply keeps_ret. }
  assert (Htrans : forall w1 w2 w3 : World, w1 = w2 -> w2 = w3 -> w1 = w3)
    by (intros; congruence).
  unfold process_file. destruct (Py.splitext filepath) as [fn ext]. cbn [snd].
  destruct (file_extension_handlers L !! ext) as [handler |].
  2:{ rewrite (bind_keeps_eq _ _ w (Hinfo _)). unfold echo_info. rewrite Hquiet. cbn.
      split; [reflexivity |]. split; [now left |]. intros rs [h Hh]. discriminate Hh. }
  rewrite (bind_keeps_eq _ _ w (keeps_read_data eq (@eq_refl _) Htrans _ _ _ _ _)).
  destruct (fst (read_data handler filepath ext plate max_time w)) as [df0 | e];
    [| split; [reflexivity |]; split; [now left |]; intros rs _ H; discriminate H].
  assert (Hcorr : correct_background df0 blank_strain (unique (map pl_Strain plate)) w
                  = (Ok (corrected df0 blank_strain (unique (map pl_Strain plate))), w)).
  { unfold correct_background, corrected.
    destruct blank_strain as [blank |]; [| reflexivity].
    now rewrite (py_in_true _ _ (Hblank blank eq_refl)). }
  rewrite (bind_ok _ _ _ _ _ Hcorr).
  rewrite (bind_keeps_eq _ _ w (keeps_plot_file eq (@eq_refl _) Htrans cfg L Hinfo _ _)).
  destruct (fst (plot_file cfg L fn _ w)) as [[] | e];
    [| split; [reflexivity |]; split; [now left |]; intros rs _ H; discriminate H].
  rewrite (bind_ok _ _ w w _)
    by (rewrite iteration_order_returns; now rewrite (py_in_true _ _ Href)).
  rewrite progressbar_unfold.
  match goal with |- context [fit_strains ?c ?l ?a ?b ?p ?d ?s ?r ?t ?rf ?rs ?w0] =>
    destruct (fit_strains c l a b p d s r t rf rs w0) as [out w'] eqn:E;
    apply (keeps_fit_strains eq (@eq_refl _) Htrans cfg L Hinfo) in E; subst w'
  end.
  split; [reflexivity |]. split; [now right |]. intros rs _ _. reflexivity.
Qed.

Lemma process_file_quiet_witness :
  written (snd Demo.run) = []
  /\ console (snd Demo.run) = [strains_bar].
Proof.
  destruct (process_file_quiet (mkConfig false true false) Demo.lib "data/a.xlsx" Demo.plate
              (Some "0") "1" infinity (mkWorld [] [])) as (Hwritten & _ & Hbar).
  - reflexivity.
  - intros blank [= <-]. vm_compute. apply list_elem_of_here.
  - vm_compute. apply list_elem_of_here.
  - split; [exact Hwritten |].
    apply (Hbar Demo.records); [now eexists | now rewrite demo_run_returns].
Defined.

(** ** The loop over the files *)

Lemma process_files_same_written
    (cfg : Config) (L : Library) (plate : Plate) (blank_strain ref_strain : string)
    (max_time : float) (files : list string) :
  forall results,
    keeps same_written
      (process_files cfg L files plate blank_strain ref_strain max_time results).
Proof.
  induction files as [| filepath files IH]; intros results; cbn [process_files].
  - apply keeps_ret, same_written_refl.
  - apply keeps_bind; [exact same_written_trans | |].
    + apply process_file_same_written.
    + intros rs. apply IH.
Qed.

(** X3.  When the loop over the files returns, its result is the records
    it started with followed by the records of each file, file after file
    in the order of the list, each as returned by [process_file]. *)
Theorem process_files_concat
    (cfg : Config) (L : Library) (plate : Plate) (blank_strain ref_strain : string)
    (max_time : float) (files : list string) :
  forall (results rs : list Result) (w w' : World),
    process_files cfg L files plate blank_strain ref_strain max_time results w = (Ok rs, w') ->
    exists per_file : list (list Result),
      rs = results ++ concat per_file
      /\ Forall2
           (fun filepath file_results =>
              exists w1 w2,
                process_file cfg L filepath plate (Some blank_strain) ref_strain max_time w1
                = (Ok file_results, w2))
           files per_file.
Proof.
  induction files as [| filepath files IH]; intros results rs w w' H; cbn [process_files] in H.
  - injection H as <- <-. exists []. split; [now rewrite app_nil_r | constructor].
  - apply bind_ok_inv in H as (file_results & w1 & Hfile & H).
    apply IH in H as (per_file & -> & Hall).
    exists (file_results :: per_file). split; [cbn; now rewrite app_assoc |].
    constructor; [eauto | exact Hall].
Qed.

Lemma three_run_returns :
  process_files (mkConfig false true false) Demo.lib Scenario.three_files Demo.plate
    "0" "1" infinity [] (mkWorld [] [])
  = (Ok Scenario.three_records, snd Scenario.three_run).
Proof.
  assert (H : match fst Scenario.three_run with Ok _ => true | Raise _ => false end = true)
    by (vm_compute; reflexivity).
  unfold Scenario.three_records. fold Scenario.three_run.
  destruct Scenario.three_run as [[rs | e] w']; [reflexivity | discriminate H].
Qed.

Lemma process_files_concat_witness :
  length Scenario.three_records = 4%nat
  /\ exists per_file : list (list Result),
       Scenario.three_records = [] ++ concat per_file
       /\ Forall2
            (fun filepath file_results =>
               exists w1 w2,
                 process_file (mkConfig false true false) Demo.lib filepath Demo.plate
                   (Some "0") "1" infinity w1 = (Ok file_results, w2))
            Scenario.three_files per_file.
Proof.
  split; [vm_compute; reflexivity |].
  apply (process_files_concat (mkConfig false true false) Demo.lib Demo.plate "0" "1"
           infinity Scenario.three_files [] Scenario.three_records
           (mkWorld [] []) (snd Scenario.three_run)).
  exact three_run_returns.
Defined.

(** ** [analyse] and [plate]: what is written, and when *)

Lemma announce_same_written
    (cfg : Config) (os : OS) (path plate_path blank_strain ref_strain : string)
    (max_time : float) :
  keeps same_written (announce cfg os path plate_path blank_strain ref_strain max_time).
Proof.
  intros w r w' H.
  destruct (announce_returns cfg os path plate_path blank_strain ref_strain max_time w)
    as (w1 & E & Hw).
  rewrite E in H. injection H as _ <-. exact Hw.
Qed.

(** X4.  [analyse] writes at most one table, and only as its last effect:
    either it returns, and then it has appended to the output exactly one
    table, which holds the records that the loop over the discovered files
    returned; or it raises, and then it has written nothing. *)
Theorem analyse_writes_at_the_end
    (cfg : Config) (os : OS) (L : Library)
    (path output_file plate_folder plate_file blank_strain ref_strain : string)
    (max_time : float) (w : World) :
  (exists (rs : list Result) (raw : RawPlate) (w1 w2 w' : World),
     analyse cfg os L path output_file plate_folder plate_file
       blank_strain ref_strain max_time w = (Ok tt, w')
     /\ process_files cfg L (data_files os L path) (text_labels raw)
          blank_strain ref_strain max_time [] w1 = (Ok rs, w2)
     /\ written w' = written w ++ [(output_file, ResultTable rs)])
  \/ (exists (e : exn) (w' : World),
       analyse cfg os L path output_file plate_folder plate_file
         blank_strain ref_strain max_time w = (Raise e, w')
       /\ written w' = written w).
Proof.
  unfold analyse.
  destruct (find_plate_file os L plate_folder plate_file w) as [[pp | e] w1] eqn:E1;
    pose proof (keeps_find_plate_file same_written same_written_refl same_written_trans os L _ _ _ _ _ E1) as H1.
  2:{ right. exists e, w1. split; [now apply bind_raise | exact H1]. }
  rewrite (bind_ok _ _ _ _ _ E1).
  destruct (announce cfg os path pp blank_strain ref_strain max_time w1)
    as [[[] | e] w2] eqn:E2; pose proof (announce_same_written _ _ _ _ _ _ _ _ _ _ E2) as H2.
  2:{ right. exists e, w2. split; [now apply bind_raise | unfold same_written in *; congruence]. }
  rewrite (bind_ok _ _ _ _ _ E2).
  destruct (load_plate L pp w2) as [[raw | e] w3] eqn:E3;
    pose proof (load_plate_state _ _ _ _ _ E3) as H3; subst w3.
  2:{ right. exists e, w2. split; [now apply bind_raise | unfold same_written in *; congruence]. }
  rewrite (bind_ok _ _ _ _ _ E3).
  destruct (confirm_plate cfg os L (text_labels raw)
              (unique (map pl_Strain (text_labels raw))) w2) as [[[] | e] w4] eqn:E4;
    pose proof (confirm_plate_written _ _ _ _ _ _ _ _ E4) as H4.
  2:{ right. exists e, w4. split; [now apply bind_raise | unfold same_written in *; congruence]. }
  rewrite (bind_ok _ _ _ _ _ E4).
  destruct (data_files os L path) as [| file files] eqn:Efiles.
  { right. eexists _, w4. split; [reflexivity | unfold same_written in *; congruence]. }
  set (w4b := {| console := console w4 ++ [files_bar]; written := written w4 |}).
  destruct (process_files cfg L (file :: files) (text_labels raw) blank_strain ref_strain
              max_time [] w4b) as [[rs | e] w5] eqn:E5;
    pose proof (process_files_same_written _ _ _ _ _ _ _ _ _ _ _ E5) as H5;
    pose proof (E5 : progressbar "Processing files:"
                       (process_files cfg L (file :: files) (text_labels raw) blank_strain
                          ref_strain max_time []) w4 = _) as E5'.
  2:{ right. exists e, w5. split; [now apply bind_raise |].
      unfold same_written in *. cbn in H5. congruence. }
  rewrite (bind_ok _ _ _ _ _ E5').
  assert (H5' : written w5 = written w4) by exact H5.
  left. exists rs, raw, w4b, w5.
  unfold mbind, M_bind, to_csv, print.
  destruct (VERBOSE cfg && negb (output_file =? "-")%string)%bool; cbn;
    (eexists; split; [reflexivity |]; split; [exact E5 |]);
    cbn; unfold same_written in *; congruence.
Qed.

(** X5.  When prompting is enabled and the user declines the plate that was
    resolved, loaded and shown, [analyse] raises [click.Abort] before it
    looks for any data file, and writes nothing. *)
Theorem declined_plate_aborts
    (cfg : Config) (os : OS) (L : Library)
    (path output_file plate_folder plate_file blank_strain ref_strain plate_path : string)
    (max_time : float) (raw : RawPlate) (fig : Figure L) (w : World) :
  PROMPT cfg = true ->
  resolve_plate os L plate_folder plate_file = Ok plate_path ->
  read_csv L plate_path = Ok raw ->
  plot_plate L (text_labels raw) = Ok fig ->
  show L fig = Ok tt ->
  confirm os "Is this the plate you wanted?" = false ->
  exists w' : World,
    analyse cfg os L path output_file plate_folder plate_file
      blank_strain ref_strain max_time w = (Raise Abort, w')
    /\ written w' = written w.
Proof.
  intros Hprompt Hres Hread Hplot Hshow Hconfirm. unfold analyse.
  rewrite (bind_ok _ _ w w plate_path)
    by (rewrite find_plate_file_resolves; now rewrite Hres).
  destruct (announce_returns cfg os path plate_path blank_strain ref_strain max_time w)
    as (w1 & Hann & Hw1).
  rewrite (bind_ok _ _ _ _ _ Hann).
  rewrite (bind_ok _ _ w1 w1 raw) by now apply load_plate_ok.
  eexists. split.
  - apply bind_raise. unfold confirm_plate. rewrite Hprompt.
    rewrite (bind_call_ok _ _ _ _ Hplot), (bind_call_ok _ _ _ _ Hshow).
    unfold mbind, M_bind, print, raise. cbn. rewrite Hconfirm. reflexivity.
  - cbn. exact Hw1.
Qed.

Lemma declined_plate_aborts_witness :
  exists w' : World,
    analyse (mkConfig false true true) Scenario.os_decline Demo.lib "data" "out.csv"
      "plate_templates" "checkerboard.csv" "0" "1" infinity (mkWorld [] [])
    = (Raise Abort, w')
    /\ written w' = [].
Proof.
  apply (declined_plate_aborts (mkConfig false true true) Scenario.os_decline Demo.lib
           "data" "out.csv" "plate_templates" "checkerboard.csv" "0" "1"
           "plate_templates/checkerboard.csv" infinity Demo.raw_plate tt (mkWorld [] []));
    reflexivity.
Defined.

(** X6.  The [plate] command either returns, having appended exactly one
    table to the output and printed at most the line that says so (when
    verbose and not writing to the standard output); or it raises, and then
    it has printed nothing and written nothing. *)
Theorem plate_writes_or_leaves
    (cfg : Config) (os : OS) (L : Library)
    (plate_folder plate_file output_file : string) (w : World) :
  (exists (raw : RawPlate) (w' : World),
     plate cfg os L plate_folder plate_file output_file w = (Ok tt, w')
     /\ written w' = written w ++ [(output_file, PlateTable raw)]
     /\ console w'
        = console w
          ++ (if VERBOSE cfg && negb (String.eqb output_file "-")
              then [Secho ("Wrote output to " +:+ output_file) "green"] else []))
  \/ (exists e : exn, plate cfg os L plate_folder plate_file output_file w = (Raise e, w)).
Proof.
  unfold plate.
  destruct (resolve_plate os L plate_folder plate_file) as [pp | e] eqn:Hres.
  2:{ right. exists e. apply bind_raise.
      rewrite find_plate_file_resolves. now rewrite Hres. }
  rewrite (bind_ok _ _ w w pp) by (rewrite find_plate_file_resolves; now rewrite Hres).
  destruct (load_plate L pp w) as [[raw | e] w1] eqn:Hload;
    pose proof (load_plate_state _ _ _ _ _ Hload); subst w1.
  2:{ right. exists e. now apply bind_raise. }
  rewrite (bind_ok _ _ _ _ _ Hload). left. exists raw.
  unfold mbind, M_bind, to_csv, print.
  destruct (VERBOSE cfg && negb (output_file =? "-")%string)%bool; cbn;
    eexists; (split; [reflexivity |]); cbn; split; try reflexivity.
  now rewrite app_nil_r.
Qed.

(** X7.  When the plate file resolves but [read_csv] raises, the [plate]
    command raises in its place: a [click.FileError] with the file name and
    message of an [IOError], a [click.FileError] for the plate path with
    the hint "parser error, probably not a CSV file" for a parser error,
    and the exception itself otherwise.  The state is left as it was. *)
Theorem plate_load_error
    (cfg : Config) (os : OS) (L : Library)
    (plate_folder plate_file output_file plate_path : string) (e : exn) (w : World) :
  resolve_plate os L plate_folder plate_file = Ok plate_path ->
  read_csv L plate_path = Raise e ->
  plate cfg os L plate_folder plate_file output_file w
  = (Raise (plate_error plate_path e), w).
Proof.
  intros Hres Hread. unfold plate.
  rewrite (bind_ok _ _ w w plate_path)
    by (rewrite find_plate_file_resolves; now rewrite Hres).
  apply bind_raise. unfold load_plate, try_except, call. rewrite Hread.
  destruct e; reflexivity.
Qed.

Lemma plate_load_error_witness :
  plate (mkConfig true true false) Demo.os Scenario.lib_bad_csv
    "plate_templates" "checkerboard.csv" "out.csv" (mkWorld [] [])
  = (Raise (FileError "plate_templates/checkerboard.csv"
              "parser error, probably not a CSV file, Error tokenizing data"),
     mkWorld [] []).
Proof.
  apply (plate_load_error (mkConfig true true false) Demo.os Scenario.lib_bad_csv
           "plate_templates" "checkerboard.csv" "out.csv"
           "plate_templates/checkerboard.csv"
           (CParserError "Error tokenizing data") (mkWorld [] []));
    reflexivity.
Defined.

(** ** Files that cannot be parsed, files without a handler *)

(** X8.  When the parser of a file raises, [process_file] raises in its
    place and returns no record: a [click.FileError] with the file name and
    message of an [IOError], a [click.FileError] for the file with the hint
    "parser error, probably not a <ext> file" for an [XLRDError], and the
    exception itself otherwise.  Nothing is printed, no strain is fitted. *)
Theorem parser_error_propagates
    (cfg : Config) (L : Library) (filepath : string) (plate : Plate)
    (blank_strain : option string) (ref_strain : string) (max_time : float)
    (fn ext : string) (handler : string -> Plate -> option float -> outcome DataFrame)
    (e : exn) (w : World) :
  Py.splitext filepath = (fn, ext) ->
  file_extension_handlers L !! ext = Some handler ->
  parsed handler filepath plate max_time = Raise e ->
  process_file cfg L filepath plate blank_strain ref_strain max_time w
  = (Raise (parser_error filepath ext e), w).
Proof.
  intros Hext Hhandler Hparsed. unfold process_file. rewrite Hext, Hhandler.
  apply bind_raise. unfold read_data, try_except, call. rewrite Hparsed.
  destruct e; reflexivity.
Qed.

Lemma parser_error_propagates_witness :
  process_file (mkConfig true true false) Scenario.lib_bad_xlsx "data/a.xlsx" Demo.plate
    (Some "0") "1" infinity (mkWorld [] [])
  = (Raise (FileError "data/a.xlsx"
              "parser error, probably not a .xlsx file, Unsupported format"),
     mkWorld [] []).
Proof.
  apply (parser_error_propagates (mkConfig true true false) Scenario.lib_bad_xlsx
           "data/a.xlsx" Demo.plate (Some "0") "1" infinity "data/a" ".xlsx"
           (read_tecan_xlsx Scenario.lib_bad_xlsx) (XLRDError "Unsupported format")
           (mkWorld [] []));
    reflexivity.
Defined.

(** The keys of the handlers are in lower case. *)
Lemma handler_keys_lower (L : Library) (ext : string)
    (handler : string -> Plate -> option float -> outcome DataFrame) :
  file_extension_handlers L !! ext = Some handler -> Py.lower ext = ext.
Proof.
  unfold file_extension_handlers. intros H.
  destruct (decide (ext = ".mat")) as [-> | Hmat]; [reflexivity |].
  destruct (decide (ext = ".xlsx")) as [-> | Hxlsx]; [reflexivity |].
  rewrite lookup_insert_ne in H by congruence.
  rewrite lookup_singleton_ne in H by congruence. discriminate H.
Qed.

Lemma process_file_without_handler
    (cfg : Config) (L : Library) (filepath : string) (plate : Plate)
    (blank_strain : option string) (ref_strain : string) (max_time : float) (w : World) :
  file_extension_handlers L !! snd (Py.splitext filepath) = None ->
  process_file cfg L filepath plate blank_strain ref_strain max_time w
  = (Ok [],
     if VERBOSE cfg
     then {| console := console w ++ [no_handler_line filepath]; written := written w |}
     else w).
Proof.
  intros Hnone. unfold process_file.
  destruct (Py.splitext filepath) as [fn ext]. cbn [snd] in Hnone. rewrite Hnone.
  unfold echo_info. destruct (VERBOSE cfg); reflexivity.
Qed.

Lemma process_file_skips_case
    (cfg : Config) (L : Library) (filepath : string) (plate : Plate)
    (blank_strain : option string) (ref_strain : string) (max_time : float) (w : World) :
  Py.lower (snd (Py.splitext filepath)) <> snd (Py.splitext filepath) ->
  process_file cfg L filepath plate blank_strain ref_strain max_time w
  = (Ok [],
     if VERBOSE cfg
     then {| console := console w ++ [no_handler_line filepath]; written := written w |}
     else w).
Proof.
  intros Hcase. apply process_file_without_handler.
  destruct (file_extension_handlers L !! snd (Py.splitext filepath)) as [h |] eqn:E;
    [| reflexivity].
  exfalso. apply Hcase. eapply handler_keys_lower, E.
Qed.

(** X9.  The handler of a file is looked up by its extension as written,
    while discovery compares the extension in lower case.  So for a file
    whose extension is not in lower case (such as [.XLSX]), [process_file]
    finds no handler: it returns no record, raises nothing, parses nothing,
    and prints the line "No handler found for file ..." only in a verbose
    run. *)
Theorem extension_case_is_skipped
    (cfg : Config) (L : Library) (filepath : string) (plate : Plate)
    (blank_strain : option string) (ref_strain : string) (max_time : float) (w : World) :
  Py.lower (snd (Py.splitext filepath)) <> snd (Py.splitext filepath) ->
  process_file cfg L filepath plate blank_strain ref_strain max_time w
  = (Ok [],
     if VERBOSE cfg
     then {| console := console w ++ [no_handler_line filepath]; written := written w |}
     else w).
Proof. apply process_file_skips_case. Qed.

Lemma extension_case_is_skipped_witness :
  has_handler Demo.lib "/srv/runs/B.XLSX" = true
  /\ process_file (mkConfig true true false) Demo.lib "/srv/runs/B.XLSX" Demo.plate
       (Some "0") "1" infinity (mkWorld [] [])
     = (Ok [], mkWorld [no_handler_line "/srv/runs/B.XLSX"] []).
Proof.
  split; [reflexivity |].
  apply (extension_case_is_skipped (mkConfig true true false) Demo.lib "/srv/runs/B.XLSX"
           Demo.plate (Some "0") "1" infinity (mkWorld [] [])).
  vm_compute. discriminate.
Defined.

Lemma process_files_all_skipped
    (cfg : Config) (L : Library) (plate : Plate) (blank_strain ref_strain : string)
    (max_time : float) (files : list string) :
  Forall (fun fn => Py.lower (snd (Py.splitext fn)) <> snd (Py.splitext fn)) files ->
  forall (results : list Result) (w : World),
    exists w',
      process_files cfg L files plate blank_strain ref_strain max_time results w
      = (Ok results, w')
      /\ written w' = written w.
Proof.
  induction 1 as [| filepath files Hcase _ IH]; intros results w; cbn [process_files].
  - exists w. split; reflexivity.
  - rewrite (bind_ok _ _ _ _ _
               (process_file_skips_case cfg L filepath plate (Some blank_strain)
                  ref_strain max_time w Hcase)).
    rewrite app_nil_r.
    match goal with |- context [process_files _ _ _ _ _ _ _ _ ?w1] =>
      destruct (IH results w1) as (w' & Hrun & Hw) end.
    exists w'. split; [exact Hrun |]. rewrite Hw. now destruct (VERBOSE cfg).
Qed.

(** X10.  A run of [analyse] (without prompt) over data files that all have
    an extension that is recognised only up to case does not fail: every
    file is discovered and then skipped, and the command returns after
    writing a table without any record. *)
Theorem analyse_of_skipped_files
    (cfg : Config) (os : OS) (L : Library)
    (path output_file plate_folder plate_file blank_strain ref_strain plate_path : string)
    (max_time : float) (raw : RawPlate) (w : World) :
  PROMPT cfg = false ->
  resolve_plate os L plate_folder plate_file = Ok plate_path ->
  read_csv L plate_path = Ok raw ->
  data_files os L path <> [] ->
  Forall (fun fn => Py.lower (snd (Py.splitext fn)) <> snd (Py.splitext fn))
    (data_files os L path) ->
  exists w' : World,
    analyse cfg os L path output_file plate_folder plate_file
      blank_strain ref_strain max_time w = (Ok tt, w')
    /\ written w' = written w ++ [(output_file, ResultTable [])].
Proof.
  intros Hprompt Hres Hread Hsome Hcase. unfold analyse.
  rewrite (bind_ok _ _ w w plate_path)
    by (rewrite find_plate_file_resolves; now rewrite Hres).
  destruct (announce_returns cfg os path plate_path blank_strain ref_strain max_time w)
    as (w1 & Hann & Hw1).
  rewrite (bind_ok _ _ _ _ _ Hann).
  rewrite (bind_ok _ _ w1 w1 raw) by now apply load_plate_ok.
  rewrite (bind_ok _ _ w1 w1 tt) by (unfold confirm_plate; now rewrite Hprompt).
  destruct (process_files_all_skipped cfg L (text_labels raw) blank_strain ref_strain
              max_time (data_files os L path) Hcase []
              {| console := console w1 ++ [files_bar]; written := written w1 |})
    as (w2 & Hrun & Hw2).
  destruct (data_files os L path) as [| file files]; [contradiction |].
  rewrite (bind_ok _ _ w1 w2 []) by exact Hrun.
  cbn [written] in Hw2.
  unfold mbind, M_bind, to_csv, print.
  destruct (VERBOSE cfg && negb (output_file =? "-")%string)%bool; cbn;
    (eexists; split; [reflexivity |]); cbn; congruence.
Qed.

Lemma analyse_of_skipped_files_witness :
  path_exists Scenario.os_runs "/srv/upper" = true
  /\ data_files Scenario.os_runs Demo.lib "/srv/upper" = ["/srv/upper/B.XLSX"]
  /\ exists w' : World,
       analyse (mkConfig false true false) Scenario.os_runs Demo.lib "/srv/upper" "out.csv"
         "plate_templates" "checkerboard.csv" "0" "1" infinity (mkWorld [] [])
       = (Ok tt, w')
       /\ written w' = [("out.csv", ResultTable [])]
       /\ console w' = [files_bar].
Proof.
  split; [reflexivity |]. split; [reflexivity |].
  destruct (analyse_of_skipped_files (mkConfig false true false) Scenario.os_runs Demo.lib
              "/srv/upper" "out.csv" "plate_templates" "checkerboard.csv" "0" "1"
              "plate_templates/checkerboard.csv" infinity Demo.raw_plate (mkWorld [] []))
    as (w' & Hrun & Hwritten).
  - reflexivity.
  - reflexivity.
  - reflexivity.
  - intros H. discriminate H.
  - repeat constructor. intros H. discriminate H.
  - exists w'. split; [exact Hrun |]. split; [exact Hwritten |].
    vm_compute in Hrun. now injection Hrun as <-.
Defined.

(** ** Background correction at its edges *)

Lemma SFeqb_irrefl_nan (p : spec_float) : SFeqb p p = false -> p = S754_nan.
Proof.
  destruct p as [s | s | | s m e]; unfold SFeqb, SFcompare; try reflexivity.
  - discriminate.
  - destruct s; discriminate.
  - rewrite Z.compare_refl, Pos.compare_cont_refl. destruct s; discriminate.
Qed.

Lemma is_nan_spec (x : float) : is_nan x = true -> Prim2SF x = S754_nan.
Proof.
  unfold is_nan. rewrite FloatAxioms.eqb_spec. intros H.
  apply SFeqb_irrefl_nan. now destruct (SFeqb (Prim2SF x) (Prim2SF x)).
Qed.

Lemma sub_nan (x y : float) : is_nan y = true -> is_nan (x - y) = true.
Proof.
  intros Hy. apply is_nan_spec in Hy.
  unfold is_nan. rewrite FloatAxioms.eqb_spec, FloatAxioms.sub_spec, Hy.
  unfold SF64sub. now destruct (Prim2SF x).
Qed.

Lemma nan_not_negative (x : float) : is_nan x = true -> (x <? 0)%float = false.
Proof.
  intros Hx. apply is_nan_spec in Hx. now rewrite FloatAxioms.ltb_spec, Hx.
Qed.

Lemma background_without_baseline (df : DataFrame) (blank : string) :
  List.filter
    (fun r => String.eqb (Strain r) blank && (Time r =? nanmin (map Time df))%float) df
  = [] ->
  background df blank = nan.
Proof. intros H. unfold background. now rewrite H. Qed.

(** X11.  When the blank strain is on the plate but the table has no
    reading of it at the minimal time, the background is the mean of
    nothing, which is NaN, and the correction turns the optical density of
    every row into NaN: nothing is clamped, and the table keeps its
    length. *)
Theorem missing_baseline_gives_nan
    (df : DataFrame) (blank : string) (strains : list string) (w : World) :
  blank ∈ strains ->
  List.filter
    (fun r => String.eqb (Strain r) blank && (Time r =? nanmin (map Time df))%float) df
  = [] ->
  exists df' : DataFrame,
    correct_background df (Some blank) strains w = (Ok df', w)
    /\ length df' = length df
    /\ Forall (fun r => is_nan (OD r) = true) df'.
Proof.
  intros Hin Hnone. exists (clamp (subtract (background df blank) df)).
  split; [| split].
  - unfold correct_background. now rewrite (py_in_true _ _ Hin).
  - unfold clamp, subtract. now rewrite !length_fmap.
  - rewrite (background_without_baseline df blank Hnone).
    unfold clamp, subtract. rewrite Forall_fmap, Forall_fmap.
    apply Forall_forall. intros r _. cbn.
    assert (Hnan : is_nan (OD r - nan) = true) by now apply sub_nan.
    rewrite (nan_not_negative _ Hnan). exact Hnan.
Qed.

Lemma missing_baseline_gives_nan_witness :
  exists df' : DataFrame,
    correct_background Scenario.late_blank (Some "0") ["0"; "1"; "2"] (mkWorld [] [])
    = (Ok df', mkWorld [] [])
    /\ length df' = 4%nat
    /\ Forall (fun r => is_nan (OD r) = true) df'.
Proof.
  apply (missing_baseline_gives_nan Scenario.late_blank "0" ["0"; "1"; "2"] (mkWorld [] [])).
  - apply list_elem_of_here.
  - reflexivity.
Defined.

(** After the correction, [process_file] only adds to the console. *)
Lemma process_file_after_correction
    (cfg : Config) (L : Library) (filepath : string) (plate : Plate)
    (blank_strain : option string) (ref_strain : string) (max_time : float)
    (fn ext : string) (handler : string -> Plate -> option float -> outcome DataFrame)
    (df0 df : DataFrame) (w w1 w' : World) r :
  Py.splitext filepath = (fn, ext) ->
  file_extension_handlers L !! ext = Some handler ->
  parsed handler filepath plate max_time = Ok df0 ->
  correct_background df0 blank_strain (unique (map pl_Strain plate)) w = (Ok df, w1) ->
  process_file cfg L filepath plate blank_strain ref_strain max_time w = (r, w') ->
  grows w1 w'.
Proof.
  intros Hext Hhandler Hparsed Hcorr. unfold process_file. rewrite Hext, Hhandler.
  rewrite (bind_ok _ _ _ _ _ (read_data_ok handler filepath ext plate max_time df0 w Hparsed)).
  rewrite (bind_ok _ _ _ _ _ Hcorr).
  revert w1 r w' Hcorr. intros w1 r w' _. revert w1 r w'.
  change (keeps grows
            (plot_file cfg L fn df ≫= fun _ =>
             iteration_order (unique (map pl_Strain plate)) blank_strain ref_strain ≫=
             fun strains =>
             progressbar "Fitting strain growth curves"
               (fit_strains cfg L fn filepath plate df strains ref_strain strains None []))).
  apply keeps_bind; [exact grows_trans | |].
  - apply keeps_plot_file; [exact grows_refl | exact grows_trans | apply echo_info_grows].
  - intros _. apply keeps_bind; [exact grows_trans | apply iteration_order_grows |].
    intros order. apply keeps_progressbar; [exact grows_trans | |].
    + intros label w0 r0 w0' [= _ <-]. apply grows_print.
    + apply keeps_fit_strains;
        [exact grows_refl | exact grows_trans | apply echo_info_grows].
Qed.

(** X12.  When the blank strain is not on the plate, the run is not
    aborted: for a file whose extension has a handler, whose parser returns
    a table and for which every library call returns, [process_file] prints
    the warning of the missing blank strain, leaves the table uncorrected
    (each strain of the fitting order is fitted on its rows of the parser's
    table), and returns. *)
Theorem missing_blank_continues
    (cfg : Config) (L : Library) (filepath : string) (plate : Plate)
    (blank ref_strain : string) (max_time : float)
    (fn ext : string) (handler : string -> Plate -> option float -> outcome DataFrame)
    (df0 : DataFrame) (w : World) :
  blank ∉ unique (map pl_Strain plate) ->
  library_returns L ->
  Py.splitext filepath = (fn, ext) ->
  file_extension_handlers L !! ext = Some handler ->
  parsed handler filepath plate max_time = Ok df0 ->
  exists (rs : list Result) (w' : World),
    process_file cfg L filepath plate (Some blank) ref_strain max_time w = (Ok rs, w')
    /\ missing_blank_warning blank ∈ console w'
    /\ Forall2
         (fun strain res =>
            strain_fitted cfg L fn plate df0
              (order_of (unique (map pl_Strain plate)) (Some blank) ref_strain)
              ref_strain strain res)
         (order_of (unique (map pl_Strain plate)) (Some blank) ref_strain) rs.
Proof.
  intros Hout HL Hext Hhandler Hparsed.
  destruct (process_file_returns cfg L filepath plate (Some blank) ref_strain max_time
              fn ext handler df0 w HL Hext Hhandler Hparsed) as (rs & w' & Hrun & _).
  exists rs, w'. split; [exact Hrun |]. split.
  - assert (Hcorr :
      correct_background df0 (Some blank) (unique (map pl_Strain plate)) w
      = (Ok df0, {| console := console w ++ [missing_blank_warning blank];
                    written := written w |})).
    { unfold correct_background. now rewrite (py_in_false _ _ Hout). }
    eapply grows_elem_of.
    + eapply (process_file_after_correction cfg L filepath plate (Some blank) ref_strain
                max_time fn ext handler df0 df0); eassumption.
    + cbn. apply elem_of_app. right. apply list_elem_of_here.
  - destruct (process_file_inv cfg L filepath plate (Some blank) ref_strain max_time
                fn ext handler w w' rs Hext Hhandler Hrun) as (df0' & Hparsed' & _ & Hall).
    rewrite Hparsed in Hparsed'. injection Hparsed' as <-.
    unfold corrected in Hall. rewrite (py_in_false _ _ Hout) in Hall.
    eapply Forall2_impl; [exact Hall |]. now intros strain res [H _].
Qed.

Lemma missing_blank_continues_witness :
  exists (rs : list Result) (w' : World),
    process_file (mkConfig false false false) Demo.lib "data/a.xlsx" Demo.plate
      (Some "blank") "1" infinity (mkWorld [] []) = (Ok rs, w')
    /\ missing_blank_warning "blank" ∈ console w'
    /\ length rs = 3%nat.
Proof.
  destruct (missing_blank_continues (mkConfig false false false) Demo.lib "data/a.xlsx"
              Demo.plate "blank" "1" infinity "data/a" ".xlsx" (read_tecan_xlsx Demo.lib)
              Demo.table (mkWorld [] []))
    as (rs & w' & Hrun & Hwarn & Hall).
  - vm_compute. intros H.
    repeat (apply elem_of_cons in H as [H | H]; [discriminate H |]).
    now apply elem_of_nil in H.
  - exact demo_library_returns.
  - reflexivity.
  - reflexivity.
  - reflexivity.
  - exists rs, w'. split; [exact Hrun |]. split; [exact Hwarn |].
    apply Forall2_length in Hall. rewrite <- Hall. reflexivity.
Defined.

(** ** One record for each strain that is not the blank *)

Lemma remove_first_absent (x : string) (l : list string) :
  x ∉ l -> remove_first x l = None.
Proof.
  induction l as [| y l IH]; intros Hout; [reflexivity |]. cbn.
  destruct (String.eqb_spec y x) as [-> | Hne].
  - exfalso. apply Hout. apply list_elem_of_here.
  - rewrite IH; [reflexivity |]. intros H. apply Hout. now right.
Qed.

Lemma NoDup_without (x : string) (l : list string) : NoDup l -> NoDup (without x l).
Proof.
  intros Hnd. unfold without. destruct (decide (x ∈ l)) as [Hin | Hout].
  - destruct (remove_first_present x l Hin) as (l' & -> & _ & _ & H). now apply H.
  - now rewrite (remove_first_absent x l Hout).
Qed.

Lemma elem_of_without (x y : string) (l : list string) :
  NoDup l -> y ∈ without x l <-> y ∈ l /\ y <> x.
Proof.
  intros Hnd. split.
  - intros Hy. split; [eapply without_subset, Hy |].
    intros ->. now apply (without_absent x l Hnd).
  - intros [Hy Hne]. now apply without_keeps.
Qed.

Lemma candidates_spec (l : list string) (blank_strain : option string) :
  NoDup (candidates (unique l) blank_strain)
  /\ forall s, s ∈ candidates (unique l) blank_strain <-> s ∈ l /\ blank_strain <> Some s.
Proof.
  pose proof (NoDup_unique l) as Hnd.
  destruct blank_strain as [blank |]; cbn.
  - split; [now apply NoDup_without |].
    intros s. rewrite (elem_of_without blank s _ Hnd), elem_of_unique.
    split; intros [Hs Hne]; (split; [exact Hs | congruence]).
  - split; [exact Hnd |]. intros s. rewrite elem_of_unique.
    split; [intros Hs; split; [exact Hs | discriminate] | now intros [Hs _]].
Qed.

Lemma order_of_spec (l : list string) (blank_strain : option string) (ref_strain : string) :
  NoDup (order_of (unique l) blank_strain ref_strain)
  /\ forall s : string,
       s ∈ order_of (unique l) blank_strain ref_strain <-> s ∈ l /\ blank_strain <> Some s.
Proof.
  destruct (candidates_spec l blank_strain) as [Hnd Hspec].
  unfold order_of, py_in. case_bool_decide as Href; [| now split].
  split.
  - constructor; [now apply without_absent | now apply NoDup_without].
  - intros s. rewrite <- Hspec, elem_of_cons, (elem_of_without ref_strain s _ Hnd).
    split.
    + intros [-> | [Hs _]]; assumption.
    + intros Hs. destruct (decide (s = ref_strain)); [now left | now right].
Qed.

(** X13.  The order in which the strains of a plate are fitted has no
    strain twice, and its strains are exactly the strains of the plate
    other than the blank strain. *)
Theorem fitting_order_spec
    (plate : Plate) (blank_strain : option string) (ref_strain : string) (w : World) :
  exists order : list string,
    fst (iteration_order (unique (map pl_Strain plate)) blank_strain ref_strain w) = Ok order
    /\ NoDup order
    /\ forall s : string,
         s ∈ order <-> s ∈ map pl_Strain plate /\ blank_strain <> Some s.
Proof.
  rewrite iteration_order_returns. cbn [fst]. eexists. split; [reflexivity |].
  apply order_of_spec.
Qed.

(** X14.  For a file whose extension has a handler, the records that
    [process_file] returns are one for each strain of the fitting order, in
    that order; so no two records of a file are of the same strain. *)
Theorem one_record_per_strain
    (cfg : Config) (L : Library) (filepath : string) (plate : Plate)
    (blank_strain : option string) (ref_strain : string) (max_time : float)
    (fn ext : string) (handler : string -> Plate -> option float -> outcome DataFrame)
    (w w' : World) (rs : list Result) :
  Py.splitext filepath = (fn, ext) ->
  file_extension_handlers L !! ext = Some handler ->
  process_file cfg L filepath plate blank_strain ref_strain max_time w = (Ok rs, w') ->
  map (fun res : Result => res !! "strain") rs
  = map (fun s => Some (PyStr s))
      (order_of (unique (map pl_Strain plate)) blank_strain ref_strain)
  /\ NoDup (map (fun res : Result => res !! "strain") rs).
Proof.
  intros Hext Hhandler Hrun.
  destruct (process_file_inv cfg L filepath plate blank_strain ref_strain max_time
              fn ext handler w w' rs Hext Hhandler Hrun) as (df0 & _ & _ & Hall).
  assert (Heq : map (fun res : Result => res !! "strain") rs
                = map (fun s => Some (PyStr s))
                    (order_of (unique (map pl_Strain plate)) blank_strain ref_strain)).
  { apply (records_follow_order
             (order_of (unique (map pl_Strain plate)) blank_strain ref_strain) _ ref_strain).
    eapply Forall2_impl; [exact Hall |]. intros s res [_ H]. exact H. }
  split; [exact Heq |]. rewrite Heq.
  apply NoDup_fmap_2; [intros s1 s2; congruence |].
  apply order_of_spec.
Qed.

Lemma one_record_per_strain_witness :
  map (fun res : Result => res !! "strain") Demo.records
  = [Some (PyStr "1"); Some (PyStr "2")]
  /\ NoDup (map (fun res : Result => res !! "strain") Demo.records).
Proof.
  apply (one_record_per_strain (mkConfig false true false) Demo.lib "data/a.xlsx" Demo.plate
           (Some "0") "1" infinity "data/a" ".xlsx" (read_tecan_xlsx Demo.lib)
           (mkWorld [] []) (snd Demo.run) Demo.records).
  - reflexivity.
  - reflexivity.
  - exact demo_run_returns.
Defined.

(** ** The records, one by one *)

Lemma fit_strains_bodies (cfg : Config) (L : Library) (fn filepath : string)
    (plate : Plate) (df : DataFrame) (strains : list string) (ref_strain : string) :
  forall (todo : list string) (ref_fit : option Fit) (results rs : list Result)
         (w w' : World),
    fit_strains cfg L fn filepath plate df strains ref_strain todo ref_fit results w
    = (Ok rs, w') ->
    reference_fit_ok cfg L df ref_strain ref_fit ->
    exists new,
      rs = results ++ new
      /\ Forall2 (body_returned cfg L fn filepath plate df strains ref_strain) todo new.
Proof.
  induction todo as [| strain todo IH]; intros ref_fit results rs w w' H Hinv.
  - injection H as <- <-. exists []. split; [now rewrite app_nil_r | constructor].
  - cbn [fit_strains] in H.
    apply bind_ok_inv in H as ([res rf'] & w1 & Hbody & H).
    pose proof (fit_strain_inv _ _ _ _ _ _ _ _ _ _ _ _ _ _ Hbody Hinv) as (_ & _ & Hinv').
    apply IH in H as (new & -> & Hall); [| exact Hinv'].
    exists (res :: new). split; [now rewrite <- app_assoc |].
    constructor; [| exact Hall]. now exists ref_fit, rf', w, w1.
Qed.

Lemma process_file_bodies
    (cfg : Config) (L : Library) (filepath : string) (plate : Plate)
    (blank_strain : option string) (ref_strain : string) (max_time : float)
    (fn ext : string) (handler : string -> Plate -> option float -> outcome DataFrame)
    (w w' : World) (rs : list Result) :
  Py.splitext filepath = (fn, ext) ->
  file_extension_handlers L !! ext = Some handler ->
  process_file cfg L filepath plate blank_strain ref_strain max_time w = (Ok rs, w') ->
  exists df0,
    parsed handler filepath plate max_time = Ok df0
    /\ Forall2
         (body_returned cfg L fn filepath plate
            (corrected df0 blank_strain (unique (map pl_Strain plate)))
            (order_of (unique (map pl_Strain plate)) blank_strain ref_strain) ref_strain)
         (order_of (unique (map pl_Strain plate)) blank_strain ref_strain) rs.
Proof.
  intros Hext Hhandler. unfold process_file. rewrite Hext, Hhandler. intros H.
  apply bind_ok_inv in H as (df0 & w1 & Hread & H). apply read_data_inv in Hread.
  exists df0. split; [exact Hread |].
  apply bind_ok_inv in H as (df & w2 & Hcorr & H).
  destruct (correct_background_corrected df0 blank_strain
              (unique (map pl_Strain plate)) w1) as (w2' & Hcorr' & _).
  rewrite Hcorr' in Hcorr. injection Hcorr as <- <-.
  apply bind_ok_inv in H as ([] & w3 & _ & H).
  apply bind_ok_inv in H as (order & w4 & Horder & H).
  rewrite iteration_order_returns in Horder. injection Horder as <- <-.
  apply fit_strains_bodies in H as (new & -> & Hall); [exact Hall | intros f [=]].
Qed.

Lemma summary_columns (cfg : Config) (L : Library) (fn filepath strain : string)
    (frs : list Fit) (fit : Fit) (w w' : World) (res : Result) :
  summary cfg L fn filepath strain frs fit w = (Ok res, w') ->
  dom res = base_columns.
Proof.
  unfold summary. intros H.
  repeat (apply bind_ok_inv in H as (? & ? & _ & H)).
  injection H as <- _.
  rewrite !dom_insert_L, dom_empty_L. unfold base_columns. cbn [list_to_set].
  set_solver.
Qed.

Lemma body_columns (cfg : Config) (L : Library) (fn filepath : string)
    (plate : Plate) (df : DataFrame) (strains : list string)
    (ref_strain strain : string) (ref_fit ref_fit' : option Fit)
    (w w' : World) (res : Result) :
  fit_strain cfg L fn filepath plate df strains ref_strain strain ref_fit w
  = (Ok (res, ref_fit'), w') ->
  dom res
  = if String.eqb strain ref_strain || py_in ref_strain strains
    then base_columns ∪ {["w"]} else base_columns.
Proof.
  unfold fit_strain. intros H.
  apply bind_ok_inv in H as (frs & w1 & _ & H).
  apply bind_ok_inv in H as (fit & w2 & _ & H).
  apply bind_ok_inv in H as (res0 & w3 & Hsum & H).
  apply summary_columns in Hsum.
  destruct (String.eqb strain ref_strain); cbn [orb].
  - injection H as <- _ _. rewrite dom_insert_L, Hsum. set_solver.
  - destruct (py_in ref_strain strains).
    + apply bind_ok_inv in H as (x & w4 & _ & H). injection H as <- _ _.
      rewrite dom_insert_L, Hsum. set_solver.
    + injection H as <- _ _. exact Hsum.
Qed.

(** X15.  All the records that [process_file] returns for a file have the
    same columns: the eighteen columns from [folder] to [has_nu], and the
    column [w] as well exactly when the reference strain is in the fitting
    order. *)
Theorem records_have_the_columns
    (cfg : Config) (L : Library) (filepath : string) (plate : Plate)
    (blank_strain : option string) (ref_strain : string) (max_time : float)
    (w w' : World) (rs : list Result) :
  process_file cfg L filepath plate blank_strain ref_strain max_time w = (Ok rs, w') ->
  Forall
    (fun res : Result =>
       dom res
       = if py_in ref_strain (order_of (unique (map pl_Strain plate)) blank_strain ref_strain)
         then base_columns ∪ {["w"]} else base_columns)
    rs.
Proof.
  intros Hrun.
  destruct (file_extension_handlers L !! snd (Py.splitext filepath))
    as [handler |] eqn:Hhandler.
  - assert (Hext : Py.splitext filepath
                   = (fst (Py.splitext filepath), snd (Py.splitext filepath)))
      by now destruct (Py.splitext filepath).
    destruct (process_file_bodies cfg L filepath plate blank_strain ref_strain max_time
                _ _ handler w w' rs Hext Hhandler Hrun) as (df0 & _ & Hall).
    apply (Forall2_right _ _ _ _ Hall).
    intros strain res Hin (rf & rf' & w0 & w1 & _ & Hbody).
    rewrite (body_columns _ _ _ _ _ _ _ _ _ _ _ _ _ _ Hbody).
    destruct (String.eqb_spec strain ref_strain) as [-> | _]; [| reflexivity].
    cbn [orb]. now rewrite (py_in_true _ _ Hin).
  - rewrite (process_file_no_handler _ _ _ _ _ _ _ _ _ _ Hhandler Hrun). constructor.
Qed.

Lemma records_have_the_columns_witness :
  Forall (fun res : Result => dom res = base_columns ∪ {["w"]}) Demo.records.
Proof.
  apply (records_have_the_columns (mkConfig false true false) Demo.lib "data/a.xlsx"
           Demo.plate (Some "0") "1" infinity (mkWorld [] []) (snd Demo.run) Demo.records).
  exact demo_run_returns.
Defined.

(** ** The fitness of the other strains *)

Lemma competition_value_inv (cfg : Config) (L : Library) (fn strain ref_strain : string)
    (plate : Plate) (df : DataFrame) (fit : Fit) (ref_fit : option Fit)
    (w w' : World) (x : pyval) :
  competition cfg L fn strain ref_strain plate df fit ref_fit w = (Ok x, w') ->
  exists rf cout,
    ref_fit = Some rf
    /\ compete L fit rf (nanmax (map Time df)) (colors_of plate strain ref_strain) (PLOT cfg)
       = Ok cout
    /\ fitness_LTEE L (value_of cout) 0 1 = Ok x.
Proof.
  unfold competition. intros H.
  apply bind_ok_inv in H as (rf & w1 & Hrf & H).
  destruct ref_fit as [rf' |]; [| discriminate Hrf]. injection Hrf as -> <-.
  apply bind_ok_inv in H as (cout & w1 & Hc & H). apply call_inv in Hc as [Hc ->].
  exists rf, cout. split; [reflexivity |]. split; [exact Hc |]. clear Hc.
  apply bind_ok_inv in H as (y & w1 & Hy & H). apply call_inv in H as [H _].
  revert cout Hy. destruct (PLOT cfg); intros cout Hy.
  - destruct cout as [y' fig].
    apply bind_ok_inv in Hy as ([] & w2 & _ & Hy).
    apply bind_ok_inv in Hy as ([] & w3 & _ & Hy). injection Hy as <- _. exact H.
  - injection Hy as <- _. exact H.
Qed.

Lemma body_fitness (cfg : Config) (L : Library) (fn filepath : string)
    (plate : Plate) (df : DataFrame) (strains : list string)
    (ref_strain strain : string) (ref_fit ref_fit' : option Fit)
    (w w' : World) (res : Result) :
  fit_strain cfg L fn filepath plate df strains ref_strain strain ref_fit w
  = (Ok (res, ref_fit'), w') ->
  reference_fit_ok cfg L df ref_strain ref_fit ->
  strain <> ref_strain -> ref_strain ∈ strains ->
  exists (fit rfit : Fit) (cout : with_figure (Figure L) (Curve L) (PLOT cfg)) (x : pyval),
    first_fit cfg L df strain = Some fit
    /\ first_fit cfg L df ref_strain = Some rfit
    /\ compete L fit rfit (nanmax (map Time df)) (colors_of plate strain ref_strain)
         (PLOT cfg) = Ok cout
    /\ fitness_LTEE L (value_of cout) 0 1 = Ok x
    /\ res !! "w" = Some x.
Proof.
  unfold fit_strain. intros H Hinv Hne Hin.
  apply bind_ok_inv in H as (frs & w1 & Hfit & H).
  apply fit_and_plot_inv in Hfit as (out & Hout & Hfits & _).
  apply bind_ok_inv in H as (fit & w2 & Hfirst & H).
  apply first_item_inv in Hfirst as [Hfirst ->]. subst frs.
  apply bind_ok_inv in H as (res0 & w2 & _ & H).
  destruct (String.eqb_spec strain ref_strain) as [Heq | _]; [contradiction |].
  rewrite (py_in_true _ _ Hin) in H.
  apply bind_ok_inv in H as (x & w3 & Hcomp & H). injection H as <- _ _.
  apply competition_value_inv in Hcomp as (rf & cout & -> & Hc & Hx).
  exists fit, rf, cout, x.
  split; [now apply (first_fit_of_call cfg L df _ out) |].
  split; [now apply Hinv |]. split; [exact Hc |]. split; [exact Hx |].
  apply lookup_insert_eq.
Qed.

(** X16.  In the records that [process_file] returns for a file, the
    fitness [w] of a strain other than the reference, when the reference
    strain is in the fitting order, is what [fitness_LTEE] (assay strain 0,
    reference strain 1) returns for the competition of the best fit of the
    strain against the best fit of the reference strain, over the largest
    time of the table and with the colours of the two strains on the
    plate. *)
Theorem fitness_is_competition_against_reference
    (cfg : Config) (L : Library) (filepath : string) (plate : Plate)
    (blank_strain : option string) (ref_strain : string) (max_time : float)
    (fn ext : string) (handler : string -> Plate -> option float -> outcome DataFrame)
    (w w' : World) (rs : list Result) :
  Py.splitext filepath = (fn, ext) ->
  file_extension_handlers L !! ext = Some handler ->
  process_file cfg L filepath plate blank_strain ref_strain max_time w = (Ok rs, w') ->
  exists df0 : DataFrame,
    parsed handler filepath plate max_time = Ok df0
    /\ Forall2
         (fun (strain : string) (res : Result) =>
            strain <> ref_strain ->
            ref_strain ∈ order_of (unique (map pl_Strain plate)) blank_strain ref_strain ->
            exists (fit rfit : Fit)
                   (cout : with_figure (Figure L) (Curve L) (PLOT cfg)) (x : pyval),
              first_fit cfg L (corrected df0 blank_strain (unique (map pl_Strain plate)))
                strain = Some fit
              /\ first_fit cfg L (corrected df0 blank_strain (unique (map pl_Strain plate)))
                   ref_strain = Some rfit
              /\ compete L fit rfit
                   (nanmax (map Time
                      (corrected df0 blank_strain (unique (map pl_Strain plate)))))
                   (colors_of plate strain ref_strain) (PLOT cfg) = Ok cout
              /\ fitness_LTEE L (value_of cout) 0 1 = Ok x
              /\ res !! "w" = Some x)
         (order_of (unique (map pl_Strain plate)) blank_strain ref_strain) rs.
Proof.
  intros Hext Hhandler Hrun.
  destruct (process_file_bodies cfg L filepath plate blank_strain ref_strain max_time
              fn ext handler w w' rs Hext Hhandler Hrun) as (df0 & Hparsed & Hall).
  exists df0. split; [exact Hparsed |].
  eapply Forall2_impl; [exact Hall |].
  intros strain res (rf & rf' & w0 & w1 & Hinv & Hbody) Hne Hin.
  exact (body_fitness _ _ _ _ _ _ _ _ _ _ _ _ _ _ Hbody Hinv Hne Hin).
Qed.

Lemma fitness_is_competition_against_reference_witness :
  map (fun res : Result => res !! "w") Demo.records
  = [Some (PyInt 1); Some (PyFloat 1.25)]
  /\ exists df0 : DataFrame,
       parsed (read_tecan_xlsx Demo.lib) "data/a.xlsx" Demo.plate infinity = Ok df0
       /\ length df0 = 6%nat.
Proof.
  split; [vm_compute; reflexivity |].
  destruct (fitness_is_competition_against_reference (mkConfig false true false) Demo.lib
              "data/a.xlsx" Demo.plate (Some "0") "1" infinity "data/a" ".xlsx"
              (read_tecan_xlsx Demo.lib) (mkWorld [] []) (snd Demo.run) Demo.records)
    as (df0 & Hparsed & _).
  - reflexivity.
  - reflexivity.
  - exact demo_run_returns.
  - exists df0. split; [exact Hparsed |].
    cbn in Hparsed. injection Hparsed as <-. reflexivity.
Defined.

(** ** Plotting disabled *)

(** X17.  With plotting disabled, [process_file] calls none of the plotting
    functions: its outcome and the state it leaves are the same whatever
    the wells plot, the strains plot and the saving of figures would do. *)
Theorem no_plot_without_plotting
    (cfg : Config) (L : Library)
    (wells strains : DataFrame -> string -> outcome unit)
    (save : Figure L -> string -> outcome unit)
    (filepath : string) (plate : Plate)
    (blank_strain : option string) (ref_strain : string) (max_time : float) (w : World) :
  PLOT cfg = false ->
  process_file cfg (with_plots L wells strains save) filepath plate
    blank_strain ref_strain max_time w
  = process_file cfg L filepath plate blank_strain ref_strain max_time w.
Proof.
  intros Hplot. destruct cfg as [verbose plot prompt]. cbn in Hplot. subst plot.
  reflexivity.
Qed.

Lemma no_plot_without_plotting_witness :
  process_file (mkConfig false false false)
    (with_plots Demo.lib (fun _ _ => Raise (LibraryError "plot_wells"))
       (fun _ _ => Raise (LibraryError "plot_strains"))
       (fun _ _ => Raise (LibraryError "savefig")))
    "data/a.xlsx" Demo.plate (Some "0") "1" infinity (mkWorld [] [])
  = process_file (mkConfig false false false) Demo.lib
      "data/a.xlsx" Demo.plate (Some "0") "1" infinity (mkWorld [] []).
Proof.
  apply (no_plot_without_plotting (mkConfig false false false) Demo.lib).
  reflexivity.
Defined.

(** ** Discovery in directories, relative and absolute *)

Lemma startswith_slash_append (a b : string) :
  a <> "" -> Py.startswith_slash a = false -> Py.startswith_slash (a +:+ b) = false.
Proof. destruct a as [| c a']; [contradiction | intros _ H; exact H]. Qed.

(** X18.  For a directory given by a relative path (not empty, without a
    slash at either end), when [glob] lists the entries as the directory
    followed by a slash and the entry, discovery returns each listed path
    with the directory and a slash put in front once more. *)
Theorem relative_directory_is_joined_twice (os : OS) (path : string) :
  isdir os path = true ->
  path <> "" ->
  Py.startswith_slash path = false ->
  Py.endswith_slash path = false ->
  Forall (fun fn => exists name, fn = path +:+ "/" +:+ name) (glob os (Py.join path "*")) ->
  discover os path = map (fun fn => path +:+ "/" +:+ fn) (glob os (Py.join path "*")).
Proof.
  intros Hdir Hne Hstart Hend Hglob. unfold discover. rewrite Hdir.
  induction Hglob as [| fn l [name ->] _ IH]; [reflexivity |].
  cbn [map]. rewrite IH. f_equal.
  apply join_relative; [| exact Hne | exact Hend].
  now apply startswith_slash_append.
Qed.

Lemma relative_directory_is_joined_twice_witness :
  discover Scenario.os_runs "runs"
  = ["runs/runs/a.xlsx"; "runs/runs/B.XLSX"; "runs/runs/c.txt"].
Proof.
  rewrite (relative_directory_is_joined_twice Scenario.os_runs "runs").
  - reflexivity.
  - reflexivity.
  - discriminate.
  - reflexivity.
  - reflexivity.
  - cbn. repeat constructor; eexists; reflexivity.
Defined.

(** X19.  For a directory whose entries [glob] lists by absolute paths, the
    data files are exactly the listed paths whose extension, in lower case,
    is [.mat] or [.xlsx], in the order of the listing. *)
Theorem data_files_of_absolute_directory (os : OS) (L : Library) (path : string) :
  isdir os path = true ->
  Forall (fun fn => Py.startswith_slash fn = true) (glob os (Py.join path "*")) ->
  data_files os L path
  = List.filter
      (fun fn => bool_decide (Py.lower (snd (Py.splitext fn)) ∈ [".mat"; ".xlsx"]))
      (glob os (Py.join path "*")).
Proof.
  intros Hdir Habs. unfold data_files. rewrite (discover_absolute os path Hdir Habs).
  apply filter_ext. intros fn. unfold has_handler.
  apply bool_decide_ext. unfold file_extension_handlers.
  rewrite dom_insert_L, dom_singleton_L, elem_of_union, !elem_of_singleton.
  rewrite !elem_of_cons, elem_of_nil. tauto.
Qed.

Lemma data_files_of_absolute_directory_witness :
  data_files Scenario.os_runs Demo.lib "/srv/runs" = ["/srv/runs/a.xlsx"; "/srv/runs/B.XLSX"].
Proof.
  rewrite (data_files_of_absolute_directory Scenario.os_runs Demo.lib "/srv/runs").
  - reflexivity.
  - reflexivity.
  - cbn. repeat constructor.
Defined.

(** ** A fit that cannot be read *)

Lemma process_file_first_strain
    (cfg : Config) (L : Library) (filepath : string) (plate : Plate)
    (blank_strain : option string) (ref_strain : string) (max_time : float)
    (fn ext : string) (handler : string -> Plate -> option float -> outcome DataFrame)
    (df0 : DataFrame) (strain : string) (rest : list string) (e : exn) (w : World) :
  PLOT cfg = false ->
  Py.splitext filepath = (fn, ext) ->
  file_extension_handlers L !! ext = Some handler ->
  parsed handler filepath plate max_time = Ok df0 ->
  order_of (unique (map pl_Strain plate)) blank_strain ref_strain = strain :: rest ->
  (forall w0,
     fit_strain cfg L fn filepath plate
       (corrected df0 blank_strain (unique (map pl_Strain plate)))
       (strain :: rest) ref_strain strain None w0 = (Raise e, w0)) ->
  exists w' : World,
    process_file cfg L filepath plate blank_strain ref_strain max_time w = (Raise e, w').
Proof.
  intros Hplot Hext Hhandler Hparsed Horder Hbody.
  unfold process_file. rewrite Hext, Hhandler.
  rewrite (bind_ok _ _ _ _ _ (read_data_ok handler filepath ext plate max_time df0 w Hparsed)).
  destruct (correct_background_corrected df0 blank_strain
              (unique (map pl_Strain plate)) w) as (w1 & Hcorr & _).
  rewrite (bind_ok _ _ _ _ _ Hcorr).
  rewrite (bind_ok _ _ w1 w1 tt) by (unfold plot_file; now rewrite Hplot).
  rewrite (bind_ok _ _ _ _ _ (iteration_order_returns _ blank_strain ref_strain w1)).
  rewrite Horder, progressbar_unfold. cbn [fit_strains].
  eexists. apply bind_raise. apply Hbody.
Qed.

(** X20.  With plotting disabled, if the fit of the first strain of the
    fitting order returns an empty list of fits, [process_file] raises
    [IndexError] and returns no record. *)
Theorem empty_fit_raises
    (cfg : Config) (L : Library) (filepath : string) (plate : Plate)
    (blank_strain : option string) (ref_strain : string) (max_time : float)
    (fn ext : string) (handler : string -> Plate -> option float -> outcome DataFrame)
    (df0 : DataFrame) (strain : string) (rest : list string) (w : World) :
  PLOT cfg = false ->
  Py.splitext filepath = (fn, ext) ->
  file_extension_handlers L !! ext = Some handler ->
  parsed handler filepath plate max_time = Ok df0 ->
  order_of (unique (map pl_Strain plate)) blank_strain ref_strain = strain :: rest ->
  fit_model L (rows_of strain (corrected df0 blank_strain (unique (map pl_Strain plate))))
    false (VERBOSE cfg) = Ok [] ->
  exists w' : World,
    process_file cfg L filepath plate blank_strain ref_strain max_time w
    = (Raise IndexError, w').
Proof.
  intros Hplot Hext Hhandler Hparsed Horder Hfit.
  eapply process_file_first_strain; try eassumption.
  intros w0. unfold fit_strain, fit_and_plot.
  destruct cfg as [verbose plot prompt]. cbn [PLOT VERBOSE] in *. subst plot.
  rewrite (bind_ok _ _ w0 w0 []) by (rewrite (bind_call_ok _ _ _ _ Hfit); reflexivity).
  reflexivity.
Qed.

Lemma empty_fit_raises_witness :
  exists w' : World,
    process_file (mkConfig false false false) Scenario.lib_no_fit "data/a.xlsx" Demo.plate
      (Some "0") "1" infinity (mkWorld [] []) = (Raise IndexError, w').
Proof.
  apply (empty_fit_raises (mkConfig false false false) Scenario.lib_no_fit "data/a.xlsx"
           Demo.plate (Some "0") "1" infinity "data/a" ".xlsx"
           (read_tecan_xlsx Scenario.lib_no_fit) Demo.table "1" ["2"] (mkWorld [] []));
    reflexivity.
Defined.

(** X21.  With plotting disabled, if the best fit of the first strain of
    the fitting order lacks one of the parameters [y0], [K], [r] and the
    benchmark of the fits returns, [process_file] raises [KeyError] for the
    first of them that is missing, and returns no record. *)
Theorem missing_parameter_raises
    (cfg : Config) (L : Library) (filepath : string) (plate : Plate)
    (blank_strain : option string) (ref_strain : string) (max_time : float)
    (fn ext : string) (handler : string -> Plate -> option float -> outcome DataFrame)
    (df0 : DataFrame) (strain : string) (rest : list string)
    (fit : Fit) (others : list Fit) (b : pyval) (key : string) (w : World) :
  PLOT cfg = false ->
  Py.splitext filepath = (fn, ext) ->
  file_extension_handlers L !! ext = Some handler ->
  parsed handler filepath plate max_time = Ok df0 ->
  order_of (unique (map pl_Strain plate)) blank_strain ref_strain = strain :: rest ->
  fit_model L (rows_of strain (corrected df0 blank_strain (unique (map pl_Strain plate))))
    false (VERBOSE cfg) = Ok (fit :: others) ->
  benchmark L (fit :: others) = Ok b ->
  first_missing fit = Some key ->
  exists w' : World,
    process_file cfg L filepath plate blank_strain ref_strain max_time w
    = (Raise (KeyError key), w').
Proof.
  intros Hplot Hext Hhandler Hparsed Horder Hfit Hbench Hkey.
  eapply process_file_first_strain; try eassumption.
  intros w0. unfold fit_strain, fit_and_plot.
  destruct cfg as [verbose plot prompt]. cbn [PLOT VERBOSE] in *. subst plot.
  rewrite (bind_ok _ _ w0 w0 (fit :: others))
    by (rewrite (bind_call_ok _ _ _ _ Hfit); reflexivity).
  cbn [first_item]. rewrite bind_ret.
  apply bind_raise. unfold summary. rewrite (bind_call_ok _ _ _ _ Hbench).
  unfold first_missing in Hkey.
  destruct (params fit !! "y0") as [y0 |] eqn:Hy0.
  2:{ injection Hkey as <-. apply bind_raise. unfold param_value. now rewrite Hy0. }
  rewrite (bind_param_value _ _ _ _ _ Hy0).
  destruct (params fit !! "K") as [K |] eqn:HK.
  2:{ injection Hkey as <-. apply bind_raise. unfold param_value. now rewrite HK. }
  rewrite (bind_param_value _ _ _ _ _ HK).
  destruct (params fit !! "r") as [r |] eqn:Hr; [discriminate Hkey |].
  injection Hkey as <-. apply bind_raise. unfold param_value. now rewrite Hr.
Qed.

Lemma missing_parameter_raises_witness :
  exists w' : World,
    process_file (mkConfig false false false) Scenario.lib_no_K "data/a.xlsx" Demo.plate
      (Some "0") "1" infinity (mkWorld [] []) = (Raise (KeyError "K"), w').
Proof.
  apply (missing_parameter_raises (mkConfig false false false) Scenario.lib_no_K
           "data/a.xlsx" Demo.plate (Some "0") "1" infinity "data/a" ".xlsx"
           (read_tecan_xlsx Scenario.lib_no_K) Demo.table "1" ["2"]
           Scenario.fit_without_K [] (PyFloat 0.75) "K" (mkWorld [] []));
    reflexivity.
Defined.

(** ** The names in a record *)

Lemma append_nil (b : string) : "" +:+ b = b.
Proof. reflexivity. Qed.

Lemma append_cons (x : ascii) (a b : string) : String x a +:+ b = String x (a +:+ b).
Proof. reflexivity. Qed.

Lemma append_assoc (a b c : string) : (a +:+ b) +:+ c = a +:+ (b +:+ c).
Proof.
  induction a as [| x a IH]; [reflexivity |]. rewrite !append_cons. now rewrite IH.
Qed.

Lemma length_append (a b : string) :
  String.length (a +:+ b) = (String.length a + String.length b)%nat.
Proof.
  induction a as [| x a IH]; [reflexivity |].
  rewrite append_cons. cbn [String.length]. now rewrite IH.
Qed.

Lemma take_append (a b : string) : Py.take (String.length a) (a +:+ b) = a.
Proof.
  induction a as [| x a IH]; [now destruct b |].
  rewrite append_cons. cbn [String.length Py.take]. now rewrite IH.
Qed.

Lemma drop_append (a b : string) : Py.drop (String.length a) (a +:+ b) = b.
Proof.
  induction a as [| x a IH]; [now destruct b |].
  rewrite append_cons. cbn [String.length Py.drop]. exact IH.
Qed.

Lemma take_append_cons (a : string) (x : ascii) (b : string) :
  Py.take (S (String.length a)) (a +:+ String x b) = a +:+ String x "".
Proof.
  induction a as [| y a IH].
  - rewrite !append_nil. cbn. now destruct b.
  - rewrite !append_cons. cbn [String.length Py.take] in *. now rewrite IH.
Qed.

Lemma drop_append_cons (a : string) (x : ascii) (b : string) :
  Py.drop (S (String.length a)) (a +:+ String x b) = b.
Proof.
  induction a as [| y a IH].
  - rewrite append_nil. cbn. now destruct b.
  - rewrite append_cons. cbn [String.length Py.drop] in *. exact IH.
Qed.

Lemma rfind_from_append (c : ascii) (a b : string) :
  forall i last : Z,
    Py.rfind_from c (a +:+ b) i last
    = Py.rfind_from c b (i + Z.of_nat (String.length a)) (Py.rfind_from c a i last).
Proof.
  induction a as [| x a IH]; intros i last.
  - rewrite append_nil. cbn [Py.rfind_from String.length]. now rewrite Z.add_0_r.
  - rewrite append_cons. cbn [Py.rfind_from String.length]. rewrite IH. f_equal. lia.
Qed.

Lemma rfind_from_least (c : ascii) (s : string) :
  forall i last : Z, last < i -> last <= Py.rfind_from c s i last.
Proof.
  induction s as [| x s IH]; intros i last Hlt; cbn [Py.rfind_from]; [lia |].
  destruct (Ascii.eqb x c).
  - pose proof (IH (i + 1) i). lia.
  - apply IH. lia.
Qed.

Lemma rfind_from_absent (c : ascii) (s : string) :
  forall i last : Z,
    last < i -> Py.rfind_from c s i last = last ->
    forall j last' : Z, Py.rfind_from c s j last' = last'.
Proof.
  induction s as [| x s IH]; intros i last Hlt H j last'; cbn [Py.rfind_from] in *;
    [reflexivity |].
  destruct (Ascii.eqb x c).
  - pose proof (rfind_from_least c s (i + 1) i). lia.
  - apply (IH (i + 1) last); [lia | exact H].
Qed.

Lemma rfind_absent (c : ascii) (s : string) :
  Py.rfind c s = -1 -> forall j last : Z, Py.rfind_from c s j last = last.
Proof. apply rfind_from_absent. lia. Qed.

Lemma rfind_cons_absent (c x : ascii) (s : string) :
  Py.rfind c (String x s) = -1 <-> Ascii.eqb x c = false /\ Py.rfind c s = -1.
Proof.
  unfold Py.rfind. cbn [Py.rfind_from]. split.
  - destruct (Ascii.eqb x c).
    + intros H. pose proof (rfind_from_least c s (0 + 1) 0). lia.
    + intros H. split; [reflexivity |].
      apply (rfind_from_absent c s (0 + 1) (-1)); [lia | exact H].
  - intros [-> H]. now apply rfind_absent.
Qed.

Lemma rfind_append_absent (c : ascii) (a b : string) :
  Py.rfind c a = -1 -> Py.rfind c b = -1 -> Py.rfind c (a +:+ b) = -1.
Proof.
  intros Ha Hb. unfold Py.rfind. rewrite rfind_from_append.
  now rewrite (rfind_absent c b Hb).
Qed.

Lemma rfind_last (c : ascii) (a b : string) :
  Py.rfind c b = -1 -> Py.rfind c (a +:+ String c b) = Z.of_nat (String.length a).
Proof.
  intros Hb. unfold Py.rfind. rewrite rfind_from_append. cbn [Py.rfind_from].
  rewrite Ascii.eqb_refl. now rewrite (rfind_absent c b Hb).
Qed.

Lemma rfind_decompose (c : ascii) (s : string) :
  Py.rfind c s = -1
  \/ exists a b : string, s = a +:+ String c b /\ Py.rfind c b = -1.
Proof.
  induction s as [| x s [IH | (a & b & -> & Hb)]].
  - now left.
  - destruct (Ascii.eqb_spec x c) as [-> | Hne].
    + right. now exists "", s.
    + left. apply rfind_cons_absent. split; [now apply Ascii.eqb_neq | exact IH].
  - right. now exists (String x a), b.
Qed.

Lemma has_non_dot_absent (s : string) :
  s <> "" -> Py.rfind Py.dot s = -1 -> Py.has_non_dot s = true.
Proof.
  destruct s as [| x s]; [contradiction |]. intros _ H.
  apply rfind_cons_absent in H as [H _]. cbn. now rewrite H.
Qed.

Lemma has_non_dot_append (a b : string) :
  Py.has_non_dot a = true -> Py.has_non_dot (a +:+ b) = true.
Proof.
  induction a as [| x a IH]; [discriminate |].
  rewrite append_cons. cbn [Py.has_non_dot].
  destruct (Ascii.eqb x Py.dot); [exact IH | reflexivity].
Qed.

Lemma all_slashes_append (a b : string) :
  a <> "" -> Py.endswith_slash a = false -> Py.all_slashes (a +:+ b) = false.
Proof.
  induction a as [| x a IH]; [contradiction |]. intros _ H.
  rewrite append_cons. cbn [Py.all_slashes].
  destruct a as [| y a].
  - cbn in H. now rewrite H.
  - rewrite IH; [apply andb_false_r | discriminate | exact H].
Qed.

Lemma rstrip_slash_append (a : string) :
  a <> "" -> Py.endswith_slash a = false -> Py.rstrip_slash (a +:+ "/") = a.
Proof.
  induction a as [| x a IH]; [contradiction |]. intros _ H.
  rewrite append_cons.
  destruct a as [| y a].
  - cbn in *. now rewrite H.
  - cbn [Py.rstrip_slash]. rewrite IH; [reflexivity | discriminate | exact H].
Qed.

(** The three path functions on a path [dir/name] and on [dir/name.e]. *)
Lemma basename_of_entry (dir name : string) :
  Py.rfind Py.slash name = -1 ->
  Py.basename (dir +:+ "/" +:+ name) = name.
Proof.
  intros Hname. unfold Py.basename, Py.from.
  change (dir +:+ "/" +:+ name) with (dir +:+ String Py.slash name).
  rewrite (rfind_last Py.slash dir name Hname).
  replace (Z.to_nat (Z.of_nat (String.length dir) + 1)) with (S (String.length dir)) by lia.
  apply drop_append_cons.
Qed.

Lemma dirname_of_entry (dir name : string) :
  dir <> "" -> Py.endswith_slash dir = false ->
  Py.rfind Py.slash name = -1 ->
  Py.dirname (dir +:+ "/" +:+ name) = dir.
Proof.
  intros Hdir Hend Hname. unfold Py.dirname, Py.split, Py.upto. cbn [fst].
  change (dir +:+ "/" +:+ name) with (dir +:+ String Py.slash name).
  rewrite (rfind_last Py.slash dir name Hname).
  replace (Z.to_nat (Z.of_nat (String.length dir) + 1)) with (S (String.length dir)) by lia.
  rewrite take_append_cons.
  rewrite (all_slashes_append dir _ Hdir Hend).
  replace (String.eqb (dir +:+ String Py.slash "") "") with false
    by (destruct dir; [contradiction | reflexivity]).
  cbn [negb andb]. now apply rstrip_slash_append.
Qed.

Lemma splitext_of_entry (dir name e : string) :
  Py.rfind Py.slash name = -1 -> Py.has_non_dot name = true ->
  Py.rfind Py.slash e = -1 -> Py.rfind Py.dot e = -1 ->
  Py.splitext (dir +:+ "/" +:+ name +:+ "." +:+ e)
  = (dir +:+ "/" +:+ name, "." +:+ e).
Proof.
  intros Hname Hnd Hes Hed. unfold Py.splitext.
  assert (Hsep : Py.rfind Py.slash (dir +:+ "/" +:+ name +:+ "." +:+ e)
                 = Z.of_nat (String.length dir)).
  { change (dir +:+ "/" +:+ name +:+ "." +:+ e)
      with (dir +:+ String Py.slash (name +:+ String Py.dot e)).
    apply rfind_last. apply rfind_append_absent; [exact Hname |].
    apply rfind_cons_absent. split; [reflexivity | exact Hes]. }
  assert (Hre : dir +:+ "/" +:+ name +:+ "." +:+ e
                = (dir +:+ "/" +:+ name) +:+ String Py.dot e).
  { change ("/" +:+ name +:+ "." +:+ e) with (("/" +:+ name) +:+ String Py.dot e).
    now rewrite <- append_assoc. }
  assert (Hdot : Py.rfind Py.dot (dir +:+ "/" +:+ name +:+ "." +:+ e)
                 = Z.of_nat (String.length (dir +:+ "/" +:+ name))).
  { rewrite Hre. now apply rfind_last. }
  assert (Hlen : (String.length dir < String.length (dir +:+ "/" +:+ name))%nat).
  { change (dir +:+ "/" +:+ name) with (dir +:+ String Py.slash name).
    rewrite length_append. cbn [String.length]. lia. }
  rewrite Hsep, Hdot.
  replace (Z.of_nat (String.length dir) <? Z.of_nat (String.length (dir +:+ "/" +:+ name)))
    with true by (symmetry; apply Z.ltb_lt; lia).
  unfold Py.upto, Py.from. rewrite Nat2Z.id.
  rewrite Hre, !take_append, drop_append.
  replace (Z.to_nat (Z.of_nat (String.length dir) + 1)) with (S (String.length dir)) by lia.
  change (dir +:+ "/" +:+ name) with (dir +:+ String Py.slash name) at 1.
  rewrite drop_append_cons, Hnd. reflexivity.
Qed.

Lemma splitext_of_plain_name (name : string) :
  Py.rfind Py.slash name = -1 -> Py.rfind Py.dot name = -1 ->
  Py.splitext name = (name, "").
Proof. intros Hs Hd. unfold Py.splitext. now rewrite Hs, Hd. Qed.

Lemma splitext_of_dotted_name (stem mid : string) :
  stem <> "" ->
  Py.rfind Py.slash stem = -1 -> Py.rfind Py.dot stem = -1 ->
  Py.rfind Py.slash mid = -1 -> Py.rfind Py.dot mid = -1 ->
  Py.splitext (stem +:+ "." +:+ mid) = (stem, "." +:+ mid).
Proof.
  intros Hne Hss Hsd Hms Hmd. unfold Py.splitext.
  change (stem +:+ "." +:+ mid) with (stem +:+ String Py.dot mid).
  rewrite (rfind_last Py.dot stem mid Hmd).
  rewrite (rfind_append_absent Py.slash stem (String Py.dot mid) Hss)
    by (apply rfind_cons_absent; split; [reflexivity | exact Hms]).
  replace (-1 <? Z.of_nat (String.length stem)) with true
    by (symmetry; apply Z.ltb_lt; lia).
  unfold Py.upto, Py.from. rewrite Nat2Z.id, take_append, drop_append.
  change (Z.to_nat (-1 + 1)) with 0%nat.
  replace (Py.drop 0 stem) with stem by now destruct stem.
  now rewrite (has_non_dot_absent stem Hne Hsd).
Qed.

(** What every record of a file says of the file. *)
Lemma summary_names (cfg : Config) (L : Library) (fn filepath strain : string)
    (frs : list Fit) (fit : Fit) (w w' : World) (res : Result) :
  summary cfg L fn filepath strain frs fit w = (Ok res, w') ->
  res !! "folder" = Some (PyStr (Py.dirname filepath))
  /\ res !! "filename" = Some (PyStr (fst (Py.splitext (Py.basename fn)))).
Proof.
  unfold summary. intros H.
  repeat (apply bind_ok_inv in H as (? & ? & _ & H)).
  injection H as <- _.
  split; repeat (rewrite lookup_insert_ne by discriminate); apply lookup_insert_eq.
Qed.

Lemma body_names (cfg : Config) (L : Library) (fn filepath : string)
    (plate : Plate) (df : DataFrame) (strains : list string)
    (ref_strain strain : string) (ref_fit ref_fit' : option Fit)
    (w w' : World) (res : Result) :
  fit_strain cfg L fn filepath plate df strains ref_strain strain ref_fit w
  = (Ok (res, ref_fit'), w') ->
  res !! "folder" = Some (PyStr (Py.dirname filepath))
  /\ res !! "filename" = Some (PyStr (fst (Py.splitext (Py.basename fn)))).
Proof.
  unfold fit_strain. intros H.
  apply bind_ok_inv in H as (frs & w1 & _ & H).
  apply bind_ok_inv in H as (fit & w2 & _ & H).
  apply bind_ok_inv in H as (res0 & w3 & Hsum & H).
  apply summary_names in Hsum as [Hfolder Hfile].
  destruct (String.eqb strain ref_strain).
  - injection H as <- _ _. now rewrite !lookup_insert_ne by discriminate.
  - destruct (py_in ref_strain strains).
    + apply bind_ok_inv in H as (x & w4 & _ & H). injection H as <- _ _.
      now rewrite !lookup_insert_ne by discriminate.
    + injection H as <- _ _. now split.
Qed.

Lemma process_file_names
    (cfg : Config) (L : Library) (filepath : string) (plate : Plate)
    (blank_strain : option string) (ref_strain : string) (max_time : float)
    (w w' : World) (rs : list Result) :
  process_file cfg L filepath plate blank_strain ref_strain max_time w = (Ok rs, w') ->
  Forall
    (fun res : Result =>
       res !! "folder" = Some (PyStr (Py.dirname filepath))
       /\ res !! "filename"
          = Some (PyStr (fst (Py.splitext (Py.basename (fst (Py.splitext filepath)))))))
    rs.
Proof.
  intros Hrun.
  destruct (file_extension_handlers L !! snd (Py.splitext filepath))
    as [handler |] eqn:Hhandler.
  - assert (Hext : Py.splitext filepath
                   = (fst (Py.splitext filepath), snd (Py.splitext filepath)))
      by now destruct (Py.splitext filepath).
    destruct (process_file_bodies cfg L filepath plate blank_strain ref_strain max_time
                _ _ handler w w' rs Hext Hhandler Hrun) as (df0 & _ & Hall).
    apply (Forall2_right _ _ _ _ Hall).
    intros strain res _ (rf & rf' & w0 & w1 & _ & Hbody).
    exact (body_names _ _ _ _ _ _ _ _ _ _ _ _ _ _ Hbody).
  - rewrite (process_file_no_handler _ _ _ _ _ _ _ _ _ _ Hhandler Hrun). constructor.
Qed.

(** X22.  For a data file [dir/name.e], where [dir] is not empty and does
    not end with a slash, [name] is not empty and has neither slash nor dot,
    and [e] has neither slash nor dot, every record that [process_file]
    returns names the file by its parts: the column [folder] holds [dir] and
    the column [filename] holds [name]; so the path of the file is the folder,
    a slash, the file name and the extension that selected the handler. *)
Theorem records_name_the_file
    (cfg : Config) (L : Library) (dir name e : string) (plate : Plate)
    (blank_strain : option string) (ref_strain : string) (max_time : float)
    (w w' : World) (rs : list Result) :
  dir <> "" -> Py.endswith_slash dir = false ->
  name <> "" -> Py.rfind Py.slash name = -1 -> Py.rfind Py.dot name = -1 ->
  Py.rfind Py.slash e = -1 -> Py.rfind Py.dot e = -1 ->
  process_file cfg L (dir +:+ "/" +:+ name +:+ "." +:+ e)
    plate blank_strain ref_strain max_time w = (Ok rs, w') ->
  snd (Py.splitext (dir +:+ "/" +:+ name +:+ "." +:+ e)) = "." +:+ e
  /\ Forall
       (fun res : Result =>
          res !! "folder" = Some (PyStr dir) /\ res !! "filename" = Some (PyStr name))
       rs.
Proof.
  intros Hdir Hend Hname Hns Hnd Hes Hed Hrun.
  pose proof (splitext_of_entry dir name e Hns (has_non_dot_absent name Hname Hnd) Hes Hed)
    as Hext.
  split; [now rewrite Hext |].
  apply process_file_names in Hrun. rewrite Hext in Hrun. cbn [fst] in Hrun.
  rewrite (basename_of_entry dir name Hns) in Hrun.
  rewrite (splitext_of_plain_name name Hns Hnd) in Hrun. cbn [fst] in Hrun.
  replace (Py.dirname (dir +:+ "/" +:+ name +:+ "." +:+ e)) with dir in Hrun; [exact Hrun |].
  symmetry. apply (dirname_of_entry dir (name +:+ "." +:+ e) Hdir Hend).
  apply rfind_append_absent; [exact Hns |].
  apply rfind_cons_absent. split; [reflexivity | exact Hes].
Qed.

Lemma records_name_the_file_witness :
  snd (Py.splitext "data/a.xlsx") = ".xlsx"
  /\ Forall
       (fun res : Result =>
          res !! "folder" = Some (PyStr "data") /\ res !! "filename" = Some (PyStr "a"))
       Demo.records.
Proof.
  apply (records_name_the_file (mkConfig false true false) Demo.lib "data" "a" "xlsx"
           Demo.plate (Some "0") "1" infinity (mkWorld [] []) (snd Demo.run) Demo.records);
    [discriminate | reflexivity | discriminate | reflexivity | reflexivity | reflexivity
    | reflexivity | exact demo_run_returns].
Defined.

(** X23.  The file name of a record is cut at two extensions, not one: for
    a data file [dir/stem.mid.e], where [stem] is not empty and [stem], [mid]
    and [e] have neither slash nor dot, every record that [process_file]
    returns holds [stem] in the column [filename].  The part [mid] of the
    name is in no column, so the records of [dir/stem.1.e] and of
    [dir/stem.2.e] carry the same folder and the same file name. *)
Theorem filename_is_cut_twice
    (cfg : Config) (L : Library) (dir stem mid e : string) (plate : Plate)
    (blank_strain : option string) (ref_strain : string) (max_time : float)
    (w w' : World) (rs : list Result) :
  stem <> "" -> Py.rfind Py.slash stem = -1 -> Py.rfind Py.dot stem = -1 ->
  Py.rfind Py.slash mid = -1 -> Py.rfind Py.dot mid = -1 ->
  Py.rfind Py.slash e = -1 -> Py.rfind Py.dot e = -1 ->
  process_file cfg L (dir +:+ "/" +:+ (stem +:+ "." +:+ mid) +:+ "." +:+ e)
    plate blank_strain ref_strain max_time w = (Ok rs, w') ->
  Forall (fun res : Result => res !! "filename" = Some (PyStr stem)) rs.
Proof.
  intros Hstem Hss Hsd Hms Hmd Hes Hed Hrun.
  assert (Hns : Py.rfind Py.slash (stem +:+ "." +:+ mid) = -1).
  { apply rfind_append_absent; [exact Hss |].
    apply rfind_cons_absent. split; [reflexivity | exact Hms]. }
  assert (Hnd : Py.has_non_dot (stem +:+ "." +:+ mid) = true)
    by (apply has_non_dot_append; now apply has_non_dot_absent).
  apply process_file_names in Hrun.
  rewrite (splitext_of_entry dir (stem +:+ "." +:+ mid) e Hns Hnd Hes Hed) in Hrun.
  cbn [fst] in Hrun.
  rewrite (basename_of_entry dir _ Hns) in Hrun.
  rewrite (splitext_of_dotted_name stem mid Hstem Hss Hsd Hms Hmd) in Hrun.
  cbn [fst] in Hrun.
  eapply Forall_impl; [exact Hrun |]. now intros res [_ H].
Qed.

Lemma numbered_run_returns :
  process_file (mkConfig false true false) Demo.lib "data/a.1.xlsx" Demo.plate (Some "0") "1"
    infinity (mkWorld [] [])
  = (Ok Scenario.numbered_records, snd Scenario.numbered_run).
Proof.
  assert (H : match fst Scenario.numbered_run with Ok _ => true | Raise _ => false end = true)
    by (vm_compute; reflexivity).
  unfold Scenario.numbered_records. fold Scenario.numbered_run.
  destruct Scenario.numbered_run as [[rs | e] w']; [reflexivity | discriminate H].
Qed.

Lemma filename_is_cut_twice_witness :
  Forall (fun res : Result => res !! "filename" = Some (PyStr "a")) Scenario.numbered_records.
Proof.
  apply (filename_is_cut_twice (mkConfig false true false) Demo.lib "data" "a" "1" "xlsx"
           Demo.plate (Some "0") "1" infinity (mkWorld [] [])
           (snd Scenario.numbered_run) Scenario.numbered_records);
    [discriminate | reflexivity | reflexivity | reflexivity | reflexivity | reflexivity
    | reflexivity | exact numbered_run_returns].
Defined.

(** X24.  [get_filename], which labels the progress bar of the files, gives
    the last component of a path: what it returns has no slash, and for a
    path [dir/name] whose [name] has no slash it returns [name]; for no path
    it returns the empty text. *)
Theorem get_filename_last_component (filepath : string) :
  Py.rfind Py.slash (get_filename (Some filepath)) = -1
  /\ (forall dir name : string,
        filepath = dir +:+ "/" +:+ name -> Py.rfind Py.slash name = -1 ->
        get_filename (Some filepath) = name)
  /\ get_filename None = "".
Proof.
  assert (Hlast : forall dir name : string,
             Py.rfind Py.slash name = -1 ->
             get_filename (Some (dir +:+ String Py.slash name)) = name).
  { intros dir name Hname. unfold get_filename, Py.split, Py.from. cbn [snd].
    rewrite (rfind_last Py.slash dir name Hname).
    replace (Z.to_nat (Z.of_nat (String.length dir) + 1)) with (S (String.length dir))
      by lia.
    apply drop_append_cons. }
  split; [| split; [| reflexivity]].
  - destruct (rfind_decompose Py.slash filepath) as [H | (a & b & -> & Hb)].
    + unfold get_filename, Py.split, Py.from. cbn [snd]. rewrite H.
      change (Z.to_nat (-1 + 1)) with 0%nat.
      replace (Py.drop 0 filepath) with filepath by now destruct filepath.
      exact H.
    + now rewrite (Hlast a b Hb).
  - intros dir name -> Hname. now apply Hlast.
Qed.

(** ** The time limit, and a file that fails *)

(** X25.  A time limit that is not finite is no limit: for a [max_time] that
    is infinite or not a number, [process_file] does what it does for
    [max_time = inf], the parser being called without a time limit. *)
Theorem max_time_not_finite
    (cfg : Config) (L : Library) (filepath : string) (plate : Plate)
    (blank_strain : option string) (ref_strain : string) (max_time : float) (w : World) :
  is_finite max_time = false ->
  process_file cfg L filepath plate blank_strain ref_strain max_time w
  = process_file cfg L filepath plate blank_strain ref_strain infinity w.
Proof.
  intros Hmax. unfold process_file.
  destruct (Py.splitext filepath) as [fn ext].
  destruct (file_extension_handlers L !! ext) as [handler |]; [| reflexivity].
  unfold read_data, parsed. rewrite Hmax. reflexivity.
Qed.

Lemma max_time_not_finite_witness :
  process_file (mkConfig false true false) Demo.lib "data/a.xlsx" Demo.plate (Some "0") "1"
    nan (mkWorld [] [])
  = process_file (mkConfig false true false) Demo.lib "data/a.xlsx" Demo.plate (Some "0") "1"
      infinity (mkWorld [] []).
Proof.
  apply (max_time_not_finite (mkConfig false true false) Demo.lib "data/a.xlsx" Demo.plate
           (Some "0") "1" nan (mkWorld [] [])).
  reflexivity.
Defined.

Lemma mat_run_returns :
  process_files (mkConfig false true false) Scenario.lib_bad_xlsx ["data/c.mat"] Demo.plate
    "0" "1" infinity [] (mkWorld [] [])
  = (Ok Scenario.mat_records, snd Scenario.mat_run).
Proof.
  assert (H : match fst Scenario.mat_run with Ok _ => true | Raise _ => false end = true)
    by (vm_compute; reflexivity).
  unfold Scenario.mat_records. fold Scenario.mat_run.
  destruct Scenario.mat_run as [[rs | e] w']; [reflexivity | discriminate H].
Qed.

(** X26.  The first file that fails ends the loop over the files: when the
    files before it have returned their records and [process_file] raises
    for it, the loop raises the same exception, the files after it are not
    looked at, and nothing has been written, so the records of the files
    before it are lost. *)
Theorem failing_file_ends_the_loop
    (cfg : Config) (L : Library) (plate : Plate) (blank_strain ref_strain : string)
    (max_time : float) (before : list string) (filepath : string) (after : list string)
    (e : exn) :
  forall (results rs : list Result) (w w1 w2 : World),
    process_files cfg L before plate blank_strain ref_strain max_time results w
    = (Ok rs, w1) ->
    process_file cfg L filepath plate (Some blank_strain) ref_strain max_time w1
    = (Raise e, w2) ->
    process_files cfg L (before ++ filepath :: after) plate blank_strain ref_strain
      max_time results w
    = (Raise e, w2)
    /\ written w2 = written w.
Proof.
  induction before as [| f before IH]; intros results rs w w1 w2 Hbefore Hfile.
  - injection Hbefore as _ <-. split.
    + cbn [app process_files]. now apply bind_raise.
    + exact (process_file_same_written _ _ _ _ _ _ _ _ _ _ Hfile).
  - cbn [process_files] in Hbefore.
    apply bind_ok_inv in Hbefore as (frs & w0 & Hf & Hbefore).
    destruct (IH _ _ _ _ _ Hbefore Hfile) as [Hrun Hw]. split.
    + change ((f :: before) ++ filepath :: after) with (f :: (before ++ filepath :: after)).
      cbn [process_files]. rewrite (bind_ok _ _ _ _ _ Hf). exact Hrun.
    + rewrite Hw. exact (process_file_same_written _ _ _ _ _ _ _ _ _ _ Hf).
Qed.

Lemma failing_file_ends_the_loop_witness :
  process_files (mkConfig false true false) Scenario.lib_bad_xlsx
    (["data/c.mat"] ++ "data/a.xlsx" :: ["data/d.mat"]) Demo.plate "0" "1" infinity []
    (mkWorld [] [])
  = (Raise (FileError "data/a.xlsx"
              "parser error, probably not a .xlsx file, Unsupported format"),
     snd Scenario.mat_run)
  /\ written (snd Scenario.mat_run) = written (mkWorld [] []).
Proof.
  apply (failing_file_ends_the_loop (mkConfig false true false) Scenario.lib_bad_xlsx
           Demo.plate "0" "1" infinity ["data/c.mat"] "data/a.xlsx" ["data/d.mat"]
           (FileError "data/a.xlsx"
              "parser error, probably not a .xlsx file, Unsupported format")
           [] Scenario.mat_records (mkWorld [] []) (snd Scenario.mat_run)
           (snd Scenario.mat_run)).
  - exact mat_run_returns.
  - reflexivity.
Defined.

(** ** Without the prompt *)

(** X27.  With the prompt disabled, [analyse] neither draws nor shows the
    plate and asks nothing: its outcome and the state it leaves are the same
    whatever drawing the plate, showing the figure and the answer of the
    user would be. *)
Theorem no_question_without_prompt
    (cfg : Config) (os : OS) (L : Library)
    (draw : Plate -> outcome (Figure L)) (display : Figure L -> outcome unit)
    (answer : string -> bool)
    (path output_file plate_folder plate_file blank_strain ref_strain : string)
    (max_time : float) (w : World) :
  PROMPT cfg = false ->
  analyse cfg (with_answer os answer) (with_plate_plot L draw display)
    path output_file plate_folder plate_file blank_strain ref_strain max_time w
  = analyse cfg os L
      path output_file plate_folder plate_file blank_strain ref_strain max_time w.
Proof.
  intros Hprompt. destruct cfg as [verbose plot prompt]. cbn in Hprompt. subst prompt.
  reflexivity.
Qed.

Lemma no_question_without_prompt_witness :
  analyse (mkConfig false true false)
    (with_answer Demo.os (fun _ => false))
    (with_plate_plot Demo.lib (fun _ => Raise (LibraryError "plot_plate"))
       (fun _ => Raise (LibraryError "show")))
    "data" "out.csv" "plate_templates" "checkerboard.csv" "0" "1" infinity (mkWorld [] [])
  = analyse (mkConfig false true false) Demo.os Demo.lib
      "data" "out.csv" "plate_templates" "checkerboard.csv" "0" "1" infinity (mkWorld [] []).
Proof.
  apply (no_question_without_prompt (mkConfig false true false) Demo.os Demo.lib).
  reflexivity.
Defined.
